(** * The Yahoo OAuth2 provider of goth: model and properties

    A shallow embedding of [providers/yahoo/yahoo.go] together with models of
    the library functions it calls: [unicode/utf8], [encoding/json],
    [net/url], [net/http], [golang.org/x/oauth2] and [time].

    Go strings are byte sequences; they are modelled by [string], whose
    characters are the 256 values of [ascii]. *)

From Stdlib Require Import String Ascii List NArith ZArith Bool Lia.
Import ListNotations.

Local Open Scope string_scope.

(** ** Bytes *)

Definition b2n (c : ascii) : N := N_of_ascii c.
Definition n2b (n : N) : ascii := ascii_of_N n.

(** The double quote. *)
Definition dquote : ascii := "034"%char.

Definition byte_in (lo hi : N) (c : ascii) : bool :=
  ((lo <=? b2n c) && (b2n c <=? hi))%N.

(** ** unicode/utf8 *)

Module utf8.

Definition RuneError : N := 0xFFFD.
Definition RuneSelf : N := 0x80.
Definition MaxRune : N := 0x10FFFF.
Definition surrogateMin : N := 0xD800.
Definition surrogateMax : N := 0xDFFF.

(** The [first] table of the package, with the accept range of the second
    byte that the table entry selects. *)
Inductive lead : Type :=
| LeadASCII
| LeadInvalid
| LeadMulti (size : nat) (lo hi : N).

Definition first (c : ascii) : lead :=
  let n := b2n c in
  if (n <? 0x80)%N then LeadASCII
  else if (n <? 0xC2)%N then LeadInvalid
  else if (n <? 0xE0)%N then LeadMulti 2 0x80 0xBF
  else if (n =? 0xE0)%N then LeadMulti 3 0xA0 0xBF
  else if (n <? 0xED)%N then LeadMulti 3 0x80 0xBF
  else if (n =? 0xED)%N then LeadMulti 3 0x80 0x9F
  else if (n <? 0xF0)%N then LeadMulti 3 0x80 0xBF
  else if (n =? 0xF0)%N then LeadMulti 4 0x90 0xBF
  else if (n <? 0xF4)%N then LeadMulti 4 0x80 0xBF
  else if (n =? 0xF4)%N then LeadMulti 4 0x80 0x8F
  else LeadInvalid.

(** Masks and shifts of the Go code are written with [mod] and
    multiplication: [b & 0x3F] is [b mod 64], [x << 6] is [x * 64]. *)
Definition DecodeRuneInString (s : string) : N * nat :=
  match s with
  | EmptyString => (RuneError, 0%nat)
  | String s0 t =>
    match first s0 with
    | LeadASCII => (b2n s0, 1%nat)
    | LeadInvalid => (RuneError, 1%nat)
    | LeadMulti sz lo hi =>
      if (S (String.length t) <? sz)%nat then (RuneError, 1%nat) else
      match t with
      | EmptyString => (RuneError, 1%nat)
      | String s1 t1 =>
        if negb (byte_in lo hi s1) then (RuneError, 1%nat)
        else if (sz <=? 2)%nat
        then ((b2n s0 mod 32) * 64 + b2n s1 mod 64, 2%nat)%N
        else
        match t1 with
        | EmptyString => (RuneError, 1%nat)
        | String s2 t2 =>
          if negb (byte_in 0x80 0xBF s2) then (RuneError, 1%nat)
          else if (sz <=? 3)%nat
          then ((b2n s0 mod 16) * 4096 + (b2n s1 mod 64) * 64
                + b2n s2 mod 64, 3%nat)%N
          else
          match t2 with
          | EmptyString => (RuneError, 1%nat)
          | String s3 _ =>
            if negb (byte_in 0x80 0xBF s3) then (RuneError, 1%nat)
            else ((b2n s0 mod 8) * 262144 + (b2n s1 mod 64) * 4096
                  + (b2n s2 mod 64) * 64 + b2n s3 mod 64, 4%nat)%N
          end
        end
      end
    end
  end.

Definition encode3 (r : N) : string :=
  String (n2b (0xE0 + r / 4096))
    (String (n2b (0x80 + (r / 64) mod 64))
      (String (n2b (0x80 + r mod 64)) EmptyString)).

(** [utf8.AppendRune] on an empty buffer. *)
Definition EncodeRune (r : N) : string :=
  if (r <=? 0x7F)%N then String (n2b r) EmptyString
  else if (r <=? 0x7FF)%N then
    String (n2b (0xC0 + r / 64)) (String (n2b (0x80 + r mod 64)) EmptyString)
  else if (MaxRune <? r)%N || ((surrogateMin <=? r) && (r <=? surrogateMax))%N
  then encode3 RuneError
  else if (r <=? 0xFFFF)%N then encode3 r
  else
    String (n2b (0xF0 + r / 262144))
      (String (n2b (0x80 + (r / 4096) mod 64))
        (String (n2b (0x80 + (r / 64) mod 64))
          (String (n2b (0x80 + r mod 64)) EmptyString))).

(** [utf8.ValidString]: every rune of the string decodes without error. *)
Fixpoint ValidString (s : string) : bool :=
  match s with
  | EmptyString => true
  | String s0 t =>
    match first s0 with
    | LeadASCII => ValidString t
    | LeadInvalid => false
    | LeadMulti sz lo hi =>
      match t with
      | EmptyString => false
      | String s1 t1 =>
        byte_in lo hi s1 &&
        (if (sz <=? 2)%nat then ValidString t1 else
         match t1 with
         | EmptyString => false
         | String s2 t2 =>
           byte_in 0x80 0xBF s2 &&
           (if (sz <=? 3)%nat then ValidString t2 else
            match t2 with
            | EmptyString => false
            | String s3 t3 => byte_in 0x80 0xBF s3 && ValidString t3
            end)
         end)
      end
    end
  end.

End utf8.
(** ** Errors

    Go's [error] values that the modelled functions can return, one
    constructor per concrete error type. *)

(** A [url.Error]: the operation, the URL and the cause. *)
Record urlError : Type := mkUrlError { Op : string; URL : string; Err : string }.

Inductive error : Type :=
| io_EOF
| io_ErrUnexpectedEOF
| json_SyntaxError
| json_UnmarshalTypeError (value : string) (gotype : string)
| json_phaseError
| json_MarshalerError (cause : string)
| time_ParseError
| url_Error (e : urlError)
| http_RequestError (cause : string)
| oauth2_RetrieveError (status : Z) (body : string)
| errors_New (msg : string).

(** A Go call either returns or panics. *)
Inductive outcome (A : Type) : Type :=
| Return (a : A)
| Panic (msg : string).
Arguments Return {A} a.
Arguments Panic {A} msg.

(** ** encoding/json *)

Module json.

(** *** Encoding of strings *)

Definition hex (n : N) : ascii :=
  match String.get (N.to_nat n) "0123456789abcdef" with
  | Some c => c
  | None => "0"%char
  end.

(** [htmlSafeSet]: the ASCII bytes that need no escape when HTML escaping is
    on, which is the default of [json.Marshal]. *)
Definition htmlSafeSet (c : ascii) : bool :=
  ((0x20 <=? b2n c) && (b2n c <? 0x80))%N &&
  negb (Ascii.eqb c dquote || Ascii.eqb c "\" || Ascii.eqb c "<" ||
        Ascii.eqb c ">" || Ascii.eqb c "&").

Definition escapeASCII (c : ascii) : string :=
  if Ascii.eqb c "\" || Ascii.eqb c dquote then String "\" (String c "")
  else if (b2n c =? 8)%N then "\b"
  else if (b2n c =? 12)%N then "\f"
  else if (b2n c =? 10)%N then "\n"
  else if (b2n c =? 13)%N then "\r"
  else if (b2n c =? 9)%N then "\t"
  else "\u00" ++ String (hex (b2n c / 16)) (String (hex (b2n c mod 16)) "").

Fixpoint take (n : nat) (s : string) : string :=
  match n, s with
  | S k, String c t => String c (take k t)
  | _, _ => ""
  end.

(** The loop of [appendString]. The Go loop advances its index by the size of
    the rune it decoded; here [skip] counts the bytes of that rune which are
    still to be passed over. *)
Fixpoint appendStringFrom (skip : nat) (s : string) : string :=
  match s with
  | EmptyString => ""
  | String c t =>
    match skip with
    | S k => appendStringFrom k t
    | O =>
      if (b2n c <? utf8.RuneSelf)%N then
        (if htmlSafeSet c then String c "" else escapeASCII c)
          ++ appendStringFrom 0 t
      else
        let '(r, size) := utf8.DecodeRuneInString s in
        if (r =? utf8.RuneError)%N && (size =? 1)%nat then
          "\ufffd" ++ appendStringFrom 0 t
        else if (r =? 0x2028)%N || (r =? 0x2029)%N then
          "\u202" ++ String (hex (r mod 16)) (appendStringFrom (size - 1) t)
        else
          take size s ++ appendStringFrom (size - 1) t
    end
  end.

(** The escaped text between the quotes. *)
Definition escapeString (s : string) : string := appendStringFrom 0 s.

Definition appendString (s : string) : string :=
  String dquote (escapeString s ++ String dquote "").

(** *** Decoding of strings: [unquote] *)

Definition hexval (c : ascii) : option N :=
  let n := b2n c in
  if byte_in 48 57 c then Some (n - 48)%N
  else if byte_in 97 102 c then Some (n - 97 + 10)%N
  else if byte_in 65 70 c then Some (n - 65 + 10)%N
  else None.

Definition getu4digits (h1 h2 h3 h4 : ascii) : option N :=
  match hexval h1, hexval h2, hexval h3, hexval h4 with
  | Some a, Some b, Some c, Some d => Some (((a * 16 + b) * 16 + c) * 16 + d)%N
  | _, _, _, _ => None
  end.

(** [getu4]: the rune of a [\uXXXX] escape at the head of the text. *)
Definition getu4 (s : string) : option N :=
  match s with
  | String "\" (String "u" (String h1 (String h2 (String h3 (String h4 _))))) =>
    getu4digits h1 h2 h3 h4
  | _ => None
  end.

Definition IsSurrogate (r : N) : bool := ((0xD800 <=? r) && (r <? 0xE000))%N.

(** [utf16.DecodeRune]. *)
Definition utf16_DecodeRune (r1 r2 : N) : N :=
  if ((0xD800 <=? r1) && (r1 <? 0xDC00) && (0xDC00 <=? r2) && (r2 <? 0xE000))%N
  then ((r1 - 0xD800) * 1024 + (r2 - 0xDC00) + 0x10000)%N
  else utf8.RuneError.

Definition simpleEscape (c : ascii) : option ascii :=
  if Ascii.eqb c dquote || Ascii.eqb c "\" || Ascii.eqb c "/" || Ascii.eqb c "'"
  then Some c
  else if Ascii.eqb c "b" then Some (n2b 8)
  else if Ascii.eqb c "f" then Some (n2b 12)
  else if Ascii.eqb c "n" then Some (n2b 10)
  else if Ascii.eqb c "r" then Some (n2b 13)
  else if Ascii.eqb c "t" then Some (n2b 9)
  else None.

Definition omap_app (p : string) (o : option string) : option string :=
  match o with Some s => Some (p ++ s) | None => None end.

(** The unquoting loop of [unquoteBytes], on the text between the quotes.
    [skip] is as in [appendStringFrom]. *)
Fixpoint unquoteFrom (skip : nat) (s : string) : option string :=
  match s with
  | EmptyString => Some ""
  | String c t =>
    match skip with
    | S k => unquoteFrom k t
    | O =>
      if Ascii.eqb c "\" then
        match t with
        | EmptyString => None
        | String e t1 =>
          if Ascii.eqb e "u" then
            match t1 with
            | String h1 (String h2 (String h3 (String h4 t2))) =>
              match getu4digits h1 h2 h3 h4 with
              | None => None
              | Some rr =>
                if IsSurrogate rr then
                  match t2 with
                  | String "\" (String "u"
                      (String g1 (String g2 (String g3 (String g4 t3))))) =>
                    match getu4digits g1 g2 g3 g4 with
                    | Some rr1 =>
                      let dec := utf16_DecodeRune rr rr1 in
                      if (dec =? utf8.RuneError)%N
                      then omap_app (utf8.EncodeRune utf8.RuneError)
                             (unquoteFrom 0 t2)
                      else omap_app (utf8.EncodeRune dec) (unquoteFrom 0 t3)
                    | None => omap_app (utf8.EncodeRune utf8.RuneError)
                                (unquoteFrom 0 t2)
                    end
                  | _ => omap_app (utf8.EncodeRune utf8.RuneError)
                           (unquoteFrom 0 t2)
                  end
                else omap_app (utf8.EncodeRune rr) (unquoteFrom 0 t2)
              end
            | _ => None
            end
          else
            match simpleEscape e with
            | Some b => omap_app (String b "") (unquoteFrom 0 t1)
            | None => None
            end
        end
      else if Ascii.eqb c dquote || (b2n c <? 0x20)%N then None
      else if (b2n c <? utf8.RuneSelf)%N then
        omap_app (String c "") (unquoteFrom 0 t)
      else
        let '(rr, size) := utf8.DecodeRuneInString s in
        omap_app (utf8.EncodeRune rr) (unquoteFrom (size - 1) t)
    end
  end.

Definition unquote (raw : string) : option string := unquoteFrom 0 raw.

End json.

(** *** The scanner and the values it recognises *)

Module scanner.

(** A JSON value as the decoder sees it. String literals and object keys keep
    their raw text (the bytes between the quotes): the decoder unquotes a
    literal only when it stores it. *)
#[warnings="-register-all"]
Inductive value : Type :=
| JNull
| JBool (b : bool)
| JNumber (lit : string)
| JString (raw : string)
| JArray (elems : list value)
| JObject (members : list (string * value)).

(** The parse stack ([parseState]), each entry with the part of the
    container read so far, last read first. [FObjKey] and [FObjColon] are
    [parseObjectKey] before and after the key; [FObjVal] and [FObjNext] are
    [parseObjectValue] before and after the value. *)
Inductive frame : Type :=
| FArr (elems : list value)
| FObjKey (members : list (string * value))
| FObjColon (members : list (string * value)) (key : string)
| FObjVal (members : list (string * value)) (key : string)
| FObjNext (members : list (string * value)).

(** The step functions of the scanner. States inside a literal carry the
    text read so far. [InLit rest v] is inside [true], [false] or [null],
    with [rest] still expected; [EndTop v] is [stateEndValue] with an empty
    parse stack. *)
Inductive step : Type :=
| BeginValue
| BeginValueOrEmpty
| BeginStringOrEmpty
| BeginString
| EndValue
| EndTop (v : value)
| InString (acc : string)
| InStringEsc (acc : string)
| InStringEscU (acc : string) (seen : nat)
| Neg (acc : string)
| Num1 (acc : string)
| Num0 (acc : string)
| Dot (acc : string)
| Dot0 (acc : string)
| NumE (acc : string)
| ESign (acc : string)
| E0 (acc : string)
| InLit (rest : string) (v : value).

Definition state : Type := step * list frame.

(** What one byte does: go on, end the top-level value before this byte
    ([scanEnd]), end it with this byte (a closing bracket), or fail. *)
Inductive result : Type :=
| Cont (st : state)
| EndBefore (v : value)
| EndAt (v : value)
| ScanError.

Definition maxNestingDepth : N := 10000.

Definition isSpace (c : ascii) : bool :=
  (b2n c =? 32)%N || (b2n c =? 9)%N || (b2n c =? 13)%N || (b2n c =? 10)%N.

Definition isDigit (c : ascii) : bool := byte_in 48 57 c.

Definition snoc (s : string) (c : ascii) : string := s ++ String c "".

(** A finished value goes to the container on top of the stack. *)
Definition deliver (v : value) (stk : list frame) : option state :=
  match stk with
  | [] => Some (EndTop v, [])
  | FArr es :: r => Some (EndValue, FArr (v :: es) :: r)
  | FObjKey ms :: r =>
    match v with
    | JString raw => Some (EndValue, FObjColon ms raw :: r)
    | _ => None
    end
  | FObjVal ms k :: r => Some (EndValue, FObjNext ((k, v) :: ms) :: r)
  | _ => None
  end.

Definition continue (o : option state) : result :=
  match o with Some st => Cont st | None => ScanError end.

(** [popParseState] at a closing bracket. *)
Definition close (v : value) (r : list frame) : result :=
  match r with
  | [] => EndAt v
  | _ => continue (deliver v r)
  end.

Definition pushParseState (next : step) (f : frame) (stk : list frame)
  : result :=
  if (N.of_nat (List.length (f :: stk)) <=? maxNestingDepth)%N
  then Cont (next, f :: stk) else ScanError.

Definition stateEndValue (stk : list frame) (c : ascii) : result :=
  match stk with
  | [] => ScanError
  | f :: r =>
    if isSpace c then Cont (EndValue, stk) else
    match f with
    | FObjColon ms k =>
      if Ascii.eqb c ":" then Cont (BeginValue, FObjVal ms k :: r)
      else ScanError
    | FObjNext ms =>
      if Ascii.eqb c "," then Cont (BeginString, FObjKey ms :: r)
      else if Ascii.eqb c "}" then close (JObject (rev ms)) r
      else ScanError
    | FArr es =>
      if Ascii.eqb c "," then Cont (BeginValue, FArr es :: r)
      else if Ascii.eqb c "]" then close (JArray (rev es)) r
      else ScanError
    | _ => ScanError
    end
  end.

(** A literal that ends before byte [c]: the value is delivered and [c] is
    then read by [stateEndValue]. *)
Definition endLiteral (v : value) (stk : list frame) (c : ascii) : result :=
  match deliver v stk with
  | Some (EndTop v', _) => EndBefore v'
  | Some (_, stk') => stateEndValue stk' c
  | None => ScanError
  end.

Definition stateBeginValue (stk : list frame) (c : ascii) : result :=
  if isSpace c then Cont (BeginValue, stk)
  else if Ascii.eqb c "{" then pushParseState BeginStringOrEmpty (FObjKey []) stk
  else if Ascii.eqb c "[" then pushParseState BeginValueOrEmpty (FArr []) stk
  else if Ascii.eqb c dquote then Cont (InString "", stk)
  else if Ascii.eqb c "-" then Cont (Neg "-", stk)
  else if Ascii.eqb c "0" then Cont (Num0 "0", stk)
  else if Ascii.eqb c "t" then Cont (InLit "rue" (JBool true), stk)
  else if Ascii.eqb c "f" then Cont (InLit "alse" (JBool false), stk)
  else if Ascii.eqb c "n" then Cont (InLit "ull" JNull, stk)
  else if byte_in 49 57 c then Cont (Num1 (String c ""), stk)
  else ScanError.

Definition stateBeginString (stk : list frame) (c : ascii) : result :=
  if isSpace c then Cont (BeginString, stk)
  else if Ascii.eqb c dquote then Cont (InString "", stk)
  else ScanError.

Definition state0 (acc : string) (stk : list frame) (c : ascii) : result :=
  if Ascii.eqb c "." then Cont (Dot (snoc acc c), stk)
  else if Ascii.eqb c "e" || Ascii.eqb c "E" then Cont (NumE (snoc acc c), stk)
  else endLiteral (JNumber acc) stk c.

Definition stateESign (acc : string) (stk : list frame) (c : ascii) : result :=
  if isDigit c then Cont (E0 (snoc acc c), stk) else ScanError.

Definition scan (st : state) (c : ascii) : result :=
  let '(s, stk) := st in
  match s with
  | BeginValue => stateBeginValue stk c
  | BeginValueOrEmpty =>
    if isSpace c then Cont (BeginValueOrEmpty, stk)
    else if Ascii.eqb c "]" then stateEndValue stk c
    else stateBeginValue stk c
  | BeginStringOrEmpty =>
    if isSpace c then Cont (BeginStringOrEmpty, stk)
    else if Ascii.eqb c "}" then
      match stk with
      | FObjKey ms :: r => stateEndValue (FObjNext ms :: r) c
      | _ => ScanError
      end
    else stateBeginString stk c
  | BeginString => stateBeginString stk c
  | EndValue => stateEndValue stk c
  | EndTop v => EndBefore v
  | InString acc =>
    if Ascii.eqb c dquote then continue (deliver (JString acc) stk)
    else if Ascii.eqb c "\" then Cont (InStringEsc (snoc acc c), stk)
    else if (b2n c <? 0x20)%N then ScanError
    else Cont (InString (snoc acc c), stk)
  | InStringEsc acc =>
    if Ascii.eqb c "b" || Ascii.eqb c "f" || Ascii.eqb c "n" || Ascii.eqb c "r"
       || Ascii.eqb c "t" || Ascii.eqb c "\" || Ascii.eqb c "/"
       || Ascii.eqb c dquote
    then Cont (InString (snoc acc c), stk)
    else if Ascii.eqb c "u" then Cont (InStringEscU (snoc acc c) 0, stk)
    else ScanError
  | InStringEscU acc seen =>
    match json.hexval c with
    | Some _ =>
      if (seen <? 3)%nat then Cont (InStringEscU (snoc acc c) (S seen), stk)
      else Cont (InString (snoc acc c), stk)
    | None => ScanError
    end
  | Neg acc =>
    if Ascii.eqb c "0" then Cont (Num0 (snoc acc c), stk)
    else if byte_in 49 57 c then Cont (Num1 (snoc acc c), stk)
    else ScanError
  | Num1 acc =>
    if isDigit c then Cont (Num1 (snoc acc c), stk) else state0 acc stk c
  | Num0 acc => state0 acc stk c
  | Dot acc =>
    if isDigit c then Cont (Dot0 (snoc acc c), stk) else ScanError
  | Dot0 acc =>
    if isDigit c then Cont (Dot0 (snoc acc c), stk)
    else if Ascii.eqb c "e" || Ascii.eqb c "E" then Cont (NumE (snoc acc c), stk)
    else endLiteral (JNumber acc) stk c
  | NumE acc =>
    if Ascii.eqb c "+" || Ascii.eqb c "-" then Cont (ESign (snoc acc c), stk)
    else stateESign acc stk c
  | ESign acc => stateESign acc stk c
  | E0 acc =>
    if isDigit c then Cont (E0 (snoc acc c), stk)
    else endLiteral (JNumber acc) stk c
  | InLit rest v =>
    match rest with
    | String e rest' =>
      if Ascii.eqb c e then
        match rest' with
        | EmptyString => continue (deliver v stk)
        | _ => Cont (InLit rest' v, stk)
        end
      else ScanError
    | EmptyString => ScanError
    end
  end.

Definition nonSpace (s : string) : bool :=
  existsb (fun c => negb (isSpace c)) (list_ascii_of_string s).

(** [Decoder.readValue]: feeds the scanner byte by byte until the first
    top-level value ends; the result is the value and the input after it.
    At the end of the input the value is complete if a space would end it. *)
Fixpoint readFrom (st : state) (input : string) (all : string)
  : error + (value * string) :=
  match input with
  | EmptyString =>
    match scan st " " with
    | EndBefore v => inr (v, "")
    | _ => inl (if nonSpace all then io_ErrUnexpectedEOF else io_EOF)
    end
  | String c rest =>
    match scan st c with
    | Cont st' => readFrom st' rest all
    | EndBefore v => inr (v, input)
    | EndAt v => inr (v, rest)
    | ScanError => inl json_SyntaxError
    end
  end.

Definition readValue (input : string) : error + (value * string) :=
  readFrom (BeginValue, []) input input.

End scanner.

(** ** time

    A [time.Time] is modelled by the instant it denotes and the offset of its
    location: [sec] and [nsec] count from January 1 of year 1, 00:00:00 UTC,
    as the package does internally, and [offset] is the number of seconds
    east of UTC. The monotonic clock reading and the location's name are not
    part of the model. *)

Module time.

Record Time : Type := mkTime { sec : Z; nsec : Z; offset : Z }.

(** The zero value of the type: January 1, year 1, 00:00:00 UTC. *)
Definition zero : Time := mkTime 0 0 0.

(** Every value of the Go type has its nanoseconds in [0, 999999999]. *)
Definition wf (t : Time) : Prop := (0 <= nsec t < 1000000000)%Z.

Local Open Scope Z_scope.

Definition isLeap (year : Z) : bool :=
  (year mod 4 =? 0) && (negb (year mod 100 =? 0) || (year mod 400 =? 0)).

Definition daysIn (month year : Z) : Z :=
  if month =? 2 then (if isLeap year then 29 else 28)
  else if (month =? 4) || (month =? 6) || (month =? 9) || (month =? 11) then 30
  else 31.

(** The day count of a date of the proleptic Gregorian calendar, from
    January 1 of year 1. Years are taken from March, in cycles of 400. *)
Definition daysFromCivil (y m d : Z) : Z :=
  let y' := if m <=? 2 then y - 1 else y in
  let era := y' / 400 in
  let yoe := y' - era * 400 in
  let mp := if 2 <? m then m - 3 else m + 9 in
  let doy := (153 * mp + 2) / 5 + d - 1 in
  let doe := yoe * 365 + yoe / 4 - yoe / 100 + doy in
  era * 146097 + doe - 306.

(** The date of a day count: the inverse of [daysFromCivil]. *)
Definition civilFromDays (z : Z) : Z * Z * Z :=
  let z' := z + 306 in
  let era := z' / 146097 in
  let doe := z' - era * 146097 in
  let yoe := (doe - doe / 1460 + doe / 36524 - doe / 146096) / 365 in
  let doy := doe - (365 * yoe + yoe / 4 - yoe / 100) in
  let mp := (5 * doy + 2) / 153 in
  let d := doy - (153 * mp + 2) / 5 + 1 in
  let m := if mp <? 10 then mp + 3 else mp - 9 in
  let y := yoe + era * 400 in
  (if m <=? 2 then y + 1 else y, m, d).

(** The time as the clock of its location shows it: seconds since January 1
    of year 1, 00:00:00 in that location. *)
Definition abs (t : Time) : Z := sec t + offset t.

Definition Year (t : Time) : Z :=
  let '(y, _, _) := civilFromDays (abs t / 86400) in y.

(** *** Formatting *)

Definition digit (n : Z) : ascii := n2b (48 + Z.to_N n).

(** [appendInt] of a number in [0, 10^width): zero-padded decimal. *)
Fixpoint digits (width : nat) (n : Z) : string :=
  match width with
  | O => ""
  | S w => digits w (n / 10) ++ String (digit (n mod 10)) ""
  end.

(** A run of digits without its trailing zeros. *)
Fixpoint trimRight (s : string) : string :=
  match s with
  | EmptyString => ""
  | String c t =>
    match trimRight t with
    | EmptyString => if Ascii.eqb c "0" then "" else String c ""
    | t' => String c t'
    end
  end.

(** [appendNano] with the layout [.999999999]: nothing for zero, else the
    nine digits without their trailing zeros. *)
Definition appendNano (ns : Z) : string :=
  if ns =? 0 then "" else String "." (trimRight (digits 9 ns)).

(** The zone of [appendFormatRFC3339]. Go's [/] and [%] truncate. *)
Definition appendZone (off : Z) : string :=
  if off =? 0 then "Z"
  else
    let zone := Z.quot off 60 in
    let sign := if zone <? 0 then "-" else "+" in
    let zone := Z.abs zone in
    (sign ++ digits 2 (Z.quot zone 60) ++ ":" ++ digits 2 (Z.rem zone 60))%string.

Definition appendFormatRFC3339 (t : Time) : string :=
  let a := abs t in
  let '(y, m, d) := civilFromDays (a / 86400) in
  let s := a mod 86400 in
  (digits 4 y ++ "-" ++ digits 2 m ++ "-" ++ digits 2 d ++ "T"
   ++ digits 2 (s / 3600) ++ ":" ++ digits 2 ((s / 60) mod 60) ++ ":"
   ++ digits 2 (s mod 60) ++ appendNano (nsec t) ++ appendZone (offset t))%string.

(** [Time.MarshalJSON]: the quoted RFC 3339 text. Not every time has one:
    the year must have four digits and the zone hour two, below 24. *)
Definition MarshalJSON (t : Time) : error + string :=
  let y := Year t in
  if (y <? 0) || (9999 <? y) then
    inl (errors_New "Time.MarshalJSON: year outside of range [0,9999]")
  else if 24 <=? Z.quot (Z.abs (Z.quot (offset t) 60)) 60 then
    inl (errors_New "Time.MarshalJSON: timezone hour outside of range [0,23]")
  else inr (String dquote (appendFormatRFC3339 t ++ String dquote ""))%string.

(** *** Parsing *)

Definition digitval (c : ascii) : option Z :=
  if byte_in 48 57 c then Some (Z.of_N (b2n c) - 48) else None.

(** [parseUint]: a run of decimal digits, with its bounds. *)
Fixpoint parseDigits (acc : Z) (s : string) : option Z :=
  match s with
  | EmptyString => Some acc
  | String c t =>
    match digitval c with
    | Some v => parseDigits (acc * 10 + v) t
    | None => None
    end
  end.

Definition parseUint (s : string) (lo hi : Z) : option Z :=
  match parseDigits 0 s with
  | Some n => if (lo <=? n) && (n <=? hi) then Some n else None
  | None => None
  end.

(** The leading digits of a text and what follows them. *)
Fixpoint spanDigits (s : string) : string * string :=
  match s with
  | String c t =>
    if byte_in 48 57 c
    then let '(ds, rest) := spanDigits t in (String c ds, rest)
    else ("", s)
  | EmptyString => ("", "")
  end.

(** [parseNanoseconds]: the digits after the point, of which nine count. *)
Definition parseNanoseconds (ds : string) : option Z :=
  let ds9 := json.take 9 ds in
  match parseDigits 0 ds9 with
  | Some n => Some (n * 10 ^ (9 - Z.of_nat (String.length ds9)))
  | None => None
  end.

Definition parseZone (s : string) : option Z :=
  match s with
  | String "Z" EmptyString => Some 0
  | String sg (String h1 (String h2 (String c (String m1 (String m2 EmptyString))))) =>
    if (Ascii.eqb sg "+" || Ascii.eqb sg "-") && Ascii.eqb c ":" then
      match parseUint (String h1 (String h2 "")) 0 23,
            parseUint (String m1 (String m2 "")) 0 59 with
      | Some hr, Some mm =>
        let z := (hr * 60 + mm) * 60 in
        Some (if Ascii.eqb sg "-" then - z else z)
      | _, _ => None
      end
    else None
  | _ => None
  end.

(** The fraction of a second, when the text starts with one, and what
    follows it. A point that no digit follows is no fraction. *)
Definition parseFraction (s : string) : option Z * string :=
  match s with
  | String "." (String f t) =>
    if byte_in 48 57 f
    then let '(ds, r) := spanDigits (String f t) in (parseNanoseconds ds, r)
    else (Some 0, s)
  | _ => (Some 0, s)
  end.

(** [parseRFC3339]: [2006-01-02T15:04:05], an optional fraction, and [Z] or
    a numeric zone. *)
Definition parseRFC3339 (s : string) : option Time :=
  match s with
  | String y1 (String y2 (String y3 (String y4 (String c1
    (String mo1 (String mo2 (String c2
    (String d1 (String d2 (String c3
    (String h1 (String h2 (String c4
    (String mi1 (String mi2 (String c5
    (String s1 (String s2 rest)))))))))))))))))) =>
    if Ascii.eqb c1 "-" && Ascii.eqb c2 "-" && Ascii.eqb c3 "T"
       && Ascii.eqb c4 ":" && Ascii.eqb c5 ":" then
      match parseUint (String y1 (String y2 (String y3 (String y4 ""))))
              0 9999,
            parseUint (String mo1 (String mo2 "")) 1 12 with
      | Some year, Some month =>
        match parseUint (String d1 (String d2 "")) 1 (daysIn month year),
              parseUint (String h1 (String h2 "")) 0 23,
              parseUint (String mi1 (String mi2 "")) 0 59,
              parseUint (String s1 (String s2 "")) 0 59 with
        | Some day, Some hour, Some min, Some second =>
          let '(ns, rest') := parseFraction rest in
          match ns, parseZone rest' with
          | Some ns, Some zoneOffset =>
            Some (mkTime (daysFromCivil year month day * 86400
                          + hour * 3600 + min * 60 + second - zoneOffset)
                         ns zoneOffset)
          | _, _ => None
          end
        | _, _, _, _ => None
        end
      | _, _ => None
      end
    else None
  | _ => None
  end.

(** [time.Parse] with the layout [RFC3339]. It takes the texts of RFC 3339
    and a few others (an hour of one digit, a comma before the fraction) and
    is not modelled: what it answers is a parameter. *)
Definition Parse : Type := string -> option Time.

(** The [Parse] that takes no text at all. *)
Definition noParse : Parse := fun _ => None.

(** [parseStrictRFC3339]: the text is read by [parseRFC3339], and by
    [Parse] when that refuses it. *)
Definition parseStrictRFC3339 (parse : Parse) (s : string) : option Time :=
  match parseRFC3339 s with
  | Some t => Some t
  | None => parse s
  end.

End time.

(** *** Decoding into Go values *)

Module decode.

Import scanner.

(** The state of a decode in progress: the target as written so far with the
    first type error met ([savedError]), or the error that stopped it. A Go
    decode writes into its target as it goes, so a stopped decode still has
    a target. *)
Inductive decoded (T : Type) : Type :=
| Going (cur : T) (saved : option error)
| Stopped (cur : T) (err : error).
Arguments Going {T} cur saved.
Arguments Stopped {T} cur err.

Definition decoder (T : Type) : Type := value -> T -> option error -> decoded T.

Definition saveError (saved : option error) (e : error) : option error :=
  match saved with
  | None => Some e
  | Some _ => saved
  end.

(** The name of a value's kind in an [UnmarshalTypeError]. *)
Definition kind (v : value) : string :=
  match v with
  | JNull => "null"
  | JBool _ => "bool"
  | JNumber _ => "number"
  | JString _ => "string"
  | JArray _ => "array"
  | JObject _ => "object"
  end.

(** A JSON value into a Go [string]: a string literal is unquoted and
    stored, [null] leaves the target as it is, anything else is a type
    error, after which the decode goes on. *)
Definition string_ : decoder string :=
  fun v cur saved =>
    match v with
    | JString raw =>
      match json.unquote raw with
      | Some s => Going s saved
      | None => Stopped cur json_phaseError
      end
    | JNull => Going cur saved
    | _ => Going cur (saveError saved (json_UnmarshalTypeError (kind v) "string"))
    end.

(** [foldName]: the key under which a name is found when no field has
    exactly that name. ASCII letters go to upper case, and the two runes
    outside ASCII whose case orbit has an ASCII letter go to that letter:
    U+017F (bytes C5 BF) to S and U+212A (bytes E2 84 AA) to K. Every other
    rune outside ASCII folds to a rune outside ASCII; its bytes are kept,
    which compares with the folded name of an ASCII field the same way. *)
Fixpoint foldName (s : string) : string :=
  match s with
  | EmptyString => ""
  | String c t =>
    if byte_in 97 122 c then String (n2b (b2n c - 32)) (foldName t)
    else if (b2n c =? 0xC5)%N then
      match t with
      | String c1 t1 =>
        if (b2n c1 =? 0xBF)%N then String "S" (foldName t1)
        else String c (foldName t)
      | EmptyString => String c ""
      end
    else if (b2n c =? 0xE2)%N then
      match t with
      | String c1 (String c2 t2) =>
        if ((b2n c1 =? 0x84) && (b2n c2 =? 0xAA))%N then String "K" (foldName t2)
        else String c (foldName t)
      | _ => String c (foldName t)
      end
    else String c (foldName t)
  end.

(** The fields of a struct type: JSON name and decoder into the struct. *)
Definition fields (T : Type) : Type := list (string * decoder T).

Definition findField {T : Type} (fs : fields T) (key : string)
  : option (decoder T) :=
  match find (fun f => String.eqb (fst f) key) fs with
  | Some f => Some (snd f)
  | None =>
    match find (fun f => String.eqb (foldName (fst f)) (foldName key)) fs with
    | Some f => Some (snd f)
    | None => None
    end
  end.

(** The loop of [decodeState.object] over the members of an object, in
    their order: a key with no field is skipped, a later member for the same
    field overwrites an earlier one. *)
Fixpoint members {T : Type} (fs : fields T) (ms : list (string * value))
  (cur : T) (saved : option error) : decoded T :=
  match ms with
  | [] => Going cur saved
  | (rawkey, v) :: rest =>
    match json.unquote rawkey with
    | None => Stopped cur json_phaseError
    | Some key =>
      match findField fs key with
      | None => members fs rest cur saved
      | Some dec =>
        match dec v cur saved with
        | Going cur' saved' => members fs rest cur' saved'
        | Stopped cur' e => Stopped cur' e
        end
      end
    end
  end.

(** A JSON value into a Go struct of type [gotype]. *)
Definition struct {T : Type} (gotype : string) (fs : fields T) : decoder T :=
  fun v cur saved =>
    match v with
    | JObject ms => members fs ms cur saved
    | JNull => Going cur saved
    | _ => Going cur (saveError saved (json_UnmarshalTypeError (kind v) gotype))
    end.

(** A field of type [F] inside a struct of type [T]. *)
Definition field {T F : Type} (get : T -> F) (set : F -> T -> T)
  (dec : decoder F) : decoder T :=
  fun v cur saved =>
    match dec v (get cur) saved with
    | Going f saved' => Going (set f cur) saved'
    | Stopped f e => Stopped (set f cur) e
    end.

(** A JSON value into a [time.Time], through [Time.UnmarshalJSON]: [null]
    is accepted and changes nothing, a string literal is parsed from its raw
    text, anything else is an error. The result of the parse is assigned
    whether it succeeds or not, so that a text that does not parse leaves
    the zero time. An error of an [Unmarshaler] stops the decode. *)
Definition time_ (parse : time.Parse) : decoder time.Time :=
  fun v cur saved =>
    match v with
    | JNull => Going cur saved
    | JString raw =>
      match time.parseStrictRFC3339 parse raw with
      | Some t => Going t saved
      | None => Stopped time.zero time_ParseError
      end
    | _ => Stopped cur time_ParseError
    end.

(** The target of a decode as it stands. *)
Definition target {T : Type} (d : decoded T) : T :=
  match d with
  | Going cur _ => cur
  | Stopped cur _ => cur
  end.

(** [decodeState.unmarshal]: the result of the decode and its error. *)
Definition unmarshal {T : Type} (dec : decoder T) (v : value) (target : T)
  : T * option error :=
  match dec v target None with
  | Going cur saved => (cur, saved)
  | Stopped cur e => (cur, Some e)
  end.

(** [json.NewDecoder(r).Decode(&target)] on a reader that yields [input]:
    the first JSON value of the input is read whole, then decoded. What
    follows the value stays in the decoder's buffer, unread. *)
Definition Decode {T : Type} (dec : decoder T) (input : string) (target : T)
  : T * option error :=
  match readValue input with
  | inl e => (target, Some e)
  | inr (v, _) => unmarshal dec v target
  end.

End decode.

(** ** strings and net/url *)

Module strings.

Fixpoint Join (elems : list string) (sep : string) : string :=
  match elems with
  | [] => ""
  | [e] => e
  | e :: rest => e ++ sep ++ Join rest sep
  end.

Fixpoint HasPrefix (s prefix : string) : bool :=
  match prefix, s with
  | EmptyString, _ => true
  | String p pt, String c t => Ascii.eqb p c && HasPrefix t pt
  | String _ _, EmptyString => false
  end.

Fixpoint Contains (s substr : string) : bool :=
  HasPrefix s substr ||
  match s with
  | EmptyString => false
  | String _ t => Contains t substr
  end.

End strings.

Module url.

Definition upperhex (n : N) : ascii :=
  match String.get (N.to_nat n) "0123456789ABCDEF" with
  | Some c => c
  | None => "0"%char
  end.

(** [shouldEscape] in the mode [encodeQueryComponent]: letters, digits and
    [-_.~] stay, every other byte is escaped. *)
Definition shouldEscape (c : ascii) : bool :=
  negb (byte_in 97 122 c || byte_in 65 90 c || byte_in 48 57 c ||
        Ascii.eqb c "-" || Ascii.eqb c "_" || Ascii.eqb c "." || Ascii.eqb c "~").

Fixpoint QueryEscape (s : string) : string :=
  match s with
  | EmptyString => ""
  | String c t =>
    if shouldEscape c then
      if Ascii.eqb c " " then String "+" (QueryEscape t)
      else String "%" (String (upperhex (b2n c / 16))
                        (String (upperhex (b2n c mod 16)) (QueryEscape t)))
    else String c (QueryEscape t)
  end.

(** [QueryUnescape]; it fails on a [%] that two hexadecimal digits do not
    follow. *)
Fixpoint QueryUnescape (s : string) : option string :=
  match s with
  | EmptyString => Some ""
  | String c t =>
    if Ascii.eqb c "%" then
      match t with
      | String h1 (String h2 t') =>
        match json.hexval h1, json.hexval h2 with
        | Some a, Some b =>
          json.omap_app (String (n2b (a * 16 + b)) "") (QueryUnescape t')
        | _, _ => None
        end
      | _ => None
      end
    else if Ascii.eqb c "+" then json.omap_app " " (QueryUnescape t)
    else json.omap_app (String c "") (QueryUnescape t)
  end.

(** [url.Values] is a map from keys to lists of values; it is kept as a list
    of bindings with distinct keys. *)
Definition Values : Type := list (string * list string).

Fixpoint Set_ (v : Values) (key value : string) : Values :=
  match v with
  | [] => [(key, [value])]
  | (k, vs) :: rest =>
    if String.eqb k key then (k, [value]) :: rest
    else (k, vs) :: Set_ rest key value
  end.

Fixpoint insertSorted (b : string * list string) (v : Values) : Values :=
  match v with
  | [] => [b]
  | b' :: rest =>
    if String.leb (fst b) (fst b') then b :: v
    else b' :: insertSorted b rest
  end.

(** The bindings in the order of their keys, as [Encode] visits them. *)
Definition sortKeys (v : Values) : Values := fold_right insertSorted [] v.

Definition pairs (v : Values) : list (string * string) :=
  flat_map (fun b => map (fun x => (fst b, x)) (snd b)) v.

(** [Values.Encode]: [key=value] for every value, keys in order, joined
    with [&]. *)
Definition Encode (v : Values) : string :=
  strings.Join
    (map (fun kv => QueryEscape (fst kv) ++ "=" ++ QueryEscape (snd kv))
       (pairs (sortKeys v)))
    "&".

(** The text before the first [sep] and the text after it ([strings.Cut]
    with a one-byte separator). *)
Fixpoint Cut (s : string) (sep : ascii) : string * option string :=
  match s with
  | EmptyString => ("", None)
  | String c t =>
    if Ascii.eqb c sep then ("", Some t)
    else let '(a, b) := Cut t sep in (String c a, b)
  end.

(** One [key=value] item of a query, for [parseQuery]. *)
Definition parseItem (item : string) : option (string * string) :=
  let '(k, v) := Cut item "=" in
  match QueryUnescape k,
        QueryUnescape (match v with Some v => v | None => "" end) with
  | Some k', Some v' => Some (k', v')
  | _, _ => None
  end.

(** The items of a query, which [&] separates. *)
Fixpoint splitItems (cur : string) (s : string) : list string :=
  match s with
  | EmptyString => [cur]
  | String c t =>
    if Ascii.eqb c "&" then cur :: splitItems "" t
    else splitItems (cur ++ String c "") t
  end.

(** [url.ParseQuery]: the parameters of a query in their order; empty items
    are passed over, and an item with a semicolon or a wrong escape makes the
    query invalid. *)
Fixpoint parseItems (items : list string) : option (list (string * string)) :=
  match items with
  | [] => Some []
  | item :: rest =>
    if String.eqb item "" then parseItems rest
    else if strings.Contains item ";" then None
    else
      match parseItem item, parseItems rest with
      | Some kv, Some kvs => Some (kv :: kvs)
      | _, _ => None
      end
  end.

Definition ParseQuery (query : string) : option (list (string * string)) :=
  parseItems (splitItems "" query).

End url.

(** ** golang.org/x/oauth2 *)

Module oauth2.

Record Endpoint : Type := mkEndpoint { AuthURL : string; TokenURL : string }.

Record Config : Type := mkConfig {
  ClientID : string;
  ClientSecret : string;
  Endpoint_ : Endpoint;
  RedirectURL : string;
  Scopes : list string
}.

Record Token : Type := mkToken {
  AccessToken : string;
  TokenType : string;
  RefreshToken : string;
  Expiry : time.Time
}.

(** [Config.AuthCodeURL] without options. *)
Definition AuthCodeURL (c : Config) (state : string) : string :=
  let v : url.Values :=
    [("response_type", ["code"]); ("client_id", [ClientID c])] in
  let v := if String.eqb (RedirectURL c) "" then v
           else url.Set_ v "redirect_uri" (RedirectURL c) in
  let v := match Scopes c with
           | [] => v
           | _ => url.Set_ v "scope" (strings.Join (Scopes c) " ")
           end in
  let v := if String.eqb state "" then v else url.Set_ v "state" state in
  AuthURL (Endpoint_ c)
  ++ (if strings.Contains (AuthURL (Endpoint_ c)) "?" then "&" else "?")
  ++ url.Encode v.

(** The token endpoint and the clock are the world outside. [tokenRequest]
    is the round trip to the token endpoint with the given form values; its
    first argument is the reading of the clock, from which the expiry of the
    new token is counted. [now] is [time.Now]. *)
Record World : Type := mkWorld {
  tokenRequest : time.Time -> Config -> list (string * string) -> error + Token;
  now : time.Time
}.

(** [retrieveToken]: the request to the token endpoint, made now. *)
Definition retrieveToken (w : World) (c : Config) (v : list (string * string))
  : error + Token :=
  tokenRequest w (now w) c v.

Definition IsZero (t : time.Time) : bool :=
  (time.sec t =? 0)%Z && (time.nsec t =? 0)%Z.

Definition Before (t u : time.Time) : bool :=
  (time.sec t <? time.sec u)%Z ||
  ((time.sec t =? time.sec u)%Z && (time.nsec t <? time.nsec u)%Z).

Definition expiryDelta : Z := 10.

(** [Token.Valid] for a token that is not nil. *)
Definition Valid (w : World) (t : Token) : bool :=
  negb (String.eqb (AccessToken t) "") &&
  (IsZero (Expiry t) ||
   negb (Before (time.mkTime (time.sec (Expiry t) - expiryDelta)
                   (time.nsec (Expiry t)) (time.offset (Expiry t)))
           (now w))).

(** [tokenRefresher.Token]. *)
Definition tokenRefresher_Token (w : World) (conf : Config)
  (refreshToken : string) : option Token * option error :=
  if String.eqb refreshToken "" then
    (None, Some (errors_New "oauth2: token expired and refresh token is not set"))
  else
    match retrieveToken w conf
            [("grant_type", "refresh_token"); ("refresh_token", refreshToken)] with
    | inl err => (None, Some err)
    | inr tk => (Some tk, None)
    end.

(** A token source made by [Config.TokenSource]: a [reuseTokenSource] with
    the given token, over a [tokenRefresher] with its refresh token. *)
Record TokenSource : Type := mkTokenSource {
  conf : Config;
  t : option Token
}.

Definition Config_TokenSource (c : Config) (t : option Token) : TokenSource :=
  mkTokenSource c t.

(** [reuseTokenSource.Token]: the held token while it is valid, else a new
    one from the refresher. *)
Definition Token_ (w : World) (ts : TokenSource) : option Token * option error :=
  match t ts with
  | Some tok =>
    if Valid w tok then (Some tok, None)
    else tokenRefresher_Token w (conf ts) (RefreshToken tok)
  | None =>
    (None, Some (errors_New "oauth2: token expired and refresh token is not set"))
  end.

End oauth2.

(** ** net/http *)

Module http.

Record Request : Type := mkRequest {
  Method : string;
  URL : string;
  Header : list (string * string)
}.

Record Response : Type := mkResponse {
  StatusCode : Z;
  Body : string
}.

(** What [Client.Do] returns: a response and no error, whatever the status
    code of the response, or an error, which is always a [url.Error] and with
    which a response can come (a redirect that the client did not follow). *)
Inductive DoResult : Type :=
| DoOk (resp : Response)
| DoErr (resp : option Response) (err : urlError).

(** The client is the world outside: what it answers to a request. *)
Definition Client : Type := Request -> DoResult.

Definition isTokenChar (c : ascii) : bool :=
  byte_in 97 122 c || byte_in 65 90 c || byte_in 48 57 c ||
  existsb (Ascii.eqb c) (list_ascii_of_string "!#$%&'*+-.^_`|~").

Definition validMethod (m : string) : bool :=
  negb (String.eqb m "") && forallb isTokenChar (list_ascii_of_string m).

Definition hasControl (s : string) : bool :=
  existsb (fun c => (b2n c <? 0x20)%N || (b2n c =? 0x7F)%N)
    (list_ascii_of_string s).

(** [http.NewRequest] with no body. It fails on a method that is not a
    token and on a URL that [url.Parse] refuses; of the reasons of
    [url.Parse] only the control character is modelled, the others being
    about escapes, hosts and ports of a shape that the URLs of this
    package do not have. *)
Definition NewRequest (method url : string) : error + Request :=
  if negb (validMethod method) then inl (http_RequestError "net/http: invalid method")
  else if hasControl url then
    inl (url_Error (mkUrlError "parse" url "net/url: invalid control character in URL"))
  else inr (mkRequest method url []).

(** [Header.Set]. Header keys are canonical in the calls of this package. *)
Fixpoint Header_Set (h : list (string * string)) (key value : string)
  : list (string * string) :=
  match h with
  | [] => [(key, value)]
  | (k, v) :: rest =>
    if String.eqb k key then (k, value) :: rest
    else (k, v) :: Header_Set rest key value
  end.

End http.

(** ** goth *)

Module goth.

(** Modelled from the spec: [goth.User], which [user.go] declares and which
    is not part of the sources. These are the fields of the normalized user
    record: provider name, user identifier, display name, nickname,
    location, avatar URL, email, and the access token, refresh token and
    expiry carried through. *)
Record User : Type := mkUser {
  Provider : string;
  Email : string;
  Name : string;
  NickName : string;
  UserID : string;
  AvatarURL : string;
  Location : string;
  AccessToken : string;
  RefreshToken : string;
  ExpiresAt : time.Time
}.

End goth.

(** ** providers/yahoo *)

Module yahoo.

Definition authURL : string := "https://api.login.yahoo.com/oauth2/request_auth".
Definition tokenURL : string := "https://api.login.yahoo.com/oauth2/get_token".
Definition endpointProfile : string :=
  "https://social.yahooapis.com/v1/user/GUID/profile?format=json".

Module Session.

(** Modelled from the spec: [Session], which [session.go] declares and which
    is not part of the sources: the pending authorization URL, access token,
    refresh token and access-token expiry timestamp. The field names are
    those that [yahoo.go] uses, and [ExpiresAt] has the type of the field of
    [goth.User] it is assigned to. *)
Record t : Type := mk {
  AuthURL : string;
  AccessToken : string;
  RefreshToken : string;
  ExpiresAt : time.Time
}.

Definition zero : t := mk "" "" "" time.zero.

End Session.

(** A value of the interface [goth.Session], by its dynamic type: a pointer
    to a [Session] of this package, which can be nil, a session of the
    concrete type of another package, or the nil interface. *)
Inductive gothSession : Type :=
| Own (s : option Session.t)
| Foreign (gotype : string)
| NilSession.

(** [Provider]; [config] is a pointer, nil until [New] sets it. *)
Record Provider : Type := mkProvider {
  ClientKey : string;
  Secret : string;
  CallbackURL : string;
  config : option oauth2.Config
}.

Definition newConfig (provider : Provider) (scopes : list string)
  : oauth2.Config :=
  let c := oauth2.mkConfig (ClientKey provider) (Secret provider)
             (oauth2.mkEndpoint authURL tokenURL) (CallbackURL provider) [] in
  if (0 <? List.length scopes)%nat then
    fold_left
      (fun c scope =>
         oauth2.mkConfig (oauth2.ClientID c) (oauth2.ClientSecret c)
           (oauth2.Endpoint_ c) (oauth2.RedirectURL c)
           (oauth2.Scopes c ++ [scope]))
      scopes c
  else c.

Definition New (clientKey secret callbackURL : string) (scopes : list string)
  : Provider :=
  let p := mkProvider clientKey secret callbackURL None in
  mkProvider (ClientKey p) (Secret p) (CallbackURL p) (Some (newConfig p scopes)).

Definition Name (p : Provider) : string := "yahoo".

(** [Debug] is a no-op. *)
Definition Debug (p : Provider) (debug : bool) : Provider := p.

Definition nilDereference : string :=
  "runtime error: invalid memory address or nil pointer dereference".

Definition BeginAuth (p : Provider) (state : string)
  : outcome (gothSession * option error) :=
  match config p with
  | None => Panic nilDereference
  | Some c =>
    Return (Own (Some (Session.mk (oauth2.AuthCodeURL c state) "" "" time.zero)),
            None)
  end.

(** The struct that [userFromReader] decodes into. *)
Record image : Type := mkImage { ImageURL : string }.
Record profile : Type := mkProfile {
  NickName : string;
  Location : string;
  ID : string;
  Image : image
}.
Record payload : Type := mkPayload { Profile : profile }.

Definition zeroPayload : payload := mkPayload (mkProfile "" "" "" (mkImage "")).

Definition imageFields : decode.fields image :=
  [("imageURL", decode.field ImageURL (fun x _ => mkImage x) decode.string_)].

Definition profileFields : decode.fields profile :=
  [("nickname",
    decode.field NickName
      (fun x p => mkProfile x (Location p) (ID p) (Image p)) decode.string_);
   ("location",
    decode.field Location
      (fun x p => mkProfile (NickName p) x (ID p) (Image p)) decode.string_);
   ("guid",
    decode.field ID
      (fun x p => mkProfile (NickName p) (Location p) x (Image p)) decode.string_);
   ("image",
    decode.field Image
      (fun x p => mkProfile (NickName p) (Location p) (ID p) x)
      (decode.struct "struct" imageFields))].

Definition payloadFields : decode.fields payload :=
  [("profile",
    decode.field Profile (fun x _ => mkPayload x)
      (decode.struct "struct" profileFields))].

Definition payloadDecoder : decode.decoder payload :=
  decode.struct "struct" payloadFields.

Definition userFromReader (r : string) (user : goth.User)
  : goth.User * option error :=
  let '(u, err) := decode.Decode payloadDecoder r zeroPayload in
  match err with
  | Some e => (user, Some e)
  | None =>
    (goth.mkUser (goth.Provider user)
       ""
       (NickName (Profile u))
       (NickName (Profile u))
       (ID (Profile u))
       (ImageURL (Image (Profile u)))
       (Location (Profile u))
       (goth.AccessToken user) (goth.RefreshToken user) (goth.ExpiresAt user),
     None)
  end.

(** [FetchUser], given what the HTTP client answers. Closing the body of
    the response has no part in what is returned and is left out. *)
Definition FetchUser (client : http.Client) (p : Provider)
  (session : gothSession) : outcome (goth.User * option error) :=
  match session with
  | Own (Some s) =>
    let user := goth.mkUser (Name p) "" "" "" "" "" ""
                  (Session.AccessToken s) (Session.RefreshToken s)
                  (Session.ExpiresAt s) in
    match http.NewRequest "GET" endpointProfile with
    | inl err => Return (user, Some err)
    | inr req =>
      let req := http.mkRequest (http.Method req) (http.URL req)
                   (http.Header_Set (http.Header req) "Authorization"
                      ("Bearer " ++ Session.AccessToken s)) in
      match client req with
      | http.DoErr _ err => Return (user, Some (url_Error err))
      | http.DoOk resp => Return (userFromReader (http.Body resp) user)
      end
    end
  | Own None => Panic nilDereference
  | Foreign gotype =>
    Panic ("interface conversion: goth.Session is " ++ gotype
           ++ ", not *yahoo.Session")
  | NilSession =>
    Panic "interface conversion: goth.Session is nil, not *yahoo.Session"
  end.

Definition sessionFields (parse : time.Parse) : decode.fields Session.t :=
  [("AuthURL",
    decode.field Session.AuthURL
      (fun x s => Session.mk x (Session.AccessToken s) (Session.RefreshToken s)
                    (Session.ExpiresAt s))
      decode.string_);
   ("AccessToken",
    decode.field Session.AccessToken
      (fun x s => Session.mk (Session.AuthURL s) x (Session.RefreshToken s)
                    (Session.ExpiresAt s))
      decode.string_);
   ("RefreshToken",
    decode.field Session.RefreshToken
      (fun x s => Session.mk (Session.AuthURL s) (Session.AccessToken s) x
                    (Session.ExpiresAt s))
      decode.string_);
   ("ExpiresAt",
    decode.field Session.ExpiresAt
      (fun x s => Session.mk (Session.AuthURL s) (Session.AccessToken s)
                    (Session.RefreshToken s) x)
      (decode.time_ parse))].

Definition sessionDecoder (parse : time.Parse) : decode.decoder Session.t :=
  decode.struct "yahoo.Session" (sessionFields parse).

(** [UnmarshalSession], given what [time.Parse] answers. *)
Definition UnmarshalSession (parse : time.Parse) (p : Provider) (data : string)
  : gothSession * option error :=
  let '(s, err) := decode.Decode (sessionDecoder parse) data Session.zero in
  (Own (Some s), err).

(** Modelled from the spec: the serialization of a [Session], which
    [session.go] defines and which is not part of the sources: the JSON
    text of the struct as [json.Marshal] writes it, one member per field
    under the field's name. [json.Marshal] fails when the expiry has no
    RFC 3339 text. *)
Definition json_Marshal (s : Session.t) : error + string :=
  match time.MarshalJSON (Session.ExpiresAt s) with
  | inl (errors_New msg) => inl (json_MarshalerError msg)
  | inl e => inl e
  | inr expires =>
    inr ("{" ++ json.appendString "AuthURL" ++ ":"
         ++ json.appendString (Session.AuthURL s)
         ++ "," ++ json.appendString "AccessToken" ++ ":"
         ++ json.appendString (Session.AccessToken s)
         ++ "," ++ json.appendString "RefreshToken" ++ ":"
         ++ json.appendString (Session.RefreshToken s)
         ++ "," ++ json.appendString "ExpiresAt" ++ ":" ++ expires ++ "}")
  end.

(** Modelled from the spec: [Session.Marshal], the string form of a session.
    It has no error to return; a session that [json.Marshal] refuses has the
    empty string. *)
Definition Marshal (s : Session.t) : string :=
  match json_Marshal s with
  | inr text => text
  | inl _ => ""
  end.

Definition RefreshTokenAvailable (p : Provider) : bool := true.

(** [RefreshToken]. The config is a pointer that [Config.TokenSource] and
    the token source keep without dereferencing it: a nil config is
    dereferenced by [retrieveToken] only, which is reached when the refresh
    token is not empty. *)
Definition RefreshToken (w : oauth2.World) (p : Provider) (refreshToken : string)
  : outcome (option oauth2.Token * option error) :=
  match config p with
  | None =>
    if String.eqb refreshToken "" then
      Return (None,
              Some (errors_New "oauth2: token expired and refresh token is not set"))
    else Panic nilDereference
  | Some c =>
    let token := oauth2.mkToken "" "" refreshToken time.zero in
    let ts := oauth2.Config_TokenSource c (Some token) in
    let '(newToken, err) := oauth2.Token_ w ts in
    match err with
    | Some e => Return (None, Some e)
    | None => Return (newToken, err)
    end
  end.

(** The error kinds of the interface, by the type of the error value. *)
Definition TransportFailed (e : error) : bool :=
  match e with
  | url_Error _ | http_RequestError _ => true
  | _ => false
  end.

Definition DecodeFailed (e : error) : bool :=
  match e with
  | io_EOF | io_ErrUnexpectedEOF | json_SyntaxError
  | json_UnmarshalTypeError _ _ | json_phaseError | time_ParseError => true
  | _ => false
  end.

End yahoo.

(** *** The vocabulary of the properties *)

(** The user of a session before anything is fetched: the provider's name
    and the tokens of the session, and no profile field. *)
Definition sessionUser (p : yahoo.Provider) (s : yahoo.Session.t) : goth.User :=
  goth.mkUser (yahoo.Name p) "" "" "" "" "" ""
    (yahoo.Session.AccessToken s) (yahoo.Session.RefreshToken s)
    (yahoo.Session.ExpiresAt s).

(** The request for the profile of a session. *)
Definition profileRequest (s : yahoo.Session.t) : http.Request :=
  http.mkRequest "GET" yahoo.endpointProfile
    [("Authorization", "Bearer " ++ yahoo.Session.AccessToken s)].

(** A raw key names a field when the decoder finds the field under it. *)
Definition names (name rawkey : string) : bool :=
  match json.unquote rawkey with
  | Some key =>
    String.eqb name key
    || String.eqb (decode.foldName name) (decode.foldName key)
  | None => false
  end.

(** A value has something at a path of field names. *)
Fixpoint present (path : list string) (v : scanner.value) : bool :=
  match path with
  | [] => true
  | name :: rest =>
    match v with
    | scanner.JObject ms =>
      existsb (fun m => names name (fst m) && present rest (snd m)) ms
    | _ => false
    end
  end.

(** A value that gives a field of a [Session] something of the wrong type:
    it is no object and not [null], or one of its members names a field
    without being a string or [null]. *)
Definition stringOrNull (v : scanner.value) : bool :=
  match v with
  | scanner.JString _ | scanner.JNull => true
  | _ => false
  end.

Definition mistypedMember (m : string * scanner.value) : bool :=
  (names "AuthURL" (fst m) || names "AccessToken" (fst m)
   || names "RefreshToken" (fst m) || names "ExpiresAt" (fst m))
  && negb (stringOrNull (snd m)).

Definition mistyped (v : scanner.value) : bool :=
  match v with
  | scanner.JNull => false
  | scanner.JObject ms => existsb mistypedMember ms
  | _ => true
  end.

(** The errors that a decode has saved are decode errors. *)
Definition okSaved (saved : option error) : Prop :=
  match saved with
  | Some e => yahoo.DecodeFailed e = true
  | None => True
  end.

(** A decoder is sound when the only errors it leaves are decode errors. *)
Definition soundDecoder {T : Type} (dec : decode.decoder T) : Prop :=
  forall v cur saved, okSaved saved ->
    match dec v cur saved with
    | decode.Going _ saved' => okSaved saved'
    | decode.Stopped _ e => yahoo.DecodeFailed e = true
    end.

(** A decoder keeps an error once there is one. *)
Definition keepsError {T : Type} (dec : decode.decoder T) : Prop :=
  forall v cur e,
    match dec v cur (Some e) with
    | decode.Going _ None => False
    | _ => True
    end.

(** The bytes that [QueryEscape] writes: unreserved ones, [+] and [%]. *)
Definition queryByte (c : ascii) : bool :=
  negb (url.shouldEscape c) || Ascii.eqb c "+" || Ascii.eqb c "%".

(** One item of an encoded query. *)
Definition item (kv : string * string) : string :=
  url.QueryEscape (fst kv) ++ "=" ++ url.QueryEscape (snd kv).

(** The parameters of the authorization URL, in the order of their keys. *)
Definition authParams (clientKey callbackURL : string) (scopes : list string)
  (state : string) : list (string * string) :=
  [("client_id", clientKey)]
  ++ (if String.eqb callbackURL "" then [] else [("redirect_uri", callbackURL)])
  ++ [("response_type", "code")]
  ++ (match scopes with [] => [] | _ => [("scope", strings.Join scopes " ")] end)
  ++ (if String.eqb state "" then [] else [("state", state)]).

(** The scanner fed with a text that it takes whole. *)
Fixpoint feed (st : scanner.state) (s : string) : option scanner.state :=
  match s with
  | EmptyString => Some st
  | String c t =>
    match scanner.scan st c with
    | scanner.Cont st' => feed st' t
    | _ => None
    end
  end.

(** Test data is written with apostrophes where the JSON text has double
    quotes. *)
Definition js (s : string) : string :=
  string_of_list_ascii
    (map (fun c => if Ascii.eqb c "'" then dquote else c) (list_ascii_of_string s)).

(** *** Texts that the scanner and the parsers take *)

(** Inside a string literal the scanner takes any byte from 0x20 on that is
    neither the quote nor the backslash. *)
Definition plainByte (c : ascii) : bool :=
  negb (Ascii.eqb c dquote) && negb (Ascii.eqb c "\") && negb (b2n c <? 0x20)%N.

(** All the bytes of a text are decimal digits. *)
Definition allDigits (s : string) : Prop :=
  Forall (fun c => byte_in 48 57 c = true) (list_ascii_of_string s).

(** The zone starts with a byte that is neither a point nor a digit. *)
Definition zoneHead (c : ascii) : Prop :=
  Ascii.eqb c "." = false /\ byte_in 48 57 c = false.

(** A text that the scanner takes whole as the inside of a string
    literal. *)
Definition literal (raw : string) : Prop :=
  forall acc stk,
    feed (scanner.InString acc, stk) raw = Some (scanner.InString (acc ++ raw), stk).

(** A string literal with the given text between its quotes. *)
Definition quoted (raw : string) : string := String dquote (raw ++ String dquote "").

(** The members of an object whose values are string literals. *)
Fixpoint membersText (kvs : list (string * string)) : string :=
  match kvs with
  | [] => ""
  | [(k, v)] => quoted k ++ ":" ++ quoted v
  | (k, v) :: rest => quoted k ++ ":" ++ quoted v ++ "," ++ membersText rest
  end.

Definition stringMembers (kvs : list (string * string))
  : list (string * scanner.value) :=
  map (fun kv => (fst kv, scanner.JString (snd kv))) kvs.

(** A text of bytes that a string literal takes as they are. *)
Definition plainText (s : string) : Prop :=
  Forall (fun c => plainByte c = true) (list_ascii_of_string s).

(** *** The reader at the end of a value *)

(** The scanner ends a value at a byte that follows it in two cases: the
    value was complete before, or it is a number at the top level. *)
Definition numberAtTop (st : scanner.state) : Prop :=
  snd st = [] /\
  match fst st with
  | scanner.Neg _ | scanner.Num1 _ | scanner.Num0 _ | scanner.Dot _
  | scanner.Dot0 _ | scanner.NumE _ | scanner.ESign _ | scanner.E0 _ => True
  | _ => False
  end.


(** The string fields of a [Session], by name. *)
Definition sessionStrings : list (string * (yahoo.Session.t -> string)) :=
  [("AuthURL", yahoo.Session.AuthURL);
   ("AccessToken", yahoo.Session.AccessToken);
   ("RefreshToken", yahoo.Session.RefreshToken)].

(** The body of a profile response with the four strings that
    [userFromReader] reads, each written as [json.Marshal] writes a
    string. *)
Definition profileBody (nickname location guid imageURL : string) : string :=
  "{" ++ json.appendString "profile" ++ ":{"
  ++ json.appendString "nickname" ++ ":" ++ json.appendString nickname ++ ","
  ++ json.appendString "location" ++ ":" ++ json.appendString location ++ ","
  ++ json.appendString "guid" ++ ":" ++ json.appendString guid ++ ","
  ++ json.appendString "image" ++ ":{"
  ++ json.appendString "imageURL" ++ ":" ++ json.appendString imageURL
  ++ "}}}".

(** The bytes of an authorization URL: those of an escaped query component
    and the delimiters of the URL. *)
Definition urlByte (c : ascii) : bool :=
  queryByte c || Ascii.eqb c "=" || Ascii.eqb c "&" || Ascii.eqb c ":"
  || Ascii.eqb c "/" || Ascii.eqb c "?".

(** *** Bodies that the decoder of the profile refuses *)








(** * Properties *)

Ltac Zify.zify_post_hook ::= Z.to_euclidean_division_equations.

(** ** Bytes *)

Lemma b2n_lt (c : ascii) : (b2n c < 256)%N.
Proof. apply N_ascii_bounded. Qed.

Lemma n2b_b2n (c : ascii) : n2b (b2n c) = c.
Proof. apply ascii_N_embedding. Qed.

Lemma n2b_eq (c : ascii) (n : N) : n = b2n c -> n2b n = c.
Proof. intros ->. apply n2b_b2n. Qed.

Lemma b2n_n2b (n : N) : (n < 256)%N -> b2n (n2b n) = n.
Proof. apply N_ascii_embedding. Qed.

Lemma byte_in_spec (lo hi : N) (c : ascii) :
  byte_in lo hi c = true <-> (lo <= b2n c <= hi)%N.
Proof.
  unfold byte_in. rewrite andb_true_iff, !N.leb_le. tauto.
Qed.

(** ** The profile fetch *)

Section Fetch.

Import yahoo.

Variable client : http.Client.
Variable p : Provider.

Lemma NewRequest_profile :
  http.NewRequest "GET" endpointProfile
  = inr (http.mkRequest "GET" endpointProfile []).
Proof. vm_compute. reflexivity. Qed.

(** [FetchUser] on a session of this package: the request carries the
    access token as a bearer credential, and the answer of the client
    decides the rest. *)
Lemma FetchUser_own (s : Session.t) :
  FetchUser client p (Own (Some s))
  = match client (profileRequest s) with
    | http.DoErr _ err => Return (sessionUser p s, Some (url_Error err))
    | http.DoOk resp => Return (userFromReader (http.Body resp) (sessionUser p s))
    end.
Proof.
  unfold FetchUser. rewrite NewRequest_profile. reflexivity.
Qed.

End Fetch.

(** *** Errors of a decode *)

Lemma okSaved_saveError (saved : option error) (e : error) :
  okSaved saved -> yahoo.DecodeFailed e = true ->
  okSaved (decode.saveError saved e).
Proof. destruct saved; simpl; auto. Qed.

Lemma sound_string : soundDecoder decode.string_.
Proof.
  intros v cur saved Hs. unfold decode.string_.
  destruct v; simpl; auto using okSaved_saveError.
  destruct (json.unquote raw); auto.
Qed.

Lemma sound_time (parse : time.Parse) : soundDecoder (decode.time_ parse).
Proof.
  intros v cur saved Hs. unfold decode.time_.
  destruct v; simpl; auto.
  destruct (time.parseStrictRFC3339 parse raw); auto.
Qed.

Lemma sound_field {T F : Type} (get : T -> F) (set : F -> T -> T)
  (dec : decode.decoder F) :
  soundDecoder dec -> soundDecoder (decode.field get set dec).
Proof.
  intros Hd v cur saved Hs. unfold decode.field.
  specialize (Hd v (get cur) saved Hs).
  destruct (dec v (get cur) saved); auto.
Qed.

Lemma findField_In {T : Type} (fs : decode.fields T) (key : string)
  (dec : decode.decoder T) :
  decode.findField fs key = Some dec -> exists name, In (name, dec) fs.
Proof.
  unfold decode.findField. intros H.
  destruct (find _ fs) as [[n d]|] eqn:E1.
  - inversion H; subst. apply find_some in E1. exists n. apply E1.
  - destruct (find _ fs) as [[n d]|] eqn:E2 in H; [|discriminate].
    inversion H; subst. apply find_some in E2. exists n. apply E2.
Qed.

Lemma sound_members {T : Type} (fs : decode.fields T) :
  (forall name dec, In (name, dec) fs -> soundDecoder dec) ->
  forall ms cur saved, okSaved saved ->
    match decode.members fs ms cur saved with
    | decode.Going _ saved' => okSaved saved'
    | decode.Stopped _ e => yahoo.DecodeFailed e = true
    end.
Proof.
  intros Hfs. induction ms as [|[rawkey v] ms IH]; intros cur saved Hs; simpl; auto.
  destruct (json.unquote rawkey) as [key|]; [|reflexivity].
  destruct (decode.findField fs key) as [dec|] eqn:Ef; [|apply IH; exact Hs].
  destruct (findField_In _ _ _ Ef) as [name Hin].
  pose proof (Hfs _ _ Hin v cur saved Hs) as Hd.
  destruct (dec v cur saved) as [cur' saved'|cur' e]; [|exact Hd].
  apply IH. exact Hd.
Qed.

Lemma sound_struct {T : Type} (gotype : string) (fs : decode.fields T) :
  (forall name dec, In (name, dec) fs -> soundDecoder dec) ->
  soundDecoder (decode.struct gotype fs).
Proof.
  intros Hfs v cur saved Hs. unfold decode.struct.
  destruct v; simpl; auto using okSaved_saveError.
  apply sound_members; assumption.
Qed.

Ltac sound_fields :=
  let name := fresh "name" in
  let dec := fresh "dec" in
  let H := fresh "H" in
  intros name dec H; simpl in H;
  repeat (destruct H as [H|H]; [inversion H; subst; clear H|]);
  try contradiction.


Lemma sound_session (parse : time.Parse) :
  soundDecoder (yahoo.sessionDecoder parse).
Proof.
  apply sound_struct. sound_fields.
  - apply sound_field, sound_string.
  - apply sound_field, sound_string.
  - apply sound_field, sound_string.
  - apply sound_field, sound_time.
Qed.

Lemma readFrom_error (all : string) :
  forall input st e, scanner.readFrom st input all = inl e ->
    yahoo.DecodeFailed e = true.
Proof.
  induction input as [|c input IH]; intros st e; simpl.
  - destruct (scanner.scan st " "); try discriminate;
      intros H; inversion H; destruct (scanner.nonSpace all); reflexivity.
  - destruct (scanner.scan st c); try discriminate; eauto.
    intros H; inversion H; reflexivity.
Qed.

(** Whatever [Decode] reports is a decode error. *)
Lemma Decode_error {T : Type} (dec : decode.decoder T) (input : string)
  (target r : T) (e : error) :
  soundDecoder dec ->
  decode.Decode dec input target = (r, Some e) -> yahoo.DecodeFailed e = true.
Proof.
  intros Hd. unfold decode.Decode, scanner.readValue.
  destruct (scanner.readFrom _ input input) as [e'|[v rest]] eqn:Er.
  - intros H; inversion H; subst. eapply readFrom_error; eassumption.
  - unfold decode.unmarshal. pose proof (Hd v target None I) as Hs.
    destruct (dec v target None); intros H; inversion H; subst; assumption.
Qed.

(** *** The claims on [FetchUser] and [BeginAuth] *)

(** C2: whatever the session, when the client answers the profile request
    with the body
    [{'profile':{'nickname':'jdoe','location':'US','guid':'123','image':{'imageURL':'http://x/img.png'}}}]
    (with double quotes for the apostrophes), [FetchUser] returns no error
    and a user with Name and NickName jdoe, UserID 123, Location US,
    AvatarURL http://x/img.png and an empty Email; the tokens are those of
    the session. *)
Theorem C2_FetchUser_profile (client : http.Client) (p : yahoo.Provider)
  (s : yahoo.Session.t) (resp : http.Response) :
  client (profileRequest s) = http.DoOk resp ->
  http.Body resp
  = js "{'profile':{'nickname':'jdoe','location':'US','guid':'123','image':{'imageURL':'http://x/img.png'}}}" ->
  yahoo.FetchUser client p (yahoo.Own (Some s))
  = Return ({| goth.Provider := "yahoo";
               goth.Email := "";
               goth.Name := "jdoe";
               goth.NickName := "jdoe";
               goth.UserID := "123";
               goth.AvatarURL := "http://x/img.png";
               goth.Location := "US";
               goth.AccessToken := yahoo.Session.AccessToken s;
               goth.RefreshToken := yahoo.Session.RefreshToken s;
               goth.ExpiresAt := yahoo.Session.ExpiresAt s |},
            None).
Proof.
  intros Hc Hb. rewrite FetchUser_own, Hc, Hb.
  unfold yahoo.userFromReader.
  match goal with
  | |- context [decode.Decode ?d ?i ?t] =>
    let r := eval vm_compute in (decode.Decode d i t) in
    change (decode.Decode d i t) with r
  end.
  reflexivity.
Qed.

Lemma C2_FetchUser_profile_witness :
  yahoo.FetchUser
    (fun _ => http.DoOk (http.mkResponse 200
       (js "{'profile':{'nickname':'jdoe','location':'US','guid':'123','image':{'imageURL':'http://x/img.png'}}}")))
    (yahoo.New "key" "secret" "http://localhost/callback" [])
    (yahoo.Own (Some (yahoo.Session.mk "" "token" "refresh" time.zero)))
  = Return ({| goth.Provider := "yahoo";
               goth.Email := "";
               goth.Name := "jdoe";
               goth.NickName := "jdoe";
               goth.UserID := "123";
               goth.AvatarURL := "http://x/img.png";
               goth.Location := "US";
               goth.AccessToken := "token";
               goth.RefreshToken := "refresh";
               goth.ExpiresAt := time.zero |},
            None).
Proof.
  apply (C2_FetchUser_profile _ _
           (yahoo.Session.mk "" "token" "refresh" time.zero)
           (http.mkResponse 200
              (js "{'profile':{'nickname':'jdoe','location':'US','guid':'123','image':{'imageURL':'http://x/img.png'}}}")));
    reflexivity.
Defined.

(** A response whose status is not 2xx is a response like any other: 404
    with a profile in its body gives the user of that profile and no
    error. *)
Lemma C3_non_2xx_response_is_decoded :
  yahoo.FetchUser
    (fun _ => http.DoOk (http.mkResponse 404 (js "{'profile':{'nickname':'jdoe'}}")))
    (yahoo.New "key" "secret" "http://localhost/callback" [])
    (yahoo.Own (Some (yahoo.Session.mk "" "token" "refresh" time.zero)))
  = Return ({| goth.Provider := "yahoo";
               goth.Email := "";
               goth.Name := "jdoe";
               goth.NickName := "jdoe";
               goth.UserID := "";
               goth.AvatarURL := "";
               goth.Location := "";
               goth.AccessToken := "token";
               goth.RefreshToken := "refresh";
               goth.ExpiresAt := time.zero |},
            None).
Proof. vm_compute. reflexivity. Qed.

(** C3, amended: whatever the session, when the client fails on the profile
    request (as it does on a refused connection), [FetchUser] returns the
    client's error, which is of the TransportFailed kind, and a user whose
    profile fields are empty and whose tokens and expiry are those of the
    session. *)
Theorem C3_FetchUser_transport_failure (client : http.Client)
  (p : yahoo.Provider) (s : yahoo.Session.t) (resp : option http.Response)
  (err : urlError) :
  client (profileRequest s) = http.DoErr resp err ->
  exists u,
    yahoo.FetchUser client p (yahoo.Own (Some s)) = Return (u, Some (url_Error err))
    /\ yahoo.TransportFailed (url_Error err) = true
    /\ goth.Name u = "" /\ goth.NickName u = "" /\ goth.UserID u = ""
    /\ goth.Location u = "" /\ goth.AvatarURL u = ""
    /\ goth.AccessToken u = yahoo.Session.AccessToken s
    /\ goth.RefreshToken u = yahoo.Session.RefreshToken s
    /\ goth.ExpiresAt u = yahoo.Session.ExpiresAt s.
Proof.
  intros Hc. exists (sessionUser p s).
  rewrite FetchUser_own, Hc. simpl. repeat split; reflexivity.
Qed.

Lemma C3_FetchUser_transport_failure_witness :
  exists u,
    yahoo.FetchUser
      (fun _ => http.DoErr None
         (mkUrlError "Get" yahoo.endpointProfile "dial tcp: connection refused"))
      (yahoo.New "key" "secret" "http://localhost/callback" [])
      (yahoo.Own (Some (yahoo.Session.mk "" "token" "refresh" time.zero)))
    = Return (u, Some (url_Error
         (mkUrlError "Get" yahoo.endpointProfile "dial tcp: connection refused")))
    /\ yahoo.TransportFailed (url_Error
         (mkUrlError "Get" yahoo.endpointProfile "dial tcp: connection refused"))
       = true
    /\ goth.Name u = "" /\ goth.NickName u = "" /\ goth.UserID u = ""
    /\ goth.Location u = "" /\ goth.AvatarURL u = ""
    /\ goth.AccessToken u = "token"
    /\ goth.RefreshToken u = "refresh"
    /\ goth.ExpiresAt u = time.zero.
Proof.
  apply (C3_FetchUser_transport_failure
           (fun _ => http.DoErr None
              (mkUrlError "Get" yahoo.endpointProfile "dial tcp: connection refused"))
           (yahoo.New "key" "secret" "http://localhost/callback" [])
           (yahoo.Session.mk "" "token" "refresh" time.zero) None).
  reflexivity.
Defined.

(** C9: the type assertion at the head of [FetchUser] is not checked: on a
    session whose concrete type is that of another package, whatever the
    client and the provider, [FetchUser] panics and returns nothing. *)
Theorem C9_FetchUser_foreign_session_panics (client : http.Client)
  (p : yahoo.Provider) (gotype : string) :
  yahoo.FetchUser client p (yahoo.Foreign gotype)
  = Panic ("interface conversion: goth.Session is " ++ gotype
           ++ ", not *yahoo.Session")
  /\ forall r, yahoo.FetchUser client p (yahoo.Foreign gotype) <> Return r.
Proof.
  split; [reflexivity|]. intros r H. discriminate H.
Qed.

(** C10: [BeginAuth] never fails. A provider made by [New] returns a
    session and a nil error for every state, and no provider at all returns
    an error that is not nil. *)
Theorem C10_BeginAuth_error_is_nil (clientKey secret callbackURL : string)
  (scopes : list string) (state : string) :
  (exists session,
     yahoo.BeginAuth (yahoo.New clientKey secret callbackURL scopes) state
     = Return (session, None))
  /\ forall p session err,
       yahoo.BeginAuth p state = Return (session, err) -> err = None.
Proof.
  split.
  - eexists. reflexivity.
  - intros p session err. unfold yahoo.BeginAuth.
    destruct (yahoo.config p); intros H; inversion H; reflexivity.
Qed.

(** *** [RefreshToken] *)

(** C7: [RefreshToken] hands the token source a token that has the refresh
    token and nothing else, and returns what the token source returns: its
    error as it is, with no token, or its new token, with no error. The
    token source, holding a token with no access token, asks the token
    endpoint each time. *)
Theorem C7_RefreshToken_delegates (w : oauth2.World) (p : yahoo.Provider)
  (c : oauth2.Config) (refreshToken : string) :
  yahoo.config p = Some c ->
  let token := oauth2.mkToken "" "" refreshToken time.zero in
  yahoo.RefreshToken w p refreshToken
  = Return (oauth2.Token_ w (oauth2.Config_TokenSource c (Some token)))
  /\ oauth2.Token_ w (oauth2.Config_TokenSource c (Some token))
     = oauth2.tokenRefresher_Token w c refreshToken
  /\ (forall e, snd (oauth2.Token_ w (oauth2.Config_TokenSource c (Some token)))
                = Some e ->
                yahoo.RefreshToken w p refreshToken = Return (None, Some e))
  /\ (forall tok, oauth2.retrieveToken w c
                    [("grant_type", "refresh_token");
                     ("refresh_token", refreshToken)] = inr tok ->
                  refreshToken <> "" ->
                  yahoo.RefreshToken w p refreshToken = Return (Some tok, None)).
Proof.
  intros Hc token. unfold yahoo.RefreshToken. rewrite Hc.
  assert (Ht : oauth2.Token_ w (oauth2.Config_TokenSource c (Some token))
               = oauth2.tokenRefresher_Token w c refreshToken) by reflexivity.
  fold token. rewrite Ht. unfold oauth2.tokenRefresher_Token.
  destruct (String.eqb refreshToken "") eqn:Ee.
  - repeat split; try reflexivity.
    + intros e H. simpl in H. inversion H. reflexivity.
    + intros tok _ Hne. apply String.eqb_eq in Ee. contradiction.
  - destruct (oauth2.retrieveToken w c _) as [err|tk]; repeat split;
      try reflexivity.
    + intros e H. simpl in H. inversion H. reflexivity.
    + intros tok H. discriminate H.
    + intros e H. discriminate H.
    + intros tok H _. inversion H. reflexivity.
Qed.

Lemma C7_RefreshToken_delegates_witness :
  let w := oauth2.mkWorld
             (fun _ _ _ => inl (oauth2_RetrieveError 400 "invalid_grant"))
             time.zero in
  yahoo.RefreshToken w (yahoo.New "key" "secret" "http://localhost/callback" [])
    "stale"
  = Return (None, Some (oauth2_RetrieveError 400 "invalid_grant")).
Proof.
  intros w.
  destruct (C7_RefreshToken_delegates w
              (yahoo.New "key" "secret" "http://localhost/callback" [])
              (yahoo.newConfig
                 (yahoo.mkProvider "key" "secret" "http://localhost/callback" None)
                 [])
              "stale" eq_refl) as (_ & _ & He & _).
  apply He. reflexivity.
Defined.

(** *** [UnmarshalSession] *)

Lemma keeps_string : keepsError decode.string_.
Proof.
  intros v cur e. unfold decode.string_.
  destruct v; simpl; auto. destruct (json.unquote raw); auto.
Qed.

Lemma keeps_time (parse : time.Parse) : keepsError (decode.time_ parse).
Proof.
  intros v cur e. unfold decode.time_.
  destruct v; simpl; auto.
  destruct (time.parseStrictRFC3339 parse raw); auto.
Qed.

Lemma keeps_field {T F : Type} (get : T -> F) (set : F -> T -> T)
  (dec : decode.decoder F) :
  keepsError dec -> keepsError (decode.field get set dec).
Proof.
  intros Hd v cur e. unfold decode.field.
  specialize (Hd v (get cur) e).
  destruct (dec v (get cur) (Some e)) as [f [e'|]|f e']; auto.
Qed.

Lemma keeps_members {T : Type} (fs : decode.fields T) :
  (forall name dec, In (name, dec) fs -> keepsError dec) ->
  forall ms cur e,
    match decode.members fs ms cur (Some e) with
    | decode.Going _ None => False
    | _ => True
    end.
Proof.
  intros Hfs. induction ms as [|[rawkey v] ms IH]; intros cur e; simpl; auto.
  destruct (json.unquote rawkey) as [key|]; [|exact I].
  destruct (decode.findField fs key) as [dec|] eqn:Ef; [|apply IH].
  destruct (findField_In _ _ _ Ef) as [name Hin].
  pose proof (Hfs _ _ Hin v cur e) as Hd.
  destruct (dec v cur (Some e)) as [cur' [e'|]|cur' e'];
    [apply IH | contradiction | exact I].
Qed.

Lemma keeps_session_fields (parse : time.Parse) :
  forall name dec, In (name, dec) (yahoo.sessionFields parse) -> keepsError dec.
Proof.
  sound_fields; apply keeps_field; auto using keeps_string, keeps_time.
Qed.

(** The field that a key names is the one the decoder finds. *)
Lemma findField_names (parse : time.Parse) (name rawkey : string)
  (dec : decode.decoder yahoo.Session.t) :
  In (name, dec) (yahoo.sessionFields parse) ->
  names name rawkey = true ->
  exists key, json.unquote rawkey = Some key
              /\ decode.findField (yahoo.sessionFields parse) key = Some dec.
Proof.
  intros Hin Hn. unfold names in Hn.
  destruct (json.unquote rawkey) as [key|]; [|discriminate].
  exists key. split; [reflexivity|].
  assert (Hf : decode.foldName key = decode.foldName name).
  { apply orb_true_iff in Hn. destruct Hn as [Hn|Hn].
    - apply String.eqb_eq in Hn. subst. reflexivity.
    - apply String.eqb_eq in Hn. symmetry. exact Hn. }
  clear Hn. unfold decode.findField, yahoo.sessionFields in *.
  cbn [find fst snd]. rewrite Hf.
  repeat match goal with
  | |- context [String.eqb ?a key] =>
    destruct (String.eqb_spec a key) as [<-|_]
  end;
  simpl in Hin;
  repeat (destruct Hin as [Hin|Hin]; [inversion Hin; subst; clear Hin|]);
  try contradiction; try discriminate Hf; reflexivity.
Qed.

(** A field decoder leaves an error on a value that is neither a string nor
    [null]. *)
Lemma field_mistyped (parse : time.Parse) (name : string)
  (dec : decode.decoder yahoo.Session.t) (v : scanner.value) :
  In (name, dec) (yahoo.sessionFields parse) ->
  stringOrNull v = false ->
  forall cur saved,
    match dec v cur saved with
    | decode.Going _ None => False
    | _ => True
    end.
Proof.
  intros Hin Hv cur saved. simpl in Hin.
  repeat (destruct Hin as [Hin|Hin]; [inversion Hin; subst; clear Hin|]);
    try contradiction;
    unfold decode.field, decode.string_, decode.time_;
    destruct v; try discriminate Hv; destruct saved; exact I.
Qed.

Lemma mistyped_member_fails (parse : time.Parse) (m : string * scanner.value) :
  mistypedMember m = true ->
  exists key dec,
    json.unquote (fst m) = Some key
    /\ decode.findField (yahoo.sessionFields parse) key = Some dec
    /\ forall cur saved,
         match dec (snd m) cur saved with
         | decode.Going _ None => False
         | _ => True
         end.
Proof.
  destruct m as [rawkey v]. unfold mistypedMember. cbn [fst snd]. intros H.
  apply andb_true_iff in H. destruct H as [Hn Hv].
  apply negb_true_iff in Hv.
  assert (Hfield : exists name dec,
            In (name, dec) (yahoo.sessionFields parse)
            /\ names name rawkey = true).
  { repeat (apply orb_true_iff in Hn; destruct Hn as [Hn|Hn]);
      eexists _, _; (split; [|exact Hn]); simpl; auto 6. }
  destruct Hfield as (name & dec & Hin & Hname).
  destruct (findField_names parse name rawkey dec Hin Hname) as (key & Hu & Hf).
  exists key, dec. split; [exact Hu|]. split; [exact Hf|].
  apply (field_mistyped parse name); assumption.
Qed.

Lemma mistyped_members_fail (parse : time.Parse) :
  forall ms cur saved,
    existsb mistypedMember ms = true ->
    match decode.members (yahoo.sessionFields parse) ms cur saved with
    | decode.Going _ None => False
    | _ => True
    end.
Proof.
  induction ms as [|m ms IH]; intros cur saved H; [discriminate|].
  simpl in H. apply orb_true_iff in H. destruct H as [H|H].
  - destruct (mistyped_member_fails parse m H) as (key & dec & Hu & Hf & Hd).
    destruct m as [rawkey v]. cbn [fst snd] in *.
    cbn [decode.members]. rewrite Hu, Hf.
    specialize (Hd cur saved).
    destruct (dec v cur saved) as [cur' [e|]|cur' e];
      [apply keeps_members, (keeps_session_fields parse) | contradiction | exact I].
  - destruct m as [rawkey v]. cbn [decode.members].
    destruct (json.unquote rawkey) as [key|]; [|exact I].
    destruct (decode.findField (yahoo.sessionFields parse) key) as [dec|];
      [|apply IH; exact H].
    destruct (dec v cur saved) as [cur' saved'|cur' e];
      [apply IH; exact H | exact I].
Qed.

(** Text that is not valid JSON and text of another shape are both
    accepted: after an empty object the rest of the input is not read, and
    a member that names no field is passed over. *)
Lemma C5_invalid_text_and_other_shape_accepted :
  yahoo.UnmarshalSession time.noParse
    (yahoo.New "key" "secret" "http://localhost/callback" []) "{}{not json"
  = (yahoo.Own (Some yahoo.Session.zero), None)
  /\ yahoo.UnmarshalSession time.noParse
       (yahoo.New "key" "secret" "http://localhost/callback" [])
       (js "{'user':'jdoe','id':[1,2]}")
     = (yahoo.Own (Some yahoo.Session.zero), None).
Proof. split; vm_compute; reflexivity. Qed.

(** C5, amended: [UnmarshalSession] decodes the first JSON value of its
    input. When the input does not start with a whole JSON value, as
    [{not json], it returns the error of the scanner and the zero session.
    When the value is no object and not [null], or has a member that names
    a field and is neither a string nor [null], it returns an error too.
    Every error it returns is of the DecodeFailed kind. *)
Theorem C5_UnmarshalSession_errors (parse : time.Parse) (p : yahoo.Provider)
  (data : string) :
  (forall e, scanner.readValue data = inl e ->
     yahoo.UnmarshalSession parse p data
     = (yahoo.Own (Some yahoo.Session.zero), Some e))
  /\ (forall v rest, scanner.readValue data = inr (v, rest) ->
        mistyped v = true ->
        exists s e,
          yahoo.UnmarshalSession parse p data = (yahoo.Own (Some s), Some e))
  /\ (forall s e, yahoo.UnmarshalSession parse p data = (s, Some e) ->
        yahoo.DecodeFailed e = true)
  /\ yahoo.UnmarshalSession parse p "{not json"
     = (yahoo.Own (Some yahoo.Session.zero), Some json_SyntaxError).
Proof.
  unfold yahoo.UnmarshalSession. split; [|split; [|split]].
  - intros e H. unfold decode.Decode. rewrite H. reflexivity.
  - intros v rest H Hm. unfold decode.Decode. rewrite H.
    unfold decode.unmarshal, yahoo.sessionDecoder, decode.struct.
    destruct v; try discriminate Hm; simpl; eauto.
    simpl in Hm.
    pose proof (mistyped_members_fail parse members yahoo.Session.zero None Hm)
      as Hf.
    destruct (decode.members _ members _ None) as [cur [e|]|cur e];
      try contradiction; eauto.
  - intros s e H.
    destruct (decode.Decode _ data _) as [r [e'|]] eqn:Ed;
      inversion H; subst.
    eapply Decode_error; [apply sound_session | exact Ed].
  - reflexivity.
Qed.

(** *** Fields that the profile does not have *)

Lemma findField_named {T : Type} (fs : decode.fields T) (rawkey key : string)
  (dec : decode.decoder T) :
  json.unquote rawkey = Some key ->
  decode.findField fs key = Some dec ->
  exists name, In (name, dec) fs /\ names name rawkey = true.
Proof.
  unfold decode.findField, names. intros -> H.
  destruct (find _ fs) as [[n d]|] eqn:E1.
  - inversion H; subst. apply find_some in E1. destruct E1 as [Hin He].
    exists n. split; [exact Hin|]. simpl in He. rewrite He. reflexivity.
  - destruct (find _ fs) as [[n d]|] eqn:E2 in H; [|discriminate].
    inversion H; subst. apply find_some in E2. destruct E2 as [Hin He].
    exists n. split; [exact Hin|]. simpl in He. rewrite He.
    apply orb_true_r.
Qed.

Lemma present_member (name : string) (rest : list string)
  (ms : list (string * scanner.value)) (rawkey : string) (x : scanner.value) :
  present (name :: rest) (scanner.JObject ms) = false ->
  In (rawkey, x) ms -> names name rawkey = true ->
  present rest x = false.
Proof.
  simpl. intros He Hin Hn.
  destruct (present rest x) eqn:Hp; [|reflexivity].
  assert (existsb (fun m => names name (fst m) && present rest (snd m)) ms = true).
  { apply existsb_exists. exists (rawkey, x). simpl. rewrite Hn, Hp. auto. }
  congruence.
Qed.

(** A property of the target that every field decoder keeps is kept by the
    decode of the struct. *)
Lemma members_preserves {T : Type} (fs : decode.fields T) (P : T -> Prop) :
  forall ms,
    (forall rawkey x name dec, In (rawkey, x) ms -> In (name, dec) fs ->
       names name rawkey = true ->
       forall c s, P c -> P (decode.target (dec x c s))) ->
    forall cur saved, P cur ->
      P (decode.target (decode.members fs ms cur saved)).
Proof.
  induction ms as [|[rawkey x] ms IH]; intros Hd cur saved Hp; simpl; auto.
  destruct (json.unquote rawkey) as [key|] eqn:Eu; [|exact Hp].
  assert (Hrest : forall rawkey x name dec, In (rawkey, x) ms ->
            In (name, dec) fs -> names name rawkey = true ->
            forall c s, P c -> P (decode.target (dec x c s))).
  { intros. eapply Hd; eauto. right. assumption. }
  destruct (decode.findField fs key) as [dec|] eqn:Ef; [|apply IH; auto].
  destruct (findField_named _ _ _ _ Eu Ef) as (name & Hin & Hn).
  pose proof (Hd rawkey x name dec (or_introl eq_refl) Hin Hn cur saved Hp) as H1.
  destruct (dec x cur saved) as [cur' saved'|cur' e]; simpl in H1.
  - apply IH; auto.
  - exact H1.
Qed.

Lemma struct_preserves {T : Type} (gotype : string) (fs : decode.fields T)
  (P : T -> Prop) (v : scanner.value) (cur : T) (saved : option error) :
  P cur ->
  (forall ms, v = scanner.JObject ms ->
     forall rawkey x name dec, In (rawkey, x) ms -> In (name, dec) fs ->
       names name rawkey = true ->
       forall c s, P c -> P (decode.target (dec x c s))) ->
  P (decode.target (decode.struct gotype fs v cur saved)).
Proof.
  intros Hp Hd. unfold decode.struct. destruct v; simpl; auto.
  apply members_preserves; auto. apply Hd. reflexivity.
Qed.

Lemma field_target {T F : Type} (get : T -> F) (set : F -> T -> T)
  (dec : decode.decoder F) (v : scanner.value) (cur : T) (saved : option error) :
  decode.target (decode.field get set dec v cur saved)
  = set (decode.target (dec v (get cur) saved)) cur.
Proof.
  unfold decode.field. destruct (dec v (get cur) saved); reflexivity.
Qed.

(** The cases of a field table, one goal per field. *)
Ltac field_cases Hin :=
  simpl in Hin;
  repeat (destruct Hin as [Hin|Hin]; [inversion Hin; subst; clear Hin|]);
  try contradiction; rewrite field_target; simpl.







Lemma unmarshal_target {T : Type} (dec : decode.decoder T) (v : scanner.value)
  (t : T) : fst (decode.unmarshal dec v t) = decode.target (dec v t None).
Proof. unfold decode.unmarshal. destruct (dec v t None); reflexivity. Qed.



(** *** Bodies that fail to decode *)


















(** ** The authorization URL *)

Ltac each_byte c := destruct c as [[|] [|] [|] [|] [|] [|] [|] [|]].

Lemma upperhex_digits (c : ascii) :
  queryByte (url.upperhex (b2n c / 16)) = true
  /\ queryByte (url.upperhex (b2n c mod 16)) = true
  /\ json.hexval (url.upperhex (b2n c / 16)) = Some (b2n c / 16)%N
  /\ json.hexval (url.upperhex (b2n c mod 16)) = Some (b2n c mod 16)%N.
Proof. each_byte c; vm_compute; auto. Qed.

Lemma queryByte_plain (c : ascii) :
  queryByte c = true ->
  Ascii.eqb c "&" = false /\ Ascii.eqb c "=" = false /\ Ascii.eqb c ";" = false.
Proof. each_byte c; vm_compute; auto; discriminate. Qed.

Lemma unreserved_plain (c : ascii) :
  url.shouldEscape c = false ->
  Ascii.eqb c "%" = false /\ Ascii.eqb c "+" = false.
Proof. each_byte c; vm_compute; auto; discriminate. Qed.

Lemma QueryEscape_bytes (s : string) :
  Forall (fun c => queryByte c = true) (list_ascii_of_string (url.QueryEscape s)).
Proof.
  induction s as [|c s IH]; simpl; [constructor|].
  destruct (url.shouldEscape c) eqn:Es.
  - destruct (Ascii.eqb c " "); simpl.
    + constructor; [reflexivity|exact IH].
    + destruct (upperhex_digits c) as (H1 & H2 & _).
      repeat constructor; assumption.
  - simpl. constructor; [|exact IH]. unfold queryByte. rewrite Es. reflexivity.
Qed.

(** Escaping a query component loses nothing. *)
Lemma QueryUnescape_QueryEscape (s : string) :
  url.QueryUnescape (url.QueryEscape s) = Some s.
Proof.
  induction s as [|c s IH]; simpl; [reflexivity|].
  destruct (url.shouldEscape c) eqn:Es.
  - destruct (Ascii.eqb_spec c " ") as [->|Hne]; simpl.
    + rewrite IH. reflexivity.
    + destruct (upperhex_digits c) as (_ & _ & H1 & H2).
      rewrite H1, H2, IH. simpl. f_equal. f_equal.
      apply n2b_eq. pose proof (b2n_lt c). lia.
  - destruct (unreserved_plain c Es) as [H1 H2].
    simpl. rewrite H1, H2, IH. reflexivity.
Qed.

Lemma Cut_escaped (a : string) (sep : ascii) (b : string) :
  Forall (fun c => Ascii.eqb c sep = false) (list_ascii_of_string a) ->
  url.Cut (a ++ String sep b) sep = (a, Some b).
Proof.
  induction a as [|c a IH]; simpl; intros H.
  - rewrite Ascii.eqb_refl. reflexivity.
  - inversion H; subst. rewrite H2, IH by assumption. reflexivity.
Qed.

Lemma Contains_semicolon (s : string) :
  Forall (fun c => Ascii.eqb c ";" = false) (list_ascii_of_string s) ->
  strings.Contains s ";" = false.
Proof.
  induction s as [|c s IH]; intros H; [reflexivity|].
  inversion H; subst.
  cbn [strings.Contains strings.HasPrefix].
  rewrite (Ascii.eqb_sym ";" c), H2. simpl. auto.
Qed.

Lemma list_ascii_app (a b : string) :
  list_ascii_of_string (a ++ b) = (list_ascii_of_string a ++ list_ascii_of_string b)%list.
Proof. induction a; simpl; congruence. Qed.

Lemma item_bytes (kv : string * string) :
  Forall (fun c => Ascii.eqb c "&" = false /\ Ascii.eqb c ";" = false)
    (list_ascii_of_string (item kv)).
Proof.
  unfold item. rewrite !list_ascii_app. simpl.
  apply Forall_app. split; [|constructor; [split; reflexivity|]].
  - eapply Forall_impl; [|apply QueryEscape_bytes].
    intros c Hc. apply queryByte_plain in Hc. tauto.
  - eapply Forall_impl; [|apply QueryEscape_bytes].
    intros c Hc. apply queryByte_plain in Hc. tauto.
Qed.

Lemma parseItem_item (kv : string * string) : url.parseItem (item kv) = Some kv.
Proof.
  unfold url.parseItem, item. simpl.
  rewrite Cut_escaped.
  - rewrite !QueryUnescape_QueryEscape. destruct kv; reflexivity.
  - eapply Forall_impl; [|apply QueryEscape_bytes].
    intros c Hc. apply queryByte_plain in Hc. tauto.
Qed.

Lemma item_not_empty (kv : string * string) : String.eqb (item kv) "" = false.
Proof.
  unfold item. destruct (url.QueryEscape (fst kv)); reflexivity.
Qed.

Lemma splitItems_plain (a cur : string) :
  Forall (fun c => Ascii.eqb c "&" = false) (list_ascii_of_string a) ->
  (forall rest, url.splitItems cur (a ++ String "&" rest)
                = (cur ++ a) :: url.splitItems "" rest)
  /\ url.splitItems cur a = [cur ++ a].
Proof.
  revert cur. induction a as [|c a IH]; simpl; intros cur H.
  - assert (cur ++ "" = cur) as -> by (induction cur; simpl; congruence).
    split; reflexivity.
  - inversion H; subst. rewrite H2.
    destruct (IH (cur ++ String c "") H3) as [I1 I2].
    assert (E : (cur ++ String c "") ++ a = cur ++ String c a).
    { clear. induction cur; simpl; congruence. }
    rewrite <- E. split; [intros rest; apply I1 | exact I2].
Qed.

(** Parsing an encoded query gives back its parameters. *)
Lemma parseItems_Join (kvs : list (string * string)) :
  url.ParseQuery (strings.Join (map item kvs) "&") = Some kvs.
Proof.
  unfold url.ParseQuery.
  assert (Hamp : forall kv, Forall (fun c => Ascii.eqb c "&" = false)
                              (list_ascii_of_string (item kv))).
  { intros kv. eapply Forall_impl; [|apply item_bytes]. simpl. tauto. }
  assert (Hsemi : forall kv, strings.Contains (item kv) ";" = false).
  { intros kv. apply Contains_semicolon.
    eapply Forall_impl; [|apply item_bytes]. simpl. tauto. }
  induction kvs as [|kv kvs IH]; [reflexivity|].
  destruct kvs as [|kv' kvs].
  - simpl. destruct (splitItems_plain (item kv) "" (Hamp kv)) as [_ ->].
    simpl. rewrite item_not_empty, Hsemi, parseItem_item. reflexivity.
  - change (strings.Join (map item (kv :: kv' :: kvs)) "&")
      with (item kv ++ String "&" (strings.Join (map item (kv' :: kvs)) "&")).
    destruct (splitItems_plain (item kv) "" (Hamp kv)) as [-> _].
    change (url.parseItems ((""  ++ item kv) :: ?l)) with (url.parseItems (item kv :: l)).
    cbn [url.parseItems]. simpl append.
    rewrite item_not_empty, Hsemi, parseItem_item, IH. reflexivity.
Qed.

Lemma Encode_pairs (v : url.Values) :
  url.Encode v = strings.Join (map item (url.pairs (url.sortKeys v))) "&".
Proof. reflexivity. Qed.

Lemma newConfig_scopes_from (scopes : list string) :
  forall c : oauth2.Config,
    fold_left
      (fun c scope =>
         oauth2.mkConfig (oauth2.ClientID c) (oauth2.ClientSecret c)
           (oauth2.Endpoint_ c) (oauth2.RedirectURL c)
           (oauth2.Scopes c ++ [scope]))
      scopes c
    = oauth2.mkConfig (oauth2.ClientID c) (oauth2.ClientSecret c)
        (oauth2.Endpoint_ c) (oauth2.RedirectURL c) (oauth2.Scopes c ++ scopes).
Proof.
  induction scopes as [|x scopes IH]; intros c; simpl.
  - rewrite app_nil_r. destruct c; reflexivity.
  - rewrite IH. simpl. rewrite <- app_assoc. reflexivity.
Qed.

(** The configuration that [New] makes. *)
Lemma newConfig_eq (clientKey secret callbackURL : string) (scopes : list string) :
  yahoo.newConfig (yahoo.mkProvider clientKey secret callbackURL None) scopes
  = oauth2.mkConfig clientKey secret
      (oauth2.mkEndpoint yahoo.authURL yahoo.tokenURL) callbackURL scopes.
Proof.
  unfold yahoo.newConfig. destruct scopes as [|x scopes]; [reflexivity|].
  cbn [List.length Nat.ltb Nat.leb]. rewrite newConfig_scopes_from. reflexivity.
Qed.

Lemma AuthCodeURL_eq (clientKey secret callbackURL : string)
  (scopes : list string) (state : string) :
  oauth2.AuthCodeURL
    (oauth2.mkConfig clientKey secret
       (oauth2.mkEndpoint yahoo.authURL yahoo.tokenURL) callbackURL scopes)
    state
  = yahoo.authURL ++ "?"
    ++ strings.Join (map item (authParams clientKey callbackURL scopes state)) "&".
Proof.
  unfold oauth2.AuthCodeURL, authParams. cbn [oauth2.AuthURL oauth2.Endpoint_
    oauth2.RedirectURL oauth2.Scopes oauth2.ClientID].
  replace (strings.Contains yahoo.authURL "?") with false
    by (vm_compute; reflexivity).
  rewrite Encode_pairs.
  destruct (String.eqb callbackURL ""), scopes, (String.eqb state "");
    reflexivity.
Qed.

(** With an empty state the URL has no [state] parameter. *)
Lemma C6_empty_state_is_left_out :
  yahoo.BeginAuth (yahoo.New "key" "secret" "http://localhost/callback" []) ""
  = Return
      (yahoo.Own (Some (yahoo.Session.mk
         "https://api.login.yahoo.com/oauth2/request_auth?client_id=key&redirect_uri=http%3A%2F%2Flocalhost%2Fcallback&response_type=code"
         "" "" time.zero)),
       None)
  /\ url.ParseQuery
       "client_id=key&redirect_uri=http%3A%2F%2Flocalhost%2Fcallback&response_type=code"
     = Some [("client_id", "key");
             ("redirect_uri", "http://localhost/callback");
             ("response_type", "code")].
Proof. split; vm_compute; reflexivity. Qed.

(** C6, amended: for every client key, secret, callback URL, scopes and
    state, [BeginAuth] on the provider that [New] makes returns a session
    with nothing but its authorization URL. The URL is the fixed
    authorization endpoint, a question mark and a query whose parameters
    are, in this order and with these exact values: [client_id] with the
    client key, [redirect_uri] with the callback URL unless that is empty,
    [response_type] with [code], [scope] with the scopes joined by spaces
    unless there are none, and [state] with the state unless that is
    empty. *)
Theorem C6_BeginAuth_authorization_URL (clientKey secret callbackURL : string)
  (scopes : list string) (state : string) :
  exists query params,
    yahoo.BeginAuth (yahoo.New clientKey secret callbackURL scopes) state
    = Return
        (yahoo.Own (Some (yahoo.Session.mk
           ("https://api.login.yahoo.com/oauth2/request_auth" ++ "?" ++ query)
           "" "" time.zero)),
         None)
    /\ url.ParseQuery query = Some params
    /\ params = authParams clientKey callbackURL scopes state
    /\ In ("client_id", clientKey) params
    /\ (callbackURL <> "" -> In ("redirect_uri", callbackURL) params)
    /\ (state <> "" -> In ("state", state) params).
Proof.
  exists (strings.Join (map item (authParams clientKey callbackURL scopes state)) "&"),
    (authParams clientKey callbackURL scopes state).
  split; [|split; [|split; [|split; [|split]]]].
  - unfold yahoo.BeginAuth, yahoo.New. cbn [yahoo.config].
    cbn [yahoo.ClientKey yahoo.Secret yahoo.CallbackURL].
    rewrite newConfig_eq, AuthCodeURL_eq. reflexivity.
  - apply parseItems_Join.
  - reflexivity.
  - left. reflexivity.
  - intros Hne. apply String.eqb_neq in Hne. unfold authParams. rewrite Hne.
    right. left. reflexivity.
  - intros Hne. apply String.eqb_neq in Hne. unfold authParams. rewrite Hne.
    apply in_or_app. right. apply in_or_app. right.
    apply in_or_app. right. apply in_or_app. right. left. reflexivity.
Qed.

(** ** UTF-8 *)

Lemma first_multi (c : ascii) (sz : nat) (lo hi : N) :
  utf8.first c = utf8.LeadMulti sz lo hi ->
  (sz = 2%nat /\ 0xC2 <= b2n c < 0xE0 /\ lo = 0x80 /\ hi = 0xBF)%N \/
  (sz = 3%nat /\
   ((b2n c = 0xE0 /\ lo = 0xA0 /\ hi = 0xBF) \/
    (0xE1 <= b2n c <= 0xEF /\ b2n c <> 0xED /\ lo = 0x80 /\ hi = 0xBF) \/
    (b2n c = 0xED /\ lo = 0x80 /\ hi = 0x9F)))%N \/
  (sz = 4%nat /\
   ((b2n c = 0xF0 /\ lo = 0x90 /\ hi = 0xBF) \/
    (0xF1 <= b2n c <= 0xF3 /\ lo = 0x80 /\ hi = 0xBF) \/
    (b2n c = 0xF4 /\ lo = 0x80 /\ hi = 0x8F)))%N.
Proof.
  unfold utf8.first.
  repeat match goal with
  | |- context [ (?a <? ?b)%N ] => destruct (N.ltb_spec a b)
  | |- context [ (?a =? ?b)%N ] => destruct (N.eqb_spec a b)
  end; intros Heq; inversion Heq; subst; lia.
Qed.

Lemma first_ascii (c : ascii) :
  utf8.first c = utf8.LeadASCII <-> (b2n c < 0x80)%N.
Proof.
  unfold utf8.first.
  repeat match goal with
  | |- context [ (?a <? ?b)%N ] => destruct (N.ltb_spec a b)
  | |- context [ (?a =? ?b)%N ] => destruct (N.eqb_spec a b)
  end; split; intros Heq; try discriminate Heq; try reflexivity; lia.
Qed.

Ltac byte_bounds :=
  repeat match goal with
  | H : byte_in _ _ _ = true |- _ => apply byte_in_spec in H
  end;
  repeat match goal with
  | c : ascii |- _ =>
    lazymatch goal with
    | _ : (b2n c < 256)%N |- _ => fail
    | _ => pose proof (b2n_lt c)
    end
  end.

(** Encoding the rune of a well-formed sequence gives the sequence back. *)
Lemma encode_decode2 (s0 s1 : ascii) :
  (0xC2 <= b2n s0 < 0xE0)%N -> byte_in 0x80 0xBF s1 = true ->
  utf8.EncodeRune ((b2n s0 mod 32) * 64 + b2n s1 mod 64)
  = String s0 (String s1 "").
Proof.
  intros H0 H1. byte_bounds. unfold utf8.EncodeRune.
  set (r := (b2n s0 mod 32 * 64 + b2n s1 mod 64)%N).
  assert (0x80 <= r <= 0x7FF)%N by (unfold r; lia).
  destruct (N.leb_spec r 0x7F); [lia|].
  destruct (N.leb_spec r 0x7FF); [|lia].
  f_equal; [apply n2b_eq; unfold r; lia|].
  f_equal. apply n2b_eq; unfold r; lia.
Qed.

Lemma encode_decode3 (s0 s1 s2 : ascii) (lo hi : N) :
  ((b2n s0 = 0xE0 /\ lo = 0xA0 /\ hi = 0xBF) \/
   (0xE1 <= b2n s0 <= 0xEF /\ b2n s0 <> 0xED /\ lo = 0x80 /\ hi = 0xBF) \/
   (b2n s0 = 0xED /\ lo = 0x80 /\ hi = 0x9F))%N ->
  byte_in lo hi s1 = true -> byte_in 0x80 0xBF s2 = true ->
  utf8.EncodeRune ((b2n s0 mod 16) * 4096 + (b2n s1 mod 64) * 64 + b2n s2 mod 64)
  = String s0 (String s1 (String s2 "")).
Proof.
  intros H0 H1 H2. byte_bounds. unfold utf8.EncodeRune.
  set (r := (b2n s0 mod 16 * 4096 + b2n s1 mod 64 * 64 + b2n s2 mod 64)%N).
  assert (Hr : (0x800 <= r <= 0xFFFF /\ ~ (0xD800 <= r <= 0xDFFF))%N)
    by (unfold r; lia).
  unfold utf8.MaxRune, utf8.surrogateMin, utf8.surrogateMax.
  destruct (N.leb_spec r 0x7F); [lia|].
  destruct (N.leb_spec r 0x7FF); [lia|].
  destruct (N.ltb_spec 0x10FFFF r); [lia|].
  destruct (N.leb_spec 0xD800 r), (N.leb_spec r 0xDFFF); try lia;
    cbn [orb andb]; (destruct (N.leb_spec r 0xFFFF); [|lia]);
    unfold utf8.encode3;
    (f_equal; [apply n2b_eq; unfold r; lia|]);
    (f_equal; [apply n2b_eq; unfold r; lia|]);
    f_equal; apply n2b_eq; unfold r; lia.
Qed.

Lemma encode_decode4 (s0 s1 s2 s3 : ascii) (lo hi : N) :
  ((b2n s0 = 0xF0 /\ lo = 0x90 /\ hi = 0xBF) \/
   (0xF1 <= b2n s0 <= 0xF3 /\ lo = 0x80 /\ hi = 0xBF) \/
   (b2n s0 = 0xF4 /\ lo = 0x80 /\ hi = 0x8F))%N ->
  byte_in lo hi s1 = true -> byte_in 0x80 0xBF s2 = true ->
  byte_in 0x80 0xBF s3 = true ->
  utf8.EncodeRune ((b2n s0 mod 8) * 262144 + (b2n s1 mod 64) * 4096
                   + (b2n s2 mod 64) * 64 + b2n s3 mod 64)
  = String s0 (String s1 (String s2 (String s3 ""))).
Proof.
  intros H0 H1 H2 H3. byte_bounds. unfold utf8.EncodeRune.
  set (r := (b2n s0 mod 8 * 262144 + b2n s1 mod 64 * 4096
             + b2n s2 mod 64 * 64 + b2n s3 mod 64)%N).
  assert (Hr : (0x10000 <= r <= 0x10FFFF)%N) by (unfold r; lia).
  unfold utf8.MaxRune, utf8.surrogateMin, utf8.surrogateMax.
  destruct (N.leb_spec r 0x7F); [lia|].
  destruct (N.leb_spec r 0x7FF); [lia|].
  destruct (N.ltb_spec 0x10FFFF r); [lia|].
  destruct (N.leb_spec 0xD800 r), (N.leb_spec r 0xDFFF); try lia;
    cbn [orb andb]; (destruct (N.leb_spec r 0xFFFF); [lia|]);
    (f_equal; [apply n2b_eq; unfold r; lia|]);
    (f_equal; [apply n2b_eq; unfold r; lia|]);
    (f_equal; [apply n2b_eq; unfold r; lia|]);
    f_equal; apply n2b_eq; unfold r; lia.
Qed.

(** ** Strings of JSON *)

Lemma append_assoc (a b c : string) : (a ++ b) ++ c = a ++ (b ++ c).
Proof. induction a; simpl; congruence. Qed.

Lemma append_empty_r (a : string) : a ++ "" = a.
Proof. induction a; simpl; congruence. Qed.

Lemma length_append (a b : string) :
  String.length (a ++ b) = (String.length a + String.length b)%nat.
Proof. induction a; simpl; congruence. Qed.

Lemma feed_app (a b : string) :
  forall st st', feed st a = Some st' -> feed st (a ++ b) = feed st' b.
Proof.
  induction a as [|c a IH]; simpl; intros st st' H.
  - inversion H. reflexivity.
  - destruct (scanner.scan st c); try discriminate. eauto.
Qed.

Lemma readFrom_feed (a b all : string) :
  forall st st', feed st a = Some st' ->
    scanner.readFrom st (a ++ b) all = scanner.readFrom st' b all.
Proof.
  induction a as [|c a IH]; simpl; intros st st' H.
  - inversion H. reflexivity.
  - destruct (scanner.scan st c); try discriminate. eauto.
Qed.

Lemma scan_plain (c : ascii) (acc : string) (stk : list scanner.frame) :
  plainByte c = true ->
  scanner.scan (scanner.InString acc, stk) c
  = scanner.Cont (scanner.InString (acc ++ String c ""), stk).
Proof.
  unfold plainByte. intros H.
  apply andb_true_iff in H. destruct H as [H H3].
  apply andb_true_iff in H. destruct H as [H1 H2].
  apply negb_true_iff in H1, H2, H3.
  cbn [scanner.scan]. rewrite H1, H2, H3. reflexivity.
Qed.

Lemma feed_plain (s : string) :
  Forall (fun c => plainByte c = true) (list_ascii_of_string s) ->
  forall acc stk,
    feed (scanner.InString acc, stk) s = Some (scanner.InString (acc ++ s), stk).
Proof.
  induction s as [|c s IH]; intros H acc stk.
  - rewrite append_empty_r. reflexivity.
  - inversion H; subst. cbn [feed]. rewrite scan_plain by assumption.
    rewrite IH by assumption. rewrite append_assoc. reflexivity.
Qed.

Lemma plain_high (c : ascii) : (0x80 <= b2n c)%N -> plainByte c = true.
Proof.
  intros H. unfold plainByte.
  destruct (Ascii.eqb_spec c dquote) as [->|_]; [vm_compute in H; congruence|].
  destruct (Ascii.eqb_spec c "\") as [->|_]; [vm_compute in H; congruence|].
  destruct (N.ltb_spec (b2n c) 0x20); [lia|reflexivity].
Qed.

(** What the encoder writes for an ASCII byte: the unquoting gives the byte
    back, and the scanner takes it as part of a string literal. *)
Lemma escape_ascii_unquote (c : ascii) (X : string) :
  (b2n c < 0x80)%N ->
  json.unquoteFrom 0
    ((if json.htmlSafeSet c then String c "" else json.escapeASCII c) ++ X)
  = json.omap_app (String c "") (json.unquoteFrom 0 X).
Proof.
  each_byte c; intros H; try (vm_compute in H; discriminate H);
    cbn -[json.unquoteFrom];
    cbn [json.unquoteFrom]; reflexivity.
Qed.

Lemma escape_ascii_feed (c : ascii) (acc : string) (stk : list scanner.frame) :
  (b2n c < 0x80)%N ->
  feed (scanner.InString acc, stk)
    (if json.htmlSafeSet c then String c "" else json.escapeASCII c)
  = Some (scanner.InString
            (acc ++ (if json.htmlSafeSet c then String c "" else json.escapeASCII c)),
          stk).
Proof.
  each_byte c; intros H; try (vm_compute in H; discriminate H);
    match goal with
    | |- context [if ?b then ?x else ?y] =>
      let piece := eval vm_compute in (if b then x else y) in
      change (if b then x else y) with piece
    end;
    cbn; unfold scanner.snoc; rewrite ?append_assoc; reflexivity.
Qed.

Lemma high_not_special (c : ascii) :
  (0x80 <= b2n c)%N ->
  Ascii.eqb c "\" = false /\ Ascii.eqb c dquote = false
  /\ (b2n c <? 0x20)%N = false /\ (b2n c <? utf8.RuneSelf)%N = false.
Proof.
  intros H. repeat split.
  - destruct (Ascii.eqb_spec c "\") as [->|_]; [vm_compute in H; congruence|reflexivity].
  - destruct (Ascii.eqb_spec c dquote) as [->|_]; [vm_compute in H; congruence|reflexivity].
  - apply N.ltb_ge. lia.
  - apply N.ltb_ge. unfold utf8.RuneSelf. lia.
Qed.

Lemma unquote_high (c : ascii) (t : string) :
  (0x80 <= b2n c)%N ->
  json.unquoteFrom 0 (String c t)
  = let '(rr, size) := utf8.DecodeRuneInString (String c t) in
    json.omap_app (utf8.EncodeRune rr) (json.unquoteFrom (size - 1) t).
Proof.
  intros H. destruct (high_not_special c H) as (H1 & H2 & H3 & H4).
  cbn [json.unquoteFrom]. rewrite H1, H2, H3, H4. reflexivity.
Qed.

Lemma append_high (c : ascii) (t : string) :
  (0x80 <= b2n c)%N ->
  json.appendStringFrom 0 (String c t)
  = let '(r, size) := utf8.DecodeRuneInString (String c t) in
    if (r =? utf8.RuneError)%N && (size =? 1)%nat then
      "\uff" ++ "fd" ++ json.appendStringFrom 0 t
    else if (r =? 0x2028)%N || (r =? 0x2029)%N then
      "\u202" ++ String (json.hex (r mod 16)) (json.appendStringFrom (size - 1) t)
    else json.take size (String c t) ++ json.appendStringFrom (size - 1) t.
Proof.
  intros H. destruct (high_not_special c H) as (_ & _ & _ & H4).
  cbn [json.appendStringFrom]. rewrite H4. reflexivity.
Qed.

Lemma decode2 (c s1 : ascii) (lo hi : N) (X : string) :
  utf8.first c = utf8.LeadMulti 2 lo hi -> byte_in lo hi s1 = true ->
  utf8.DecodeRuneInString (String c (String s1 X))
  = ((b2n c mod 32) * 64 + b2n s1 mod 64, 2%nat)%N.
Proof.
  intros Hf H1. cbn [utf8.DecodeRuneInString]. rewrite Hf. cbn [String.length].
  rewrite H1. reflexivity.
Qed.

Lemma decode3 (c s1 s2 : ascii) (lo hi : N) (X : string) :
  utf8.first c = utf8.LeadMulti 3 lo hi -> byte_in lo hi s1 = true ->
  byte_in 0x80 0xBF s2 = true ->
  utf8.DecodeRuneInString (String c (String s1 (String s2 X)))
  = ((b2n c mod 16) * 4096 + (b2n s1 mod 64) * 64 + b2n s2 mod 64, 3%nat)%N.
Proof.
  intros Hf H1 H2. cbn [utf8.DecodeRuneInString]. rewrite Hf. cbn [String.length].
  rewrite H1, H2. reflexivity.
Qed.

Lemma decode4 (c s1 s2 s3 : ascii) (lo hi : N) (X : string) :
  utf8.first c = utf8.LeadMulti 4 lo hi -> byte_in lo hi s1 = true ->
  byte_in 0x80 0xBF s2 = true -> byte_in 0x80 0xBF s3 = true ->
  utf8.DecodeRuneInString (String c (String s1 (String s2 (String s3 X))))
  = ((b2n c mod 8) * 262144 + (b2n s1 mod 64) * 4096 + (b2n s2 mod 64) * 64
     + b2n s3 mod 64, 4%nat)%N.
Proof.
  intros Hf H1 H2 H3. cbn [utf8.DecodeRuneInString]. rewrite Hf.
  cbn [String.length]. rewrite H1, H2, H3. reflexivity.
Qed.

(** One rune of a well-formed text: what the encoder writes for it, which
    the unquoting takes back to the rune and the scanner takes as part of a
    string literal. *)
Lemma escape_step (c : ascii) (t0 : string) :
  utf8.ValidString (String c t0) = true ->
  exists run enc t,
    String c t0 = run ++ t
    /\ (String.length t < String.length (String c t0))%nat
    /\ utf8.ValidString t = true
    /\ json.appendStringFrom 0 (String c t0) = enc ++ json.appendStringFrom 0 t
    /\ (forall X, json.unquoteFrom 0 (enc ++ X)
                  = json.omap_app run (json.unquoteFrom 0 X))
    /\ (forall acc stk,
          feed (scanner.InString acc, stk) enc
          = Some (scanner.InString (acc ++ enc), stk)).
Proof.
  intros Hv. cbn [utf8.ValidString] in Hv.
  destruct (utf8.first c) as [| |sz lo hi] eqn:Hf; [| discriminate |].
  - (* one ASCII byte *)
    apply first_ascii in Hf.
    exists (String c ""),
      (if json.htmlSafeSet c then String c "" else json.escapeASCII c), t0.
    split; [reflexivity|]. split; [simpl; lia|]. split; [exact Hv|].
    split.
    + cbn [json.appendStringFrom].
      destruct (N.ltb_spec (b2n c) utf8.RuneSelf) as [_|H];
        [reflexivity | unfold utf8.RuneSelf in H; lia].
    + split; [intros X; apply escape_ascii_unquote; exact Hf|].
      intros acc stk. apply escape_ascii_feed. exact Hf.
  - (* a sequence of two, three or four bytes *)
    pose proof (first_multi _ _ _ _ Hf) as Hm.
    destruct t0 as [|s1 t1]; [discriminate|].
    apply andb_true_iff in Hv. destruct Hv as [H1 Hv].
    assert (Hc : (0x80 <= b2n c)%N) by lia.
    assert (Hs1 : (0x80 <= b2n s1)%N).
    { apply byte_in_spec in H1. lia. }
    destruct Hm as [(-> & Hr & -> & ->)|[(-> & Hr)|(-> & Hr)]].
    + cbn [Nat.leb] in Hv.
      exists (String c (String s1 "")), (String c (String s1 "")), t1.
      split; [reflexivity|]. split; [simpl; lia|]. split; [exact Hv|].
      assert (Hrune : (0x80 <= (b2n c mod 32) * 64 + b2n s1 mod 64 <= 0x7FF)%N).
      { pose proof H1 as H1'. byte_bounds. lia. }
      split; [|split].
      * rewrite append_high by exact Hc.
        rewrite (decode2 _ _ _ _ _ Hf H1).
        destruct (N.eqb_spec ((b2n c mod 32) * 64 + b2n s1 mod 64) 0x2028); [lia|].
        destruct (N.eqb_spec ((b2n c mod 32) * 64 + b2n s1 mod 64) 0x2029); [lia|].
        rewrite andb_false_r. reflexivity.
      * intros X. cbn [append]. rewrite unquote_high by exact Hc.
        rewrite (decode2 _ _ _ _ _ Hf H1).
        rewrite encode_decode2 by assumption. reflexivity.
      * intros acc stk. apply feed_plain.
        repeat constructor; apply plain_high; assumption.
    + cbn [Nat.leb] in Hv.
      destruct t1 as [|s2 t2]; [discriminate|].
      apply andb_true_iff in Hv. destruct Hv as [H2 Hv].
      assert (Hs2 : (0x80 <= b2n s2)%N).
      { apply byte_in_spec in H2. lia. }
      pose proof (encode_decode3 c s1 s2 lo hi Hr H1 H2) as Henc.
      pose proof (decode3 c s1 s2 lo hi) as Hdec.
      set (r := ((b2n c mod 16) * 4096 + (b2n s1 mod 64) * 64 + b2n s2 mod 64)%N) in *.
      destruct ((r =? 0x2028)%N || (r =? 0x2029)%N) eqn:Esep.
      * exists (String c (String s1 (String s2 ""))),
          ("\u202" ++ String (json.hex (r mod 16)) ""), t2.
        split; [reflexivity|]. split; [simpl; lia|]. split; [exact Hv|].
        split; [|split].
        -- rewrite append_high by exact Hc.
           rewrite (Hdec _ Hf H1 H2), Esep.
           rewrite andb_false_r. reflexivity.
        -- intros X. rewrite <- Henc.
           apply orb_true_iff in Esep.
           destruct Esep as [E|E]; apply N.eqb_eq in E; rewrite E; reflexivity.
        -- intros acc stk.
           apply orb_true_iff in Esep.
           destruct Esep as [E|E]; apply N.eqb_eq in E; rewrite E;
             cbn; unfold scanner.snoc; rewrite ?append_assoc; reflexivity.
      * exists (String c (String s1 (String s2 ""))),
          (String c (String s1 (String s2 ""))), t2.
        split; [reflexivity|]. split; [simpl; lia|]. split; [exact Hv|].
        split; [|split].
        -- rewrite append_high by exact Hc.
           rewrite (Hdec _ Hf H1 H2), Esep.
           rewrite andb_false_r. reflexivity.
        -- intros X. cbn [append]. rewrite unquote_high by exact Hc.
           rewrite (Hdec _ Hf H1 H2), Henc. reflexivity.
        -- intros acc stk. apply feed_plain.
           repeat constructor; apply plain_high; assumption.
    + cbn [Nat.leb] in Hv.
      destruct t1 as [|s2 t2]; [discriminate|].
      apply andb_true_iff in Hv. destruct Hv as [H2 Hv].
      destruct t2 as [|s3 t3]; [discriminate|].
      apply andb_true_iff in Hv. destruct Hv as [H3 Hv].
      assert (Hs2 : (0x80 <= b2n s2)%N).
      { apply byte_in_spec in H2. lia. }
      assert (Hs3 : (0x80 <= b2n s3)%N).
      { apply byte_in_spec in H3. lia. }
      pose proof (encode_decode4 c s1 s2 s3 lo hi Hr H1 H2 H3) as Henc.
      pose proof (decode4 c s1 s2 s3 lo hi) as Hdec.
      assert (Hrune : (0x10000 <= (b2n c mod 8) * 262144 + (b2n s1 mod 64) * 4096
                         + (b2n s2 mod 64) * 64 + b2n s3 mod 64)%N).
      { pose proof H1 as H1'. byte_bounds. lia. }
      set (r := ((b2n c mod 8) * 262144 + (b2n s1 mod 64) * 4096
                 + (b2n s2 mod 64) * 64 + b2n s3 mod 64)%N) in *.
      exists (String c (String s1 (String s2 (String s3 "")))),
        (String c (String s1 (String s2 (String s3 "")))), t3.
      split; [reflexivity|]. split; [simpl; lia|]. split; [exact Hv|].
      split; [|split].
      * rewrite append_high by exact Hc.
        rewrite (Hdec _ Hf H1 H2 H3).
        destruct (N.eqb_spec r 0x2028); [lia|].
        destruct (N.eqb_spec r 0x2029); [lia|].
        rewrite andb_false_r. reflexivity.
      * intros X. cbn [append]. rewrite unquote_high by exact Hc.
        rewrite (Hdec _ Hf H1 H2 H3), Henc. reflexivity.
      * intros acc stk. apply feed_plain.
        repeat constructor; apply plain_high; assumption.
Qed.

(** Unquoting the escaped text of a well-formed string gives the string. *)
Lemma unquote_escape (s : string) (X : string) :
  utf8.ValidString s = true ->
  json.unquoteFrom 0 (json.escapeString s ++ X)
  = json.omap_app s (json.unquoteFrom 0 X).
Proof.
  unfold json.escapeString.
  remember (String.length s) as n eqn:Hn. revert s Hn.
  induction n as [n IH] using lt_wf_ind. intros s Hn Hv.
  destruct s as [|c t0].
  - simpl. destruct (json.unquoteFrom 0 X); reflexivity.
  - destruct (escape_step c t0 Hv) as (run & enc & t & Hs & Hl & Hvt & Ha & Hu & _).
    rewrite Ha, append_assoc, Hu.
    rewrite (IH (String.length t)); [|lia|reflexivity|exact Hvt].
    rewrite Hs. destruct (json.unquoteFrom 0 X); simpl;
      [rewrite append_assoc|]; reflexivity.
Qed.

Theorem unquote_escapeString (s : string) :
  utf8.ValidString s = true -> json.unquote (json.escapeString s) = Some s.
Proof.
  intros Hv. unfold json.unquote.
  rewrite <- (append_empty_r (json.escapeString s)).
  rewrite unquote_escape by exact Hv. simpl. rewrite append_empty_r. reflexivity.
Qed.

(** The scanner takes the escaped text of a well-formed string as the
    inside of a string literal. *)
Lemma feed_escape (s : string) :
  utf8.ValidString s = true ->
  forall acc stk,
    feed (scanner.InString acc, stk) (json.escapeString s)
    = Some (scanner.InString (acc ++ json.escapeString s), stk).
Proof.
  unfold json.escapeString.
  remember (String.length s) as n eqn:Hn. revert s Hn.
  induction n as [n IH] using lt_wf_ind. intros s Hn Hv acc stk.
  destruct s as [|c t0].
  - simpl. rewrite append_empty_r. reflexivity.
  - destruct (escape_step c t0 Hv) as (run & enc & t & Hs & Hl & Hvt & Ha & _ & Hf).
    rewrite Ha. rewrite (feed_app _ _ _ _ (Hf acc stk)).
    rewrite (IH (String.length t)); [|lia|reflexivity|exact Hvt].
    rewrite append_assoc. reflexivity.
Qed.

(** ** Times *)

Section TimeFacts.

Local Open Scope Z_scope.

Ltac split_bools :=
  repeat match goal with
  | |- context [ ?a <? ?b ] => destruct (Z.ltb_spec a b)
  | |- context [ ?a <=? ?b ] => destruct (Z.leb_spec a b)
  | |- context [ ?a =? ?b ] => destruct (Z.eqb_spec a b)
  end.

(** The date of a day count is a date of the calendar, and its day count
    is the one it came from. *)
Lemma civil_days (z : Z) :
  let '(y, m, d) := time.civilFromDays z in
  time.daysFromCivil y m d = z /\ 1 <= m <= 12 /\ 1 <= d <= 31.
Proof.
  unfold time.civilFromDays, time.daysFromCivil.
  set (era := (z + 306) / 146097).
  set (doe := z + 306 - era * 146097).
  assert (Hdoe : 0 <= doe <= 146096) by (unfold doe, era; lia).
  set (yoe := (doe - doe / 1460 + doe / 36524 - doe / 146096) / 365).
  assert (Hyoe : 0 <= yoe <= 399
                 /\ 0 <= doe - (365 * yoe + yoe / 4 - yoe / 100) <= 365)
    by (unfold yoe; lia).
  set (doy := doe - (365 * yoe + yoe / 4 - yoe / 100)) in *.
  set (mp := (5 * doy + 2) / 153).
  assert (Hmp : 0 <= mp <= 11) by (unfold mp; lia).
  set (d := doy - (153 * mp + 2) / 5 + 1).
  assert (Hd : 1 <= d <= 31) by (unfold d, mp; lia).
  split_bools; try lia.
  all: split; [|lia].
  all: unfold d, doy in *.
  all: lia.
Qed.

Lemma civil_valid (z : Z) :
  let '(y, m, d) := time.civilFromDays z in
  1 <= m <= 12 /\ 1 <= d <= time.daysIn m y.
Proof.
  unfold time.civilFromDays, time.daysIn, time.isLeap.
  set (era := (z + 306) / 146097).
  set (doe := z + 306 - era * 146097).
  assert (Hdoe : 0 <= doe <= 146096) by (unfold doe, era; lia).
  set (yoe := (doe - doe / 1460 + doe / 36524 - doe / 146096) / 365).
  assert (Hyoe : 0 <= yoe <= 399
                 /\ 0 <= doe - (365 * yoe + yoe / 4 - yoe / 100) <= 365)
    by (unfold yoe; lia).
  assert (Hleap : doe - (365 * yoe + yoe / 4 - yoe / 100) = 365 ->
                  (yoe + 1) mod 4 = 0 /\ ((yoe + 1) mod 100 <> 0 \/ yoe = 399))
    by (unfold yoe; lia).
  set (doy := doe - (365 * yoe + yoe / 4 - yoe / 100)) in *.
  set (mp := (5 * doy + 2) / 153).
  assert (Hmp : 0 <= mp <= 11) by (unfold mp; lia).
  set (d := doy - (153 * mp + 2) / 5 + 1).
  assert (Hd : 1 <= d <= 31) by (unfold d, mp; lia).
  clearbody yoe. clear Hdoe. clearbody doe.
  split_bools; cbn [andb orb negb]; try lia.
  all: unfold d, mp in *; lia.
Qed.

Lemma some_eq {A : Type} (a b : A) : Some a = Some b -> a = b.
Proof. congruence. Qed.

(** *** Decimal digits *)

Lemma digit_value (k : Z) :
  0 <= k <= 9 ->
  byte_in 48 57 (time.digit k) = true /\ time.digitval (time.digit k) = Some k.
Proof.
  intros H.
  assert (E : k = 0 \/ k = 1 \/ k = 2 \/ k = 3 \/ k = 4 \/ k = 5 \/ k = 6
              \/ k = 7 \/ k = 8 \/ k = 9) by lia.
  repeat (destruct E as [E|E]; [subst k; split; reflexivity|]).
  subst k; split; reflexivity.
Qed.

Lemma parseDigits_app (a b : string) :
  forall acc x, time.parseDigits acc a = Some x ->
    time.parseDigits acc (a ++ b) = time.parseDigits x b.
Proof.
  induction a as [|c a IH]; simpl; intros acc x H.
  - inversion H. reflexivity.
  - destruct (time.digitval c); [eauto|discriminate].
Qed.

Lemma parseDigits_digits (w : nat) :
  forall n acc, 0 <= n < 10 ^ Z.of_nat w ->
    time.parseDigits acc (time.digits w n) = Some (acc * 10 ^ Z.of_nat w + n).
Proof.
  induction w as [|w IH]; intros n acc H.
  - simpl in *. f_equal. lia.
  - rewrite Nat2Z.inj_succ, Z.pow_succ_r in * by lia.
    cbn [time.digits].
    rewrite (parseDigits_app _ _ _ _ (IH (n / 10) acc ltac:(lia))).
    cbn [time.parseDigits].
    destruct (digit_value (n mod 10) ltac:(lia)) as [_ ->].
    f_equal. set (p := 10 ^ Z.of_nat w) in *. nia.
Qed.

Lemma parseUint_digits (w : nat) (n lo hi : Z) :
  0 <= n < 10 ^ Z.of_nat w -> lo <= n <= hi ->
  time.parseUint (time.digits w n) lo hi = Some n.
Proof.
  intros Hn Hb. unfold time.parseUint.
  rewrite parseDigits_digits by exact Hn. simpl.
  destruct (Z.leb_spec lo n), (Z.leb_spec n hi); try lia. reflexivity.
Qed.

Lemma digits_length (w : nat) (n : Z) : String.length (time.digits w n) = w.
Proof.
  revert n. induction w as [|w IH]; intros n; [reflexivity|].
  cbn [time.digits]. rewrite length_append, IH. simpl. lia.
Qed.

Lemma digits_allDigits (w : nat) (n : Z) : allDigits (time.digits w n).
Proof.
  revert n. induction w as [|w IH]; intros n; [constructor|].
  unfold allDigits. cbn [time.digits]. rewrite list_ascii_app.
  apply Forall_app. split; [apply IH|].
  constructor; [|constructor].
  apply digit_value. lia.
Qed.

(** *** The fraction of a second *)

Lemma trimRight_spec (s : string) :
  allDigits s ->
  allDigits (time.trimRight s)
  /\ (String.length (time.trimRight s) <= String.length s)%nat
  /\ forall acc, exists x,
       time.parseDigits acc (time.trimRight s) = Some x
       /\ time.parseDigits acc s
          = Some (x * 10 ^ (Z.of_nat (String.length s)
                            - Z.of_nat (String.length (time.trimRight s)))).
Proof.
  induction s as [|c t IH]; intros H.
  - split; [constructor|]. split; [reflexivity|].
    intros acc. exists acc. split; [reflexivity|]. simpl. f_equal. lia.
  - inversion H as [|c' l Hc Ht]; subst.
    destruct (IH Ht) as (Ha & Hl & Hp).
    cbn [time.trimRight].
    assert (Hv : exists v, time.digitval c = Some v /\ (c = "0"%char -> v = 0)).
    { unfold time.digitval. rewrite Hc. eexists. split; [reflexivity|].
      intros ->. reflexivity. }
    destruct Hv as (v & Hv & Hz).
    destruct (time.trimRight t) as [|c1 t1] eqn:Et.
    + destruct (Ascii.eqb_spec c "0") as [->|Hne].
      * split; [constructor|]. split; [simpl; lia|].
        intros acc. exists acc. split; [reflexivity|].
        cbn [time.parseDigits]. rewrite Hv, (Hz eq_refl).
        destruct (Hp (acc * 10 + 0)) as (x & Hx & Hy).
        simpl in Hx. inversion Hx; subst x. rewrite Hy.
        cbn [String.length]. f_equal.
        rewrite Nat2Z.inj_succ.
        replace (Z.succ (Z.of_nat (String.length t)) - Z.of_nat 0)
          with (Z.succ (Z.of_nat (String.length t) - Z.of_nat 0)) by lia.
        rewrite Z.pow_succ_r by lia. lia.
      * split; [constructor; [exact Hc|constructor]|]. split; [simpl; lia|].
        intros acc. cbn [time.parseDigits]. rewrite Hv.
        destruct (Hp (acc * 10 + v)) as (x & Hx & Hy).
        exists x. split; [exact Hx|]. rewrite Hy.
        cbn [String.length]. f_equal. f_equal. f_equal. lia.
    + split; [constructor; assumption|]. split; [simpl in *; lia|].
      intros acc. cbn [time.parseDigits]. rewrite Hv.
      destruct (Hp (acc * 10 + v)) as (x & Hx & Hy).
      exists x. split; [exact Hx|]. rewrite Hy.
      cbn [String.length]. f_equal. f_equal. f_equal. lia.
Qed.

Lemma spanDigits_app (ds : string) (c : ascii) (rest : string) :
  allDigits ds -> byte_in 48 57 c = false ->
  time.spanDigits (ds ++ String c rest) = (ds, String c rest).
Proof.
  induction ds as [|d ds IH]; intros H Hc.
  - simpl. rewrite Hc. reflexivity.
  - inversion H; subst. cbn [append time.spanDigits].
    rewrite H2, IH by assumption. reflexivity.
Qed.

Lemma take_all (n : nat) (s : string) :
  (String.length s <= n)%nat -> json.take n s = s.
Proof.
  revert n. induction s as [|c s IH]; intros n H; destruct n; simpl in *;
    try reflexivity; try lia.
  rewrite IH by lia. reflexivity.
Qed.

Lemma parseFraction_appendNano (ns : Z) (c : ascii) (rest : string) :
  0 <= ns < 1000000000 -> zoneHead c ->
  time.parseFraction (time.appendNano ns ++ String c rest)
  = (Some ns, String c rest).
Proof.
  intros Hns [Hdot Hdig]. unfold time.appendNano.
  destruct (Z.eqb_spec ns 0) as [->|Hne].
  - cbn [append]. unfold time.parseFraction.
    destruct c as [b0 b1 b2 b3 b4 b5 b6 b7].
    destruct b0, b1, b2, b3, b4, b5, b6, b7; try reflexivity;
      discriminate Hdot.
  - destruct (trimRight_spec (time.digits 9 ns) (digits_allDigits 9 ns))
      as (Ha & Hl & Hp).
    rewrite digits_length in Hl, Hp.
    destruct (Hp 0) as (x & Hx & Hy). clear Hp.
    rewrite parseDigits_digits in Hy by (simpl; lia).
    remember (time.trimRight (time.digits 9 ns)) as tr eqn:Et.
    assert (Hns' : ns = x * 10 ^ (9 - Z.of_nat (String.length tr))).
    { change (Z.of_nat 9) with 9 in Hy. apply some_eq in Hy.
      rewrite Z.mul_0_l, Z.add_0_l in Hy. exact Hy. }
    clear Hy Et.
    destruct tr as [|f t].
    + simpl in Hx. inversion Hx; subst x. simpl in Hns'. lia.
    + cbn [append]. unfold time.parseFraction.
      inversion Ha as [|f' l Hf Hrest]; subst f' l.
      rewrite Hf.
      change (String f (t ++ String c rest)) with (String f t ++ String c rest).
      rewrite spanDigits_app by assumption.
      unfold time.parseNanoseconds. rewrite take_all by exact Hl.
      rewrite Hx. f_equal. f_equal. exact (eq_sym Hns').
Qed.

(** *** The zone *)

Lemma parseZone_appendZone (off : Z) :
  off mod 60 = 0 -> -86400 < off < 86400 ->
  time.parseZone (time.appendZone off) = Some off
  /\ exists c rest, time.appendZone off = String c rest /\ zoneHead c.
Proof.
  intros Hm Hr. unfold time.appendZone.
  destruct (Z.eqb_spec off 0) as [->|Hne].
  - split; [reflexivity|]. exists "Z"%char, ""%string. repeat split.
  - set (zone := Z.quot off 60).
    assert (Hz : off = 60 * zone /\ -1440 < zone < 1440 /\ zone <> 0).
    { unfold zone. pose proof (Z.quot_rem' off 60).
      assert (Z.rem off 60 = 0) by (apply Z.rem_divide; [lia|]; apply Z.mod_divide; lia).
      lia. }
    set (a := Z.abs zone).
    assert (Ha : 0 < a < 1440) by (unfold a; lia).
    assert (Hq : 0 <= Z.quot a 60 <= 23 /\ 0 <= Z.rem a 60 <= 59
                 /\ a = 60 * Z.quot a 60 + Z.rem a 60).
    { pose proof (Z.quot_rem' a 60). pose proof (Z.rem_bound_pos a 60).
      assert (0 <= Z.quot a 60) by (apply Z.quot_pos; lia).
      assert (Z.quot a 60 < 24) by (apply Z.quot_lt_upper_bound; lia).
      lia. }
    pose proof (parseUint_digits 2 (Z.quot a 60) 0 23 ltac:(simpl; lia) ltac:(lia)) as Hh.
    pose proof (parseUint_digits 2 (Z.rem a 60) 0 59 ltac:(simpl; lia) ltac:(lia)) as Hmm.
    cbn [time.digits append] in Hh, Hmm.
    destruct (Z.ltb_spec zone 0) as [Hneg|Hpos].
    + split.
      * cbn [time.digits append time.parseZone].
        cbn [Ascii.eqb Bool.eqb orb andb]. rewrite Hh, Hmm. f_equal. lia.
      * eexists _, _. split; [cbn [append]; reflexivity|]. split; reflexivity.
    + split.
      * cbn [time.digits append time.parseZone].
        cbn [Ascii.eqb Bool.eqb orb andb]. rewrite Hh, Hmm. f_equal. lia.
      * eexists _, _. split; [cbn [append]; reflexivity|]. split; reflexivity.
Qed.

(** *** The whole text *)

Lemma parseRFC3339_digits (Y M D h mi s : Z) (rest : string) :
  0 <= Y <= 9999 -> 1 <= M <= 12 -> 1 <= D <= time.daysIn M Y ->
  0 <= h <= 23 -> 0 <= mi <= 59 -> 0 <= s <= 59 ->
  time.parseRFC3339
    (time.digits 4 Y ++ "-" ++ time.digits 2 M ++ "-" ++ time.digits 2 D ++ "T"
     ++ time.digits 2 h ++ ":" ++ time.digits 2 mi ++ ":" ++ time.digits 2 s
     ++ rest)
  = let '(ns, rest') := time.parseFraction rest in
    match ns, time.parseZone rest' with
    | Some ns, Some zoneOffset =>
      Some (time.mkTime (time.daysFromCivil Y M D * 86400 + h * 3600 + mi * 60
                         + s - zoneOffset) ns zoneOffset)
    | _, _ => None
    end.
Proof.
  intros HY HM HD Hh Hmi Hs.
  assert (HD31 : D <= 31).
  { unfold time.daysIn in HD.
    destruct (M =? 2); [destruct (time.isLeap Y); lia|].
    destruct ((M =? 4) || (M =? 6) || (M =? 9) || (M =? 11)); lia. }
  pose proof (parseUint_digits 4 Y 0 9999 ltac:(simpl; lia) ltac:(lia)) as PY.
  pose proof (parseUint_digits 2 M 1 12 ltac:(simpl; lia) ltac:(lia)) as PM.
  pose proof (parseUint_digits 2 D 1 (time.daysIn M Y) ltac:(simpl; lia) ltac:(lia)) as PD.
  pose proof (parseUint_digits 2 h 0 23 ltac:(simpl; lia) ltac:(lia)) as Ph.
  pose proof (parseUint_digits 2 mi 0 59 ltac:(simpl; lia) ltac:(lia)) as Pmi.
  pose proof (parseUint_digits 2 s 0 59 ltac:(simpl; lia) ltac:(lia)) as Ps.
  cbn [time.digits append] in PY, PM, PD, Ph, Pmi, Ps.
  cbn [time.digits append time.parseRFC3339].
  cbn [Ascii.eqb Bool.eqb andb].
  rewrite PY, PM, PD, Ph, Pmi, Ps. reflexivity.
Qed.

(** Parsing the RFC 3339 text of a time gives the time back, when the time
    has such a text: a year of four digits and a zone of whole minutes,
    less than a day from UTC. *)
Theorem parse_format (t : time.Time) :
  time.wf t -> 0 <= time.Year t <= 9999 ->
  time.offset t mod 60 = 0 -> -86400 < time.offset t < 86400 ->
  time.parseRFC3339 (time.appendFormatRFC3339 t) = Some t.
Proof.
  intros Hwf Hy Hm Ho. unfold time.appendFormatRFC3339, time.Year in *.
  pose proof (civil_days (time.abs t / 86400)) as Hc.
  pose proof (civil_valid (time.abs t / 86400)) as Hd.
  destruct (time.civilFromDays (time.abs t / 86400)) as [[Y M] D].
  destruct Hc as (Hdays & _). destruct Hd as (HM & HD).
  set (a := time.abs t) in *. set (s := a mod 86400).
  assert (Hs : 0 <= s < 86400) by (unfold s; lia).
  rewrite parseRFC3339_digits by lia.
  destruct (parseZone_appendZone (time.offset t) Hm Ho)
    as (Hz & c & rest & Ez & Hhead).
  rewrite Ez, parseFraction_appendNano by assumption.
  rewrite <- Ez, Hz. rewrite Hdays.
  destruct t as [sec ns off]. unfold time.abs in a. cbn in *.
  f_equal. f_equal. unfold s, a. lia.
Qed.

End TimeFacts.

(** ** The round trip of a session *)

Lemma feed_cons (st st' : scanner.state) (c : ascii) (t : string) :
  scanner.scan st c = scanner.Cont st' -> feed st (String c t) = feed st' t.
Proof. intros H. cbn [feed]. rewrite H. reflexivity. Qed.

Lemma feed_close (raw : string) (stk : list scanner.frame) :
  literal raw ->
  feed (scanner.InString "", stk) (raw ++ String dquote "")
  = match scanner.deliver (scanner.JString raw) stk with
    | Some st => Some st
    | None => None
    end.
Proof.
  intros Hl. rewrite (feed_app _ _ _ _ (Hl "" stk)).
  cbn [feed append scanner.scan].
  rewrite Ascii.eqb_refl. destruct (scanner.deliver _ stk); reflexivity.
Qed.

Lemma feed_quoted_value (raw : string) (ms : list (string * scanner.value))
  (key : string) (r : list scanner.frame) :
  literal raw ->
  feed (scanner.BeginValue, scanner.FObjVal ms key :: r) (quoted raw)
  = Some (scanner.EndValue, scanner.FObjNext ((key, scanner.JString raw) :: ms) :: r).
Proof.
  intros Hl. unfold quoted.
  rewrite (feed_cons _ (scanner.InString "", scanner.FObjVal ms key :: r))
    by reflexivity.
  rewrite feed_close by exact Hl. reflexivity.
Qed.

Lemma feed_quoted_key (raw : string) (ms : list (string * scanner.value))
  (r : list scanner.frame) (s : scanner.step) :
  s = scanner.BeginString \/ s = scanner.BeginStringOrEmpty ->
  literal raw ->
  feed (s, scanner.FObjKey ms :: r) (quoted raw)
  = Some (scanner.EndValue, scanner.FObjColon ms raw :: r).
Proof.
  intros Hs Hl. unfold quoted.
  rewrite (feed_cons _ (scanner.InString "", scanner.FObjKey ms :: r))
    by (destruct Hs; subst s; reflexivity).
  rewrite feed_close by exact Hl. reflexivity.
Qed.

Lemma feed_member (k v : string) (ms : list (string * scanner.value))
  (r : list scanner.frame) (s : scanner.step) :
  s = scanner.BeginString \/ s = scanner.BeginStringOrEmpty ->
  literal k -> literal v ->
  feed (s, scanner.FObjKey ms :: r) (quoted k ++ ":" ++ quoted v)
  = Some (scanner.EndValue, scanner.FObjNext ((k, scanner.JString v) :: ms) :: r).
Proof.
  intros Hs Hk Hv.
  rewrite (feed_app _ _ _ _ (feed_quoted_key k ms r s Hs Hk)).
  cbn [append].
  rewrite (feed_cons _ (scanner.BeginValue, scanner.FObjVal ms k :: r))
    by reflexivity.
  apply feed_quoted_value. exact Hv.
Qed.

Lemma feed_members (kvs : list (string * string)) :
  kvs <> [] ->
  Forall (fun kv => literal (fst kv) /\ literal (snd kv)) kvs ->
  forall ms r s,
    s = scanner.BeginString \/ s = scanner.BeginStringOrEmpty ->
    feed (s, scanner.FObjKey ms :: r) (membersText kvs)
    = Some (scanner.EndValue,
            scanner.FObjNext (rev (stringMembers kvs) ++ ms)%list :: r).
Proof.
  induction kvs as [|[k v] kvs IH]; intros Hne Hall ms r s Hs; [congruence|].
  inversion Hall as [|kv l [Hk Hv] Hrest]; subst.
  destruct kvs as [|kv' kvs].
  - cbn [membersText]. rewrite feed_member by assumption. reflexivity.
  - change (membersText ((k, v) :: kv' :: kvs))
      with (quoted k ++ ":" ++ quoted v ++ "," ++ membersText (kv' :: kvs)).
    replace (quoted k ++ ":" ++ quoted v ++ "," ++ membersText (kv' :: kvs))
      with ((quoted k ++ ":" ++ quoted v) ++ "," ++ membersText (kv' :: kvs))
      by (rewrite !append_assoc; reflexivity).
    rewrite (feed_app _ _ _ _ (feed_member k v ms r s Hs Hk Hv)).
    cbn [append].
    rewrite (feed_cons _ (scanner.BeginString,
               scanner.FObjKey ((k, scanner.JString v) :: ms) :: r))
      by reflexivity.
    rewrite IH; [|discriminate|exact Hrest|left; reflexivity].
    cbn [stringMembers map rev fst snd]. rewrite <- !app_assoc. reflexivity.
Qed.

(** The decoder reads an object of string members as it was written. *)
Lemma read_object (kvs : list (string * string)) (rest : string) :
  kvs <> [] ->
  Forall (fun kv => literal (fst kv) /\ literal (snd kv)) kvs ->
  scanner.readValue ("{" ++ membersText kvs ++ "}" ++ rest)
  = inr (scanner.JObject (stringMembers kvs), rest).
Proof.
  intros Hne Hall. unfold scanner.readValue.
  cbn [append scanner.readFrom].
  change (scanner.scan (scanner.BeginValue, []) "{")
    with (scanner.Cont (scanner.BeginStringOrEmpty, [scanner.FObjKey []])).
  cbv beta iota.
  rewrite (readFrom_feed _ _ _ _ _
             (feed_members kvs Hne Hall [] [] _ (or_intror eq_refl))).
  rewrite app_nil_r. cbn [append scanner.readFrom].
  change (scanner.scan (scanner.EndValue,
            [scanner.FObjNext (rev (stringMembers kvs))]) "}")
    with (scanner.EndAt (scanner.JObject (rev (rev (stringMembers kvs))))).
  cbv beta iota. rewrite rev_involutive. reflexivity.
Qed.

Lemma literal_plain (s : string) :
  Forall (fun c => plainByte c = true) (list_ascii_of_string s) -> literal s.
Proof. intros H acc stk. apply feed_plain. exact H. Qed.

Lemma literal_escape (s : string) :
  utf8.ValidString s = true -> literal (json.escapeString s).
Proof. intros H acc stk. apply feed_escape. exact H. Qed.

Lemma digit_plain (c : ascii) : byte_in 48 57 c = true -> plainByte c = true.
Proof.
  intros H. apply byte_in_spec in H. unfold plainByte.
  destruct (Ascii.eqb_spec c dquote) as [->|_];
    [change (b2n dquote) with 34%N in H; lia|].
  destruct (Ascii.eqb_spec c "\") as [->|_];
    [change (b2n "\") with 92%N in H; lia|].
  destruct (N.ltb_spec (b2n c) 0x20); [lia|reflexivity].
Qed.

Lemma allDigits_plain (s : string) :
  allDigits s -> Forall (fun c => plainByte c = true) (list_ascii_of_string s).
Proof. apply Forall_impl. exact digit_plain. Qed.

Lemma plainText_app (a b : string) :
  plainText a -> plainText b -> plainText (a ++ b).
Proof.
  unfold plainText. intros Ha Hb. rewrite list_ascii_app.
  apply Forall_app. split; assumption.
Qed.

Lemma plainText_cons (c : ascii) (s : string) :
  plainByte c = true -> plainText s -> plainText (String c s).
Proof. intros Hc Hs. constructor; assumption. Qed.

Lemma plainText_digits (w : nat) (n : Z) : plainText (time.digits w n).
Proof. apply allDigits_plain, digits_allDigits. Qed.

Ltac plain_text :=
  cbn [append];
  repeat match goal with
  | |- plainText (time.digits _ _ ++ _) =>
    apply plainText_app; [apply plainText_digits|]
  | |- plainText (time.digits _ _) => apply plainText_digits
  | |- plainText (String _ _) => apply plainText_cons; [reflexivity|]
  | |- plainText EmptyString => constructor
  end.

Lemma appendNano_plain (ns : Z) : plainText (time.appendNano ns).
Proof.
  unfold time.appendNano. destruct (ns =? 0)%Z; [constructor|].
  apply plainText_cons; [reflexivity|].
  apply allDigits_plain, trimRight_spec, digits_allDigits.
Qed.

Lemma appendZone_plain (off : Z) : plainText (time.appendZone off).
Proof.
  unfold time.appendZone. destruct (off =? 0)%Z; [plain_text|].
  destruct (Z.quot off 60 <? 0)%Z; plain_text.
Qed.

(** The RFC 3339 text of a time is the inside of a string literal. *)
Lemma format_plain (t : time.Time) : plainText (time.appendFormatRFC3339 t).
Proof.
  unfold time.appendFormatRFC3339.
  destruct (time.civilFromDays (time.abs t / 86400)) as [[Y M] D].
  plain_text.
  apply plainText_app; [apply appendNano_plain | apply appendZone_plain].
Qed.

Lemma MarshalJSON_ok (t : time.Time) :
  (0 <= time.Year t <= 9999)%Z -> (-86400 < time.offset t < 86400)%Z ->
  time.MarshalJSON t = inr (quoted (time.appendFormatRFC3339 t)).
Proof.
  intros Hy Ho. unfold time.MarshalJSON.
  destruct (Z.ltb_spec (time.Year t) 0); [lia|].
  destruct (Z.ltb_spec 9999 (time.Year t)); [lia|].
  cbn [orb].
  assert (H24 : (Z.quot (Z.abs (Z.quot (time.offset t) 60)) 60 < 24)%Z) by lia.
  destruct (Z.leb_spec 24 (Z.quot (Z.abs (Z.quot (time.offset t) 60)) 60));
    [lia|reflexivity].
Qed.

(** The text of a session that has one. *)
Lemma Marshal_text (s : yahoo.Session.t) :
  (0 <= time.Year (yahoo.Session.ExpiresAt s) <= 9999)%Z ->
  (-86400 < time.offset (yahoo.Session.ExpiresAt s) < 86400)%Z ->
  yahoo.Marshal s
  = "{" ++ membersText
             [("AuthURL", json.escapeString (yahoo.Session.AuthURL s));
              ("AccessToken", json.escapeString (yahoo.Session.AccessToken s));
              ("RefreshToken", json.escapeString (yahoo.Session.RefreshToken s));
              ("ExpiresAt", time.appendFormatRFC3339 (yahoo.Session.ExpiresAt s))]
    ++ "}" ++ "".
Proof.
  intros Hy Ho. unfold yahoo.Marshal, yahoo.json_Marshal.
  rewrite MarshalJSON_ok by assumption.
  unfold json.appendString, quoted. cbn [membersText].
  change (json.escapeString "AuthURL") with "AuthURL".
  change (json.escapeString "AccessToken") with "AccessToken".
  change (json.escapeString "RefreshToken") with "RefreshToken".
  change (json.escapeString "ExpiresAt") with "ExpiresAt".
  unfold quoted. cbn [append].
  repeat (progress (rewrite ?append_assoc; cbn [append])).
  reflexivity.
Qed.

(** A member that names a string field or the time field sets the field. *)
Lemma members_string (parse : time.Parse) (name rawkey : string)
  (get : yahoo.Session.t -> string)
  (set : string -> yahoo.Session.t -> yahoo.Session.t)
  (raw v : string) (rest : list (string * scanner.value))
  (cur : yahoo.Session.t) (saved : option error) :
  json.unquote rawkey = Some name ->
  decode.findField (yahoo.sessionFields parse) name
  = Some (decode.field get set decode.string_) ->
  json.unquote raw = Some v ->
  decode.members (yahoo.sessionFields parse) ((rawkey, scanner.JString raw) :: rest)
    cur saved
  = decode.members (yahoo.sessionFields parse) rest (set v cur) saved.
Proof.
  intros Hk Hf Hv. cbn [decode.members]. rewrite Hk, Hf.
  unfold decode.field, decode.string_. rewrite Hv. reflexivity.
Qed.

Lemma members_time (parse : time.Parse) (name rawkey : string)
  (get : yahoo.Session.t -> time.Time)
  (set : time.Time -> yahoo.Session.t -> yahoo.Session.t)
  (raw : string) (v : time.Time) (rest : list (string * scanner.value))
  (cur : yahoo.Session.t) (saved : option error) :
  json.unquote rawkey = Some name ->
  decode.findField (yahoo.sessionFields parse) name
  = Some (decode.field get set (decode.time_ parse)) ->
  time.parseRFC3339 raw = Some v ->
  decode.members (yahoo.sessionFields parse) ((rawkey, scanner.JString raw) :: rest)
    cur saved
  = decode.members (yahoo.sessionFields parse) rest (set v cur) saved.
Proof.
  intros Hk Hf Hv. cbn [decode.members]. rewrite Hk, Hf.
  unfold decode.field, decode.time_, time.parseStrictRFC3339.
  rewrite Hv. reflexivity.
Qed.

(** A byte that is not UTF-8 comes back as the replacement rune, a time
    outside the years of RFC 3339 has no text at all, and seconds in the
    offset of a zone are lost and move the instant. *)
Lemma C1_sessions_that_do_not_come_back :
  let p := yahoo.New "key" "secret" "http://localhost/callback" [] in
  yahoo.UnmarshalSession time.noParse p
    (yahoo.Marshal (yahoo.Session.mk "" (String "255" "") "" time.zero))
  = (yahoo.Own (Some (yahoo.Session.mk ""
                        (String "239" (String "191" (String "189" ""))) ""
                        time.zero)),
     None)
  /\ (time.Year (time.mkTime 315537897600 0 0) = 10000%Z
      /\ yahoo.UnmarshalSession time.noParse p
           (yahoo.Marshal (yahoo.Session.mk "" "token" ""
                             (time.mkTime 315537897600 0 0)))
         = (yahoo.Own (Some yahoo.Session.zero), Some io_EOF))
  /\ yahoo.UnmarshalSession time.noParse p
       (yahoo.Marshal (yahoo.Session.mk "" "token" "" (time.mkTime 0 0 30)))
     = (yahoo.Own (Some (yahoo.Session.mk "" "token" "" (time.mkTime 30 0 0))),
        None).
Proof. repeat split; vm_compute; reflexivity. Qed.

(** C1, amended: a session comes back from its string form as it was when
    its three strings are well-formed UTF-8 and its expiry is a time that
    RFC 3339 can write: a year from 0 to 9999 and a zone whose offset is a
    whole number of minutes, less than a day from UTC. The fields may be
    empty or not. *)
Theorem C1_UnmarshalSession_Marshal (parse : time.Parse) (p : yahoo.Provider)
  (s : yahoo.Session.t) :
  utf8.ValidString (yahoo.Session.AuthURL s) = true ->
  utf8.ValidString (yahoo.Session.AccessToken s) = true ->
  utf8.ValidString (yahoo.Session.RefreshToken s) = true ->
  time.wf (yahoo.Session.ExpiresAt s) ->
  (0 <= time.Year (yahoo.Session.ExpiresAt s) <= 9999)%Z ->
  (time.offset (yahoo.Session.ExpiresAt s) mod 60 = 0)%Z ->
  (-86400 < time.offset (yahoo.Session.ExpiresAt s) < 86400)%Z ->
  yahoo.UnmarshalSession parse p (yahoo.Marshal s) = (yahoo.Own (Some s), None).
Proof.
  intros Ha Hb Hc Hwf Hy Hm Ho.
  unfold yahoo.UnmarshalSession, decode.Decode.
  rewrite Marshal_text by assumption.
  rewrite read_object.
  - unfold decode.unmarshal, yahoo.sessionDecoder, decode.struct.
    cbn [stringMembers map fst snd].
    rewrite (members_string parse "AuthURL" "AuthURL" _ _ _ _ _ _ _ eq_refl eq_refl
               (unquote_escapeString _ Ha)).
    rewrite (members_string parse "AccessToken" "AccessToken" _ _ _ _ _ _ _ eq_refl eq_refl
               (unquote_escapeString _ Hb)).
    rewrite (members_string parse "RefreshToken" "RefreshToken" _ _ _ _ _ _ _ eq_refl eq_refl
               (unquote_escapeString _ Hc)).
    rewrite (members_time parse "ExpiresAt" "ExpiresAt" _ _ _ _ _ _ _ eq_refl eq_refl
               (parse_format _ Hwf Hy Hm Ho)).
    destruct s; reflexivity.
  - discriminate.
  - repeat constructor; cbn [fst snd];
      try (apply literal_plain; repeat constructor; fail);
      try (apply literal_escape; assumption).
    apply literal_plain, format_plain.
Qed.

Lemma C1_UnmarshalSession_Marshal_witness :
  yahoo.UnmarshalSession time.noParse
    (yahoo.New "key" "secret" "http://localhost/callback" [])
    (yahoo.Marshal
       (yahoo.Session.mk "https://api.login.yahoo.com/oauth2/request_auth?state=x"
          "token" "" (time.mkTime 63000000000 120000000 (-18000))))
  = (yahoo.Own (Some
       (yahoo.Session.mk "https://api.login.yahoo.com/oauth2/request_auth?state=x"
          "token" "" (time.mkTime 63000000000 120000000 (-18000)))),
     None).
Proof.
  apply (C1_UnmarshalSession_Marshal time.noParse
           (yahoo.New "key" "secret" "http://localhost/callback" [])
           (yahoo.Session.mk "https://api.login.yahoo.com/oauth2/request_auth?state=x"
              "token" "" (time.mkTime 63000000000 120000000 (-18000))));
    try reflexivity.
  - unfold time.wf. simpl. lia.
  - vm_compute. split; discriminate.
  - simpl. lia.
Defined.

(** * More properties of the provider *)

(** ** Construction *)

(** X1: [New] keeps the three credentials as given and builds a
    configuration with them, the two fixed endpoints and the scopes as
    given: every scope, once, in the order of the call. *)
Theorem New_configuration (clientKey secret callbackURL : string)
  (scopes : list string) :
  yahoo.ClientKey (yahoo.New clientKey secret callbackURL scopes) = clientKey
  /\ yahoo.Secret (yahoo.New clientKey secret callbackURL scopes) = secret
  /\ yahoo.CallbackURL (yahoo.New clientKey secret callbackURL scopes)
     = callbackURL
  /\ yahoo.config (yahoo.New clientKey secret callbackURL scopes)
     = Some (oauth2.mkConfig clientKey secret
               (oauth2.mkEndpoint
                  "https://api.login.yahoo.com/oauth2/request_auth"
                  "https://api.login.yahoo.com/oauth2/get_token")
               callbackURL scopes).
Proof.
  repeat split. unfold yahoo.New. cbn [yahoo.config].
  cbn [yahoo.ClientKey yahoo.Secret yahoo.CallbackURL].
  rewrite newConfig_eq. reflexivity.
Qed.

(** X2: a provider that [New] did not make has no configuration. On it
    [BeginAuth] panics for every state, and [RefreshToken] panics for every
    refresh token but the empty one, for which it returns the error of the
    token source, the configuration not being looked at. [FetchUser] and
    [UnmarshalSession], which never read the provider, do what they do with
    any other provider. *)
Theorem provider_without_configuration (p : yahoo.Provider) :
  yahoo.config p = None ->
  (forall state, yahoo.BeginAuth p state = Panic yahoo.nilDereference)
  /\ (forall w refreshToken,
        refreshToken <> "" ->
        yahoo.RefreshToken w p refreshToken = Panic yahoo.nilDereference)
  /\ (forall w,
        yahoo.RefreshToken w p ""
        = Return (None,
                  Some (errors_New
                          "oauth2: token expired and refresh token is not set")))
  /\ (forall client session p',
        yahoo.FetchUser client p session = yahoo.FetchUser client p' session)
  /\ (forall parse data p',
        yahoo.UnmarshalSession parse p data = yahoo.UnmarshalSession parse p' data).
Proof.
  intros Hc. split; [|split; [|split; [|split]]].
  - intros state. unfold yahoo.BeginAuth. rewrite Hc. reflexivity.
  - intros w rt Hne. unfold yahoo.RefreshToken. rewrite Hc.
    apply String.eqb_neq in Hne. rewrite Hne. reflexivity.
  - intros w. unfold yahoo.RefreshToken. rewrite Hc. reflexivity.
  - reflexivity.
  - reflexivity.
Qed.

Lemma provider_without_configuration_witness :
  (forall state,
     yahoo.BeginAuth (yahoo.mkProvider "key" "secret" "http://localhost/callback" None)
       state
     = Panic yahoo.nilDereference)
  /\ (forall w refreshToken,
        refreshToken <> "" ->
        yahoo.RefreshToken w
          (yahoo.mkProvider "key" "secret" "http://localhost/callback" None)
          refreshToken
        = Panic yahoo.nilDereference)
  /\ (forall w,
        yahoo.RefreshToken w
          (yahoo.mkProvider "key" "secret" "http://localhost/callback" None) ""
        = Return (None,
                  Some (errors_New
                          "oauth2: token expired and refresh token is not set")))
  /\ (forall client session p',
        yahoo.FetchUser client
          (yahoo.mkProvider "key" "secret" "http://localhost/callback" None) session
        = yahoo.FetchUser client p' session)
  /\ (forall parse data p',
        yahoo.UnmarshalSession parse
          (yahoo.mkProvider "key" "secret" "http://localhost/callback" None) data
        = yahoo.UnmarshalSession parse p' data).
Proof.
  apply (provider_without_configuration
           (yahoo.mkProvider "key" "secret" "http://localhost/callback" None)).
  reflexivity.
Defined.

(** ** [userFromReader] and [FetchUser] *)


(** X4: [FetchUser] returns exactly on the sessions whose dynamic type is a
    pointer of this package that is not nil; on every other session it
    panics. *)
Theorem FetchUser_returns_iff (client : http.Client) (p : yahoo.Provider)
  (session : yahoo.gothSession) :
  (exists r, yahoo.FetchUser client p session = Return r)
  <-> exists s, session = yahoo.Own (Some s).
Proof.
  split.
  - intros [r H]. destruct session as [[s|]| |]; try discriminate H.
    exists s. reflexivity.
  - intros [s ->]. rewrite FetchUser_own.
    destruct (client (profileRequest s)); eexists; reflexivity.
Qed.

(** X5: whatever [FetchUser] returns, with or without an error, the user
    has the provider name yahoo, an empty e-mail, the same string as name
    and nick name, and the tokens and the expiry of the session. *)
Theorem FetchUser_keeps_tokens (client : http.Client) (p : yahoo.Provider)
  (s : yahoo.Session.t) (u : goth.User) (err : option error) :
  yahoo.FetchUser client p (yahoo.Own (Some s)) = Return (u, err) ->
  goth.Provider u = "yahoo" /\ goth.Email u = ""
  /\ goth.Name u = goth.NickName u
  /\ goth.AccessToken u = yahoo.Session.AccessToken s
  /\ goth.RefreshToken u = yahoo.Session.RefreshToken s
  /\ goth.ExpiresAt u = yahoo.Session.ExpiresAt s.
Proof.
  rewrite FetchUser_own.
  destruct (client (profileRequest s)) as [resp|resp e].
  - unfold yahoo.userFromReader.
    destruct (decode.Decode yahoo.payloadDecoder (http.Body resp) yahoo.zeroPayload)
      as [pl [e|]]; intros E; inversion E; subst; repeat split.
  - intros E; inversion E; subst. repeat split.
Qed.

Lemma FetchUser_keeps_tokens_witness :
  goth.Provider (goth.mkUser "yahoo" "" "jdoe" "jdoe" "" "" "" "token" "refresh" time.zero)
  = "yahoo"
  /\ goth.Email (goth.mkUser "yahoo" "" "jdoe" "jdoe" "" "" "" "token" "refresh" time.zero)
     = ""
  /\ goth.Name (goth.mkUser "yahoo" "" "jdoe" "jdoe" "" "" "" "token" "refresh" time.zero)
     = goth.NickName
         (goth.mkUser "yahoo" "" "jdoe" "jdoe" "" "" "" "token" "refresh" time.zero)
  /\ goth.AccessToken
       (goth.mkUser "yahoo" "" "jdoe" "jdoe" "" "" "" "token" "refresh" time.zero)
     = "token"
  /\ goth.RefreshToken
       (goth.mkUser "yahoo" "" "jdoe" "jdoe" "" "" "" "token" "refresh" time.zero)
     = "refresh"
  /\ goth.ExpiresAt
       (goth.mkUser "yahoo" "" "jdoe" "jdoe" "" "" "" "token" "refresh" time.zero)
     = time.zero.
Proof.
  apply (FetchUser_keeps_tokens
           (fun _ => http.DoOk (http.mkResponse 200 (js "{'profile':{'nickname':'jdoe'}}")))
           (yahoo.New "key" "secret" "http://localhost/callback" [])
           (yahoo.Session.mk "" "token" "refresh" time.zero)
           _ None).
  vm_compute. reflexivity.
Defined.



(** X7: [FetchUser] looks at nothing of a response but its body: two
    clients whose responses to the profile request have the same body, with
    whatever status codes, give the same result. *)
Theorem FetchUser_reads_only_the_body (client1 client2 : http.Client)
  (p : yahoo.Provider) (s : yahoo.Session.t) (resp1 resp2 : http.Response) :
  client1 (profileRequest s) = http.DoOk resp1 ->
  client2 (profileRequest s) = http.DoOk resp2 ->
  http.Body resp1 = http.Body resp2 ->
  yahoo.FetchUser client1 p (yahoo.Own (Some s))
  = yahoo.FetchUser client2 p (yahoo.Own (Some s)).
Proof.
  intros H1 H2 Hb. rewrite !FetchUser_own, H1, H2, Hb. reflexivity.
Qed.

Lemma FetchUser_reads_only_the_body_witness :
  yahoo.FetchUser
    (fun _ => http.DoOk (http.mkResponse 200 (js "{'profile':{'guid':'123'}}")))
    (yahoo.New "key" "secret" "http://localhost/callback" [])
    (yahoo.Own (Some (yahoo.Session.mk "" "token" "refresh" time.zero)))
  = yahoo.FetchUser
      (fun _ => http.DoOk (http.mkResponse 500 (js "{'profile':{'guid':'123'}}")))
      (yahoo.New "key" "secret" "http://localhost/callback" [])
      (yahoo.Own (Some (yahoo.Session.mk "" "token" "refresh" time.zero))).
Proof.
  apply (FetchUser_reads_only_the_body _ _ _ _
           (http.mkResponse 200 (js "{'profile':{'guid':'123'}}"))
           (http.mkResponse 500 (js "{'profile':{'guid':'123'}}")));
    reflexivity.
Defined.

(** ** [RefreshToken] *)

(** X8: [RefreshToken] returns a token or an error, never both and never
    neither. *)
Theorem RefreshToken_token_or_error (w : oauth2.World) (p : yahoo.Provider)
  (refreshToken : string) (token : option oauth2.Token) (err : option error) :
  yahoo.RefreshToken w p refreshToken = Return (token, err) ->
  (token = None /\ err <> None) \/ (token <> None /\ err = None).
Proof.
  unfold yahoo.RefreshToken. destruct (yahoo.config p) as [c|].
  - unfold oauth2.Token_, oauth2.Config_TokenSource. cbn [oauth2.t oauth2.conf].
    unfold oauth2.Valid. cbn [oauth2.AccessToken oauth2.RefreshToken].
    cbn [String.eqb negb andb]. unfold oauth2.tokenRefresher_Token.
    destruct (String.eqb refreshToken "").
    + intros H; inversion H; subst. left. split; [reflexivity|discriminate].
    + destruct (oauth2.retrieveToken w c _); intros H; inversion H; subst.
      * left. split; [reflexivity|discriminate].
      * right. split; [discriminate|reflexivity].
  - destruct (String.eqb refreshToken ""); [|discriminate].
    intros H; inversion H; subst. left. split; [reflexivity|discriminate].
Qed.

Lemma RefreshToken_token_or_error_witness :
  (Some (oauth2.mkToken "fresh" "bearer" "next" time.zero) = None
   /\ @None error <> None)
  \/ (Some (oauth2.mkToken "fresh" "bearer" "next" time.zero) <> None
      /\ @None error = None).
Proof.
  apply (RefreshToken_token_or_error
           (oauth2.mkWorld
              (fun _ _ _ => inr (oauth2.mkToken "fresh" "bearer" "next" time.zero))
              time.zero)
           (yahoo.New "key" "secret" "http://localhost/callback" [])
           "refresh").
  reflexivity.
Defined.

(** X9: with an empty refresh token [RefreshToken] has nothing to ask for:
    on every provider, with or without a configuration, it returns the
    error that the refresh token is not set and no token, whatever the
    token endpoint would answer and whatever the clock reads. *)
Theorem RefreshToken_empty_refresh_token (w : oauth2.World) (p : yahoo.Provider) :
  yahoo.RefreshToken w p ""
  = Return (None,
            Some (errors_New "oauth2: token expired and refresh token is not set")).
Proof.
  unfold yahoo.RefreshToken. destruct (yahoo.config p); reflexivity.
Qed.

(** X10: on a provider made by [New], [RefreshToken] with a refresh token
    that is not empty asks the token endpoint of Yahoo, with the client key
    and the secret given to [New], for the grant type [refresh_token] with
    that refresh token, and returns its answer; with an empty refresh token
    it returns an error. *)
Theorem RefreshToken_of_New (w : oauth2.World)
  (clientKey secret callbackURL : string) (scopes : list string)
  (refreshToken : string) :
  yahoo.RefreshToken w (yahoo.New clientKey secret callbackURL scopes) refreshToken
  = Return
      (if String.eqb refreshToken "" then
         (None, Some (errors_New "oauth2: token expired and refresh token is not set"))
       else
         match oauth2.retrieveToken w
                 (oauth2.mkConfig clientKey secret
                    (oauth2.mkEndpoint
                       "https://api.login.yahoo.com/oauth2/request_auth"
                       "https://api.login.yahoo.com/oauth2/get_token")
                    callbackURL scopes)
                 [("grant_type", "refresh_token"); ("refresh_token", refreshToken)]
         with
         | inl err => (None, Some err)
         | inr token => (Some token, None)
         end).
Proof.
  unfold yahoo.RefreshToken, yahoo.New. cbn [yahoo.config].
  cbn [yahoo.ClientKey yahoo.Secret yahoo.CallbackURL].
  rewrite newConfig_eq.
  unfold oauth2.Token_, oauth2.Config_TokenSource. cbn [oauth2.t oauth2.conf].
  unfold oauth2.Valid. cbn [oauth2.AccessToken oauth2.RefreshToken].
  cbn [String.eqb negb andb]. unfold oauth2.tokenRefresher_Token.
  destruct (String.eqb refreshToken ""); [reflexivity|].
  destruct (oauth2.retrieveToken w _ _); reflexivity.
Qed.

(** ** The reader of the decoder *)

Lemma nonSpace_app (a b : string) :
  scanner.nonSpace (a ++ b) = scanner.nonSpace a || scanner.nonSpace b.
Proof.
  unfold scanner.nonSpace. rewrite list_ascii_app, existsb_app. reflexivity.
Qed.

Lemma nonSpace_cons (c : ascii) (s : string) :
  scanner.nonSpace (String c s) = negb (scanner.isSpace c) || scanner.nonSpace s.
Proof. reflexivity. Qed.

(** The whole input matters to the reader only at its end, and there only
    by whether it has a byte that is no space. *)
Lemma readFrom_all (all all' : string) :
  scanner.nonSpace all = scanner.nonSpace all' ->
  forall input st, scanner.readFrom st input all = scanner.readFrom st input all'.
Proof.
  intros Hn. induction input as [|c input IH]; intros st; cbn [scanner.readFrom].
  - rewrite Hn. reflexivity.
  - destruct (scanner.scan st c); auto.
Qed.

Lemma readFrom_spaces (ws rest all : string) :
  scanner.nonSpace ws = false ->
  scanner.readFrom (scanner.BeginValue, []) (ws ++ rest) all
  = scanner.readFrom (scanner.BeginValue, []) rest all.
Proof.
  induction ws as [|c ws IH]; intros Hn; [reflexivity|].
  rewrite nonSpace_cons in Hn. apply orb_false_iff in Hn. destruct Hn as [Hc Hw].
  apply negb_false_iff in Hc.
  cbn [append scanner.readFrom scanner.scan]. unfold scanner.stateBeginValue.
  rewrite Hc. apply IH. exact Hw.
Qed.

Lemma readValue_spaces (ws rest : string) :
  scanner.nonSpace ws = false ->
  scanner.readValue (ws ++ rest) = scanner.readValue rest.
Proof.
  intros Hn. unfold scanner.readValue. rewrite readFrom_spaces by exact Hn.
  apply readFrom_all. rewrite nonSpace_app, Hn. reflexivity.
Qed.

Lemma readValue_blank (data : string) :
  scanner.nonSpace data = false -> scanner.readValue data = inl io_EOF.
Proof.
  intros Hn. rewrite <- (append_empty_r data).
  rewrite readValue_spaces by exact Hn. reflexivity.
Qed.

Lemma stateEndValue_no_end (stk : list scanner.frame) (c : ascii)
  (v : scanner.value) :
  scanner.stateEndValue stk c <> scanner.EndBefore v.
Proof.
  unfold scanner.stateEndValue.
  destruct stk as [|f r]; [discriminate|].
  destruct (scanner.isSpace c); [discriminate|].
  destruct f; try discriminate;
    repeat match goal with
           | |- context [if ?b then _ else _] => destruct b
           end; try discriminate;
    unfold scanner.close, scanner.continue;
    match goal with
    | |- context [scanner.deliver ?v ?r] =>
      destruct r as [|f' r']; [discriminate|];
      destruct (scanner.deliver v (f' :: r')); discriminate
    end.
Qed.

Lemma endLiteral_end (lit : string) (stk : list scanner.frame) (c : ascii)
  (v : scanner.value) :
  scanner.endLiteral (scanner.JNumber lit) stk c = scanner.EndBefore v ->
  stk = [] /\ v = scanner.JNumber lit.
Proof.
  unfold scanner.endLiteral.
  destruct stk as [|f r].
  - cbn [scanner.deliver]. intros H; inversion H. split; reflexivity.
  - destruct f; cbn [scanner.deliver]; try discriminate;
      intros H; exfalso; exact (stateEndValue_no_end _ _ _ H).
Qed.

Lemma continue_no_end (o : option scanner.state) (v : scanner.value) :
  scanner.continue o <> scanner.EndBefore v.
Proof. destruct o; discriminate. Qed.

Lemma scan_end (st : scanner.state) (c : ascii) (v : scanner.value) :
  scanner.scan st c = scanner.EndBefore v ->
  fst st = scanner.EndTop v \/ (numberAtTop st /\ exists lit, v = scanner.JNumber lit).
Proof.
  destruct st as [s stk]. unfold numberAtTop. cbn [fst snd].
  destruct s; cbn [scanner.scan];
    unfold scanner.stateBeginValue, scanner.stateBeginString,
      scanner.pushParseState, scanner.state0, scanner.stateESign;
    repeat match goal with
           | |- context [if ?b then _ else _] => destruct b
           | |- context [match json.hexval c with _ => _ end] =>
             destruct (json.hexval c)
           end;
    try discriminate;
    try (intros H; exfalso; exact (stateEndValue_no_end _ _ _ H));
    try (intros H; exfalso; exact (continue_no_end _ _ H));
    try (intros H; apply endLiteral_end in H; destruct H as [-> ->];
         right; split; [split; [reflexivity|exact I] | eexists; reflexivity]).
  - destruct stk as [|[] r]; try discriminate;
      intros H; exfalso; exact (stateEndValue_no_end _ _ _ H).
  - intros H; inversion H. left. reflexivity.
  - destruct rest as [|e rest']; [discriminate|].
    destruct (Ascii.eqb c e); [|discriminate].
    destruct rest'; [|discriminate].
    intros H; exfalso; exact (continue_no_end _ _ H).
Qed.

(** A number at the top level stays one. *)
Lemma scan_number (st : scanner.state) (c : ascii) :
  numberAtTop st ->
  match scanner.scan st c with
  | scanner.Cont st' => numberAtTop st'
  | scanner.EndBefore v => exists lit, v = scanner.JNumber lit
  | scanner.EndAt _ => False
  | scanner.ScanError => True
  end.
Proof.
  destruct st as [s stk]. unfold numberAtTop. cbn [fst snd].
  intros [-> Hs].
  destruct s; try contradiction; cbn [scanner.scan];
    unfold scanner.state0, scanner.stateESign, scanner.endLiteral;
    cbn [scanner.deliver];
    repeat match goal with
           | |- context [if ?b then _ else _] => destruct b
           end;
    cbn [fst snd]; try exact I; try (split; [reflexivity|exact I]);
    eexists; reflexivity.
Qed.

Lemma readFrom_number (all : string) :
  forall input st v rest,
    numberAtTop st ->
    scanner.readFrom st input all = inr (v, rest) ->
    exists lit, v = scanner.JNumber lit.
Proof.
  induction input as [|c input IH]; intros st v rest Hn; cbn [scanner.readFrom].
  - pose proof (scan_number st " " Hn) as H.
    destruct (scanner.scan st " "); try discriminate.
    intros E; inversion E; subst. exact H.
  - pose proof (scan_number st c Hn) as H.
    destruct (scanner.scan st c); try discriminate.
    + apply IH. exact H.
    + intros E; inversion E; subst. exact H.
    + contradiction.
Qed.

(** What follows a value that is no number is not looked at. *)
Lemma readFrom_more (junk all all' : string) :
  forall input st v rest,
    scanner.readFrom st input all = inr (v, rest) ->
    (forall lit, v <> scanner.JNumber lit) ->
    scanner.readFrom st (input ++ junk) all' = inr (v, rest ++ junk).
Proof.
  induction input as [|c input IH]; intros st v rest; cbn [scanner.readFrom].
  - destruct (scanner.scan st " ") eqn:Es; try discriminate.
    intros E Hv; inversion E; subst.
    apply scan_end in Es. destruct Es as [Ht|[_ [lit Hl]]];
      [|exfalso; exact (Hv lit Hl)].
    destruct st as [s stk]. cbn [fst] in Ht. subst s.
    destruct junk; reflexivity.
  - cbn [append scanner.readFrom].
    destruct (scanner.scan st c); try discriminate.
    + apply IH.
    + intros E _; inversion E; subst. reflexivity.
    + intros E _; inversion E; subst. reflexivity.
Qed.

(** A text that is a value and nothing more, cut short. *)
Lemma readFrom_cut (post all : string) :
  post <> "" ->
  forall pre st v,
    scanner.readFrom st (pre ++ post) all = inr (v, "") ->
    exists st', feed st pre = Some st'
                /\ scanner.readFrom st' post all = inr (v, "").
Proof.
  intros Hp. induction pre as [|c pre IH]; intros st v.
  - intros H. exists st. split; [reflexivity|exact H].
  - cbn [append scanner.readFrom feed].
    destruct (scanner.scan st c); try discriminate.
    + apply IH.
    + intros E; inversion E; subst.
      destruct pre; [contradiction|discriminate].
Qed.

Lemma readValue_cut (pre post : string) (v : scanner.value) :
  scanner.readValue (pre ++ post) = inr (v, "") ->
  post <> "" ->
  (forall lit, v <> scanner.JNumber lit) ->
  scanner.readValue pre
  = inl (if scanner.nonSpace pre then io_ErrUnexpectedEOF else io_EOF).
Proof.
  intros Hr Hp Hv. unfold scanner.readValue in *.
  destruct (readFrom_cut post _ Hp pre _ v Hr) as (st' & Hf & Hr').
  rewrite <- (append_empty_r pre) at 1.
  rewrite (readFrom_feed _ _ _ _ _ Hf). cbn [scanner.readFrom].
  destruct (scanner.scan st' " ") eqn:Es; try reflexivity.
  exfalso. apply scan_end in Es. destruct Es as [Ht|[Hn _]].
  - destruct st' as [s stk]. cbn [fst] in Ht. subst s.
    destruct post as [|c post]; [contradiction|].
    cbn [scanner.readFrom scanner.scan] in Hr'. discriminate Hr'.
  - destruct (readFrom_number _ _ _ _ _ Hn Hr') as [lit Hl].
    exact (Hv lit Hl).
Qed.

(** A struct decoder that leaves no error has read an object or [null]. *)
Lemma struct_no_error {T : Type} (gotype : string) (fs : decode.fields T)
  (v : scanner.value) (t r : T) :
  decode.unmarshal (decode.struct gotype fs) v t = (r, None) ->
  forall lit, v <> scanner.JNumber lit.
Proof.
  intros H lit ->. discriminate H.
Qed.

Lemma Decode_more {T : Type} (gotype : string) (fs : decode.fields T)
  (data junk : string) (t r : T) :
  decode.Decode (decode.struct gotype fs) data t = (r, None) ->
  decode.Decode (decode.struct gotype fs) (data ++ junk) t = (r, None).
Proof.
  unfold decode.Decode, scanner.readValue.
  destruct (scanner.readFrom _ data data) as [e|[v rest]] eqn:Er;
    [discriminate|].
  intros H.
  rewrite (readFrom_more junk data (data ++ junk) data _ v rest Er
             (struct_no_error _ _ _ _ _ H)).
  exact H.
Qed.

Lemma Decode_spaces {T : Type} (dec : decode.decoder T) (ws data : string)
  (t : T) :
  scanner.nonSpace ws = false ->
  decode.Decode dec (ws ++ data) t = decode.Decode dec data t.
Proof.
  intros Hn. unfold decode.Decode. rewrite readValue_spaces by exact Hn.
  reflexivity.
Qed.

(** ** [UnmarshalSession] and [FetchUser] at the ends of their input *)

(** X11: on an input with no byte other than spaces, tabs and line ends,
    the empty input among them, [UnmarshalSession] returns the error
    [io.EOF] and the zero session. *)
Theorem UnmarshalSession_blank (parse : time.Parse) (p : yahoo.Provider)
  (data : string) :
  scanner.nonSpace data = false ->
  yahoo.UnmarshalSession parse p data
  = (yahoo.Own (Some yahoo.Session.zero), Some io_EOF).
Proof.
  intros Hn. unfold yahoo.UnmarshalSession, decode.Decode.
  rewrite readValue_blank by exact Hn. reflexivity.
Qed.

Lemma UnmarshalSession_blank_witness :
  yahoo.UnmarshalSession time.noParse
    (yahoo.New "key" "secret" "http://localhost/callback" []) "  "
  = (yahoo.Own (Some yahoo.Session.zero), Some io_EOF).
Proof.
  apply (UnmarshalSession_blank time.noParse
           (yahoo.New "key" "secret" "http://localhost/callback" []) "  ").
  reflexivity.
Defined.

(** X12: when the response to the profile request has an empty body, or one
    of white space only, whatever its status code, [FetchUser] returns the
    error [io.EOF] and the user of the session with no profile field. *)
Theorem FetchUser_blank_body (client : http.Client) (p : yahoo.Provider)
  (s : yahoo.Session.t) (resp : http.Response) :
  client (profileRequest s) = http.DoOk resp ->
  scanner.nonSpace (http.Body resp) = false ->
  yahoo.FetchUser client p (yahoo.Own (Some s))
  = Return ({| goth.Provider := "yahoo";
               goth.Email := "";
               goth.Name := "";
               goth.NickName := "";
               goth.UserID := "";
               goth.AvatarURL := "";
               goth.Location := "";
               goth.AccessToken := yahoo.Session.AccessToken s;
               goth.RefreshToken := yahoo.Session.RefreshToken s;
               goth.ExpiresAt := yahoo.Session.ExpiresAt s |},
            Some io_EOF).
Proof.
  intros Hc Hn. rewrite FetchUser_own, Hc.
  unfold yahoo.userFromReader, decode.Decode.
  rewrite readValue_blank by exact Hn. reflexivity.
Qed.

Lemma FetchUser_blank_body_witness :
  yahoo.FetchUser (fun _ => http.DoOk (http.mkResponse 204 ""))
    (yahoo.New "key" "secret" "http://localhost/callback" [])
    (yahoo.Own (Some (yahoo.Session.mk "" "token" "refresh" time.zero)))
  = Return ({| goth.Provider := "yahoo";
               goth.Email := "";
               goth.Name := "";
               goth.NickName := "";
               goth.UserID := "";
               goth.AvatarURL := "";
               goth.Location := "";
               goth.AccessToken := "token";
               goth.RefreshToken := "refresh";
               goth.ExpiresAt := time.zero |},
            Some io_EOF).
Proof.
  apply (FetchUser_blank_body (fun _ => http.DoOk (http.mkResponse 204 ""))
           (yahoo.New "key" "secret" "http://localhost/callback" [])
           (yahoo.Session.mk "" "token" "refresh" time.zero)
           (http.mkResponse 204 "")); reflexivity.
Defined.

(** X13: white space before the JSON value changes nothing: with spaces,
    tabs and line ends put in front of their input, [UnmarshalSession] and
    [userFromReader] return what they return without them, error
    included. *)
Theorem leading_space_is_skipped (parse : time.Parse) (p : yahoo.Provider)
  (user : goth.User) (ws data : string) :
  scanner.nonSpace ws = false ->
  yahoo.UnmarshalSession parse p (ws ++ data) = yahoo.UnmarshalSession parse p data
  /\ yahoo.userFromReader (ws ++ data) user = yahoo.userFromReader data user.
Proof.
  intros Hn. unfold yahoo.UnmarshalSession, yahoo.userFromReader.
  rewrite !Decode_spaces by exact Hn. split; reflexivity.
Qed.

Lemma leading_space_is_skipped_witness :
  yahoo.UnmarshalSession time.noParse
    (yahoo.New "key" "secret" "http://localhost/callback" [])
    (String "010" " " ++ js "{'AccessToken':'token'}")
  = yahoo.UnmarshalSession time.noParse
      (yahoo.New "key" "secret" "http://localhost/callback" [])
      (js "{'AccessToken':'token'}")
  /\ yahoo.userFromReader (String "010" " " ++ js "{'AccessToken':'token'}")
       (sessionUser (yahoo.New "key" "secret" "http://localhost/callback" [])
          yahoo.Session.zero)
     = yahoo.userFromReader (js "{'AccessToken':'token'}")
         (sessionUser (yahoo.New "key" "secret" "http://localhost/callback" [])
            yahoo.Session.zero).
Proof.
  apply (leading_space_is_skipped time.noParse
           (yahoo.New "key" "secret" "http://localhost/callback" [])
           (sessionUser (yahoo.New "key" "secret" "http://localhost/callback" [])
              yahoo.Session.zero)
           (String "010" " ") (js "{'AccessToken':'token'}")).
  reflexivity.
Defined.

(** X14: what follows the first JSON value is not read: when
    [UnmarshalSession] returns a session and no error for an input, it
    returns the same session and no error for that input with anything
    whatever after it. *)
Theorem UnmarshalSession_ignores_the_rest (parse : time.Parse)
  (p : yahoo.Provider) (data junk : string) (session : yahoo.gothSession) :
  yahoo.UnmarshalSession parse p data = (session, None) ->
  yahoo.UnmarshalSession parse p (data ++ junk) = (session, None).
Proof.
  unfold yahoo.UnmarshalSession, yahoo.sessionDecoder.
  destruct (decode.Decode _ data yahoo.Session.zero) as [s err] eqn:Ed.
  intros H; inversion H; subst.
  rewrite (Decode_more _ _ _ junk _ _ Ed). reflexivity.
Qed.

Lemma UnmarshalSession_ignores_the_rest_witness :
  yahoo.UnmarshalSession time.noParse
    (yahoo.New "key" "secret" "http://localhost/callback" [])
    (js "{'AccessToken':'token'}" ++ "]]] not JSON")
  = (yahoo.Own (Some (yahoo.Session.mk "" "token" "" time.zero)), None).
Proof.
  apply (UnmarshalSession_ignores_the_rest time.noParse
           (yahoo.New "key" "secret" "http://localhost/callback" [])
           (js "{'AccessToken':'token'}") "]]] not JSON").
  vm_compute. reflexivity.
Defined.

(** X15: the same for the body of the profile response: when
    [userFromReader] returns a user and no error for a body, it returns the
    same user and no error for that body with anything whatever after
    it. *)
Theorem userFromReader_ignores_the_rest (r junk : string) (user u : goth.User) :
  yahoo.userFromReader r user = (u, None) ->
  yahoo.userFromReader (r ++ junk) user = (u, None).
Proof.
  unfold yahoo.userFromReader, yahoo.payloadDecoder.
  destruct (decode.Decode _ r yahoo.zeroPayload) as [pl [e|]] eqn:Ed;
    [discriminate|].
  intros H. rewrite (Decode_more _ _ _ junk _ _ Ed). exact H.
Qed.

Lemma userFromReader_ignores_the_rest_witness :
  yahoo.userFromReader (js "{'profile':{'guid':'123'}}" ++ "<!-- served by y -->")
    (goth.mkUser "yahoo" "" "" "" "" "" "" "token" "refresh" time.zero)
  = (goth.mkUser "yahoo" "" "" "" "123" "" "" "token" "refresh" time.zero, None).
Proof.
  apply (userFromReader_ignores_the_rest (js "{'profile':{'guid':'123'}}")
           "<!-- served by y -->").
  vm_compute. reflexivity.
Defined.

(** X16: a text cut short gives no session and no user: when an input is
    one JSON object and nothing after it, [UnmarshalSession] on any part of
    it that stops before its end returns the zero session, and
    [userFromReader] the user as it was, with the error
    [io.ErrUnexpectedEOF], or [io.EOF] when the part has white space
    only. *)
Theorem cut_short_input_fails (parse : time.Parse) (p : yahoo.Provider)
  (user : goth.User) (pre post : string)
  (members : list (string * scanner.value)) :
  scanner.readValue (pre ++ post) = inr (scanner.JObject members, "") ->
  post <> "" ->
  yahoo.UnmarshalSession parse p pre
  = (yahoo.Own (Some yahoo.Session.zero),
     Some (if scanner.nonSpace pre then io_ErrUnexpectedEOF else io_EOF))
  /\ yahoo.userFromReader pre user
     = (user, Some (if scanner.nonSpace pre then io_ErrUnexpectedEOF else io_EOF)).
Proof.
  intros Hr Hp.
  assert (E : scanner.readValue pre
              = inl (if scanner.nonSpace pre then io_ErrUnexpectedEOF else io_EOF)).
  { apply (readValue_cut pre post _ Hr Hp). intros lit H. discriminate H. }
  unfold yahoo.UnmarshalSession, yahoo.userFromReader, decode.Decode.
  rewrite E. split; reflexivity.
Qed.

Lemma cut_short_input_fails_witness :
  yahoo.UnmarshalSession time.noParse
    (yahoo.New "key" "secret" "http://localhost/callback" [])
    (js "{'AccessToken':'tok")
  = (yahoo.Own (Some yahoo.Session.zero), Some io_ErrUnexpectedEOF)
  /\ yahoo.userFromReader (js "{'AccessToken':'tok")
       (goth.mkUser "yahoo" "" "" "" "" "" "" "token" "refresh" time.zero)
     = (goth.mkUser "yahoo" "" "" "" "" "" "" "token" "refresh" time.zero,
        Some io_ErrUnexpectedEOF).
Proof.
  apply (cut_short_input_fails time.noParse
           (yahoo.New "key" "secret" "http://localhost/callback" [])
           (goth.mkUser "yahoo" "" "" "" "" "" "" "token" "refresh" time.zero)
           (js "{'AccessToken':'tok") (js "en'}")
           [(js "AccessToken", scanner.JString "token")]).
  - vm_compute. reflexivity.
  - discriminate.
Defined.

(** ** The members of a session *)

(** Every field decoder of a session but the one of a field keeps the
    field. *)
Lemma session_other_field (parse : time.Parse) (name : string)
  (get : yahoo.Session.t -> string) (name' : string)
  (dec : decode.decoder yahoo.Session.t) (x : scanner.value)
  (c : yahoo.Session.t) (s : option error) :
  In (name, get) sessionStrings ->
  In (name', dec) (yahoo.sessionFields parse) ->
  name' <> name ->
  get (decode.target (dec x c s)) = get c.
Proof.
  intros Hg Hin Hne. simpl in Hg.
  repeat (destruct Hg as [Hg|Hg]; [inversion Hg; subst; clear Hg|]);
    try contradiction;
    field_cases Hin; try reflexivity; congruence.
Qed.

Lemma expiry_other_field (parse : time.Parse) (name' : string)
  (dec : decode.decoder yahoo.Session.t) (x : scanner.value)
  (c : yahoo.Session.t) (s : option error) :
  In (name', dec) (yahoo.sessionFields parse) ->
  name' <> "ExpiresAt" ->
  yahoo.Session.ExpiresAt (decode.target (dec x c s)) = yahoo.Session.ExpiresAt c.
Proof.
  intros Hin Hne. field_cases Hin; try reflexivity; congruence.
Qed.

Lemma names_fold (name rawkey : string) :
  names name rawkey = true ->
  exists key, json.unquote rawkey = Some key
              /\ decode.foldName key = decode.foldName name.
Proof.
  unfold names. destruct (json.unquote rawkey) as [key|]; [|discriminate].
  intros Hn. exists key. split; [reflexivity|].
  apply orb_true_iff in Hn. destruct Hn as [Hn|Hn]; apply String.eqb_eq in Hn.
  - subst. reflexivity.
  - symmetry. exact Hn.
Qed.

Lemma names_field (parse : time.Parse) (name name' rawkey : string)
  (dec dec' : decode.decoder yahoo.Session.t) :
  In (name, dec) (yahoo.sessionFields parse) ->
  In (name', dec') (yahoo.sessionFields parse) ->
  names name rawkey = true -> names name' rawkey = true -> name' = name.
Proof.
  intros Hin Hin' Hn Hn'.
  destruct (names_fold _ _ Hn) as (key & Hu & Hf).
  destruct (names_fold _ _ Hn') as (key' & Hu' & Hf').
  rewrite Hu in Hu'. inversion Hu'; subst key'. rewrite Hf in Hf'.
  clear - Hin Hin' Hf'.
  simpl in Hin, Hin'.
  repeat (destruct Hin as [Hin|Hin]; [inversion Hin; subst; clear Hin|]);
    try contradiction;
    repeat (destruct Hin' as [Hin'|Hin']; [inversion Hin'; subst; clear Hin'|]);
    try contradiction; try reflexivity; vm_compute in Hf'; discriminate Hf'.
Qed.

Lemma session_absent_string (parse : time.Parse) (name : string)
  (get : yahoo.Session.t -> string) (v : scanner.value) :
  In (name, get) sessionStrings ->
  present [name] v = false ->
  get (decode.target (yahoo.sessionDecoder parse v yahoo.Session.zero None)) = "".
Proof.
  intros Hg Hp. unfold yahoo.sessionDecoder.
  apply (struct_preserves _ _ (fun s => get s = "")).
  - simpl in Hg.
    repeat (destruct Hg as [Hg|Hg]; [inversion Hg; subst; clear Hg|]);
      try contradiction; reflexivity.
  - intros ms -> rawkey x name' dec Hm Hin Hn c s Hc.
    destruct (String.eqb_spec name' name) as [->|Hne].
    + pose proof (present_member _ _ _ _ _ Hp Hm Hn) as Hx. discriminate Hx.
    + rewrite (session_other_field parse name get name' dec x c s Hg Hin Hne).
      exact Hc.
Qed.

Lemma session_absent_expiry (parse : time.Parse) (v : scanner.value) :
  present ["ExpiresAt"] v = false ->
  yahoo.Session.ExpiresAt
    (decode.target (yahoo.sessionDecoder parse v yahoo.Session.zero None))
  = time.zero.
Proof.
  intros Hp. unfold yahoo.sessionDecoder.
  apply (struct_preserves _ _ (fun s => yahoo.Session.ExpiresAt s = time.zero));
    [reflexivity|].
  intros ms -> rawkey x name' dec Hm Hin Hn c s Hc.
  destruct (String.eqb_spec name' "ExpiresAt") as [->|Hne].
  - pose proof (present_member _ _ _ _ _ Hp Hm Hn) as Hx. discriminate Hx.
  - rewrite (expiry_other_field parse name' dec x c s Hin Hne). exact Hc.
Qed.

Lemma members_app {T : Type} (fs : decode.fields T)
  (a b : list (string * scanner.value)) :
  forall cur saved r sv,
    decode.members fs (a ++ b) cur saved = decode.Going r sv ->
    exists cur' saved',
      decode.members fs a cur saved = decode.Going cur' saved'
      /\ decode.members fs b cur' saved' = decode.Going r sv.
Proof.
  induction a as [|[rawkey x] a IH]; intros cur saved r sv.
  - intros H. exists cur, saved. split; [reflexivity|exact H].
  - cbn [app decode.members].
    destruct (json.unquote rawkey) as [key|]; [|discriminate].
    destruct (decode.findField fs key) as [dec|]; [|apply IH].
    destruct (dec x cur saved) as [cur' saved'|cur' e]; [apply IH|discriminate].
Qed.

(** X17: [UnmarshalSession] starts from the zero session and writes only
    the fields that the JSON value names: a field for which the value has
    no member, under its name in any case of the letters, is empty in the
    session that is returned, and the expiry is the zero time. *)
Theorem UnmarshalSession_absent_fields (parse : time.Parse) (p : yahoo.Provider)
  (data : string) (v : scanner.value) (rest : string) :
  scanner.readValue data = inr (v, rest) ->
  exists s err,
    yahoo.UnmarshalSession parse p data = (yahoo.Own (Some s), err)
    /\ (present ["AuthURL"] v = false -> yahoo.Session.AuthURL s = "")
    /\ (present ["AccessToken"] v = false -> yahoo.Session.AccessToken s = "")
    /\ (present ["RefreshToken"] v = false -> yahoo.Session.RefreshToken s = "")
    /\ (present ["ExpiresAt"] v = false -> yahoo.Session.ExpiresAt s = time.zero).
Proof.
  intros Hr. unfold yahoo.UnmarshalSession, decode.Decode. rewrite Hr.
  destruct (decode.unmarshal (yahoo.sessionDecoder parse) v yahoo.Session.zero)
    as [s err] eqn:Eu.
  exists s, err. split; [reflexivity|].
  assert (Hs : s = decode.target
                     (yahoo.sessionDecoder parse v yahoo.Session.zero None)).
  { rewrite <- unmarshal_target, Eu. reflexivity. }
  rewrite Hs.
  split; [|split; [|split]]; intros Hp.
  - apply (session_absent_string parse "AuthURL"); [simpl; auto|exact Hp].
  - apply (session_absent_string parse "AccessToken"); [simpl; auto|exact Hp].
  - apply (session_absent_string parse "RefreshToken"); [simpl; auto|exact Hp].
  - apply session_absent_expiry. exact Hp.
Qed.

Lemma UnmarshalSession_absent_fields_witness :
  exists s err,
    yahoo.UnmarshalSession time.noParse
      (yahoo.New "key" "secret" "http://localhost/callback" [])
      (js "{'AccessToken':'token','Expires':12}")
    = (yahoo.Own (Some s), err)
    /\ yahoo.Session.AuthURL s = "" /\ yahoo.Session.RefreshToken s = ""
    /\ yahoo.Session.ExpiresAt s = time.zero.
Proof.
  destruct (UnmarshalSession_absent_fields time.noParse
              (yahoo.New "key" "secret" "http://localhost/callback" [])
              (js "{'AccessToken':'token','Expires':12}")
              (scanner.JObject [("AccessToken", scanner.JString "token");
                                ("Expires", scanner.JNumber "12")])
              "" eq_refl) as (s & err & Hu & Ha & _ & Hr & He).
  exists s, err. split; [exact Hu|].
  split; [apply Ha; reflexivity|]. split; [apply Hr; reflexivity|].
  apply He; reflexivity.
Defined.

(** X18: the keys of the JSON object are matched to the fields of the
    session without regard to the case of their letters, and of several
    members for one field the last one counts: when [UnmarshalSession]
    returns no error, a string field of the session is the value of the
    last member whose key names the field. *)
Theorem UnmarshalSession_last_member_wins (parse : time.Parse)
  (p : yahoo.Provider) (data : string)
  (before after : list (string * scanner.value)) (rawkey raw rest : string)
  (name : string) (get : yahoo.Session.t -> string) (value : string)
  (s : yahoo.Session.t) :
  In (name, get) sessionStrings ->
  scanner.readValue data
  = inr (scanner.JObject (before ++ (rawkey, scanner.JString raw) :: after), rest) ->
  names name rawkey = true ->
  json.unquote raw = Some value ->
  (forall m, In m after -> names name (fst m) = false) ->
  yahoo.UnmarshalSession parse p data = (yahoo.Own (Some s), None) ->
  get s = value.
Proof.
  intros Hg Hr Hn Hv Hafter.
  unfold yahoo.UnmarshalSession, decode.Decode. rewrite Hr.
  unfold decode.unmarshal, yahoo.sessionDecoder, decode.struct.
  destruct (decode.members _ _ yahoo.Session.zero None) as [r sv|r e] eqn:Em;
    [|discriminate].
  intros H; inversion H; subst r sv. clear H.
  destruct (members_app _ _ _ _ _ _ _ Em) as (cur & saved & _ & Hm).
  assert (Hset : exists set,
            In (name, decode.field get set decode.string_)
              (yahoo.sessionFields parse)
            /\ forall x c, get (set x c) = x).
  { simpl in Hg.
    repeat (destruct Hg as [Hg|Hg]; [inversion Hg; subst; clear Hg|]);
      try contradiction; eexists; (split; [simpl; auto 6|reflexivity]). }
  destruct Hset as (set & Hin & Hgs).
  destruct (findField_names parse name rawkey _ Hin Hn) as (key & Hu & Hf).
  rewrite (members_string parse key rawkey get set raw value after cur saved
             Hu Hf Hv) in Hm.
  change s with (decode.target (decode.Going s None)). rewrite <- Hm.
  apply (members_preserves _ (fun x => get x = value)); [|apply Hgs].
  intros rawkey' x name' dec Hm' Hin' Hn' c sv' Hc.
  destruct (String.eqb_spec name' name) as [->|Hne].
  - pose proof (Hafter (rawkey', x) Hm') as Hx. cbn [fst] in Hx. congruence.
  - rewrite (session_other_field parse name get name' dec x c sv' Hg Hin' Hne).
    exact Hc.
Qed.

Lemma UnmarshalSession_last_member_wins_witness :
  yahoo.Session.AccessToken (yahoo.Session.mk "" "new" "" time.zero) = "new".
Proof.
  apply (UnmarshalSession_last_member_wins time.noParse
           (yahoo.New "key" "secret" "http://localhost/callback" [])
           (js "{'AccessToken':'old','accesstoken':'new','AuthURL':null}")
           [("AccessToken", scanner.JString "old")]
           [("AuthURL", scanner.JNull)]
           "accesstoken" "new" "" "AccessToken" yahoo.Session.AccessToken "new"
           (yahoo.Session.mk "" "new" "" time.zero)).
  - simpl. auto.
  - vm_compute. reflexivity.
  - vm_compute. reflexivity.
  - vm_compute. reflexivity.
  - intros m [<-|[]]. vm_compute. reflexivity.
  - vm_compute. reflexivity.
Defined.

(** ** The profile of a user *)

Lemma members_field_string {T : Type} (fs : decode.fields T)
  (rawkey key : string) (get : T -> string) (set : string -> T -> T)
  (raw v : string) (rest : list (string * scanner.value)) (cur : T)
  (saved : option error) :
  json.unquote rawkey = Some key ->
  decode.findField fs key = Some (decode.field get set decode.string_) ->
  json.unquote raw = Some v ->
  decode.members fs ((rawkey, scanner.JString raw) :: rest) cur saved
  = decode.members fs rest (set v cur) saved.
Proof.
  intros Hk Hf Hv. cbn [decode.members]. rewrite Hk, Hf.
  unfold decode.field, decode.string_. rewrite Hv. reflexivity.
Qed.

Lemma members_field_struct {T F : Type} (fs : decode.fields T)
  (rawkey key : string) (get : T -> F) (set : F -> T -> T) (gotype : string)
  (fs' : decode.fields F) (ms : list (string * scanner.value)) (x : F)
  (rest : list (string * scanner.value)) (cur : T) (saved saved' : option error) :
  json.unquote rawkey = Some key ->
  decode.findField fs key
  = Some (decode.field get set (decode.struct gotype fs')) ->
  decode.members fs' ms (get cur) saved = decode.Going x saved' ->
  decode.members fs ((rawkey, scanner.JObject ms) :: rest) cur saved
  = decode.members fs rest (set x cur) saved'.
Proof.
  intros Hk Hf Hm. cbn [decode.members]. rewrite Hk, Hf.
  unfold decode.field, decode.struct. rewrite Hm. reflexivity.
Qed.

(** The text of a profile as the scanner reads it. *)
Lemma profileBody_text (n l g i rest : string) :
  profileBody n l g i ++ rest
  = "{" ++ quoted "profile" ++ ":" ++ "{"
    ++ membersText [("nickname", json.escapeString n);
                    ("location", json.escapeString l);
                    ("guid", json.escapeString g)]
    ++ "," ++ quoted "image" ++ ":" ++ "{"
    ++ membersText [("imageURL", json.escapeString i)]
    ++ "}" ++ "}" ++ "}" ++ rest.
Proof.
  unfold profileBody, json.appendString. cbn [membersText].
  change (json.escapeString "profile") with "profile".
  change (json.escapeString "nickname") with "nickname".
  change (json.escapeString "location") with "location".
  change (json.escapeString "guid") with "guid".
  change (json.escapeString "image") with "image".
  change (json.escapeString "imageURL") with "imageURL".
  unfold quoted. cbn [append].
  repeat (progress (rewrite ?append_assoc; cbn [append])).
  reflexivity.
Qed.

Lemma read_profile (kvs kvs' : list (string * string)) (rest : string) :
  kvs <> [] -> kvs' <> [] ->
  Forall (fun kv => literal (fst kv) /\ literal (snd kv)) kvs ->
  Forall (fun kv => literal (fst kv) /\ literal (snd kv)) kvs' ->
  scanner.readValue
    ("{" ++ quoted "profile" ++ ":" ++ "{" ++ membersText kvs
     ++ "," ++ quoted "image" ++ ":" ++ "{" ++ membersText kvs'
     ++ "}" ++ "}" ++ "}" ++ rest)
  = inr (scanner.JObject
           [("profile",
             scanner.JObject
               (stringMembers kvs
                ++ [("image", scanner.JObject (stringMembers kvs'))]))],
         rest).
Proof.
  intros Hne Hne' Hall Hall'.
  assert (Lp : literal "profile") by (apply literal_plain; repeat constructor).
  assert (Li : literal "image") by (apply literal_plain; repeat constructor).
  unfold scanner.readValue.
  cbn [append scanner.readFrom].
  change (scanner.scan (scanner.BeginValue, []) "{")
    with (scanner.Cont (scanner.BeginStringOrEmpty, [scanner.FObjKey []])).
  cbv beta iota.
  rewrite (readFrom_feed _ _ _ _ _
             (feed_quoted_key "profile" [] [] _ (or_intror eq_refl) Lp)).
  cbn [append scanner.readFrom].
  change (scanner.scan (scanner.EndValue, [scanner.FObjColon [] "profile"]) ":")
    with (scanner.Cont (scanner.BeginValue, [scanner.FObjVal [] "profile"])).
  cbv beta iota.
  change (scanner.scan (scanner.BeginValue, [scanner.FObjVal [] "profile"]) "{")
    with (scanner.Cont (scanner.BeginStringOrEmpty,
            [scanner.FObjKey []; scanner.FObjVal [] "profile"])).
  cbv beta iota.
  rewrite (readFrom_feed _ _ _ _ _
             (feed_members kvs Hne Hall [] [scanner.FObjVal [] "profile"] _
                (or_intror eq_refl))).
  rewrite app_nil_r. cbn [append scanner.readFrom].
  change (scanner.scan
            (scanner.EndValue,
             [scanner.FObjNext (rev (stringMembers kvs));
              scanner.FObjVal [] "profile"]) ",")
    with (scanner.Cont (scanner.BeginString,
            [scanner.FObjKey (rev (stringMembers kvs));
             scanner.FObjVal [] "profile"])).
  cbv beta iota.
  rewrite (readFrom_feed _ _ _ _ _
             (feed_quoted_key "image" (rev (stringMembers kvs))
                [scanner.FObjVal [] "profile"] _ (or_introl eq_refl) Li)).
  cbn [append scanner.readFrom].
  change (scanner.scan
            (scanner.EndValue,
             [scanner.FObjColon (rev (stringMembers kvs)) "image";
              scanner.FObjVal [] "profile"]) ":")
    with (scanner.Cont (scanner.BeginValue,
            [scanner.FObjVal (rev (stringMembers kvs)) "image";
             scanner.FObjVal [] "profile"])).
  cbv beta iota.
  change (scanner.scan
            (scanner.BeginValue,
             [scanner.FObjVal (rev (stringMembers kvs)) "image";
              scanner.FObjVal [] "profile"]) "{")
    with (scanner.Cont (scanner.BeginStringOrEmpty,
            [scanner.FObjKey [];
             scanner.FObjVal (rev (stringMembers kvs)) "image";
             scanner.FObjVal [] "profile"])).
  cbv beta iota.
  rewrite (readFrom_feed _ _ _ _ _
             (feed_members kvs' Hne' Hall' []
                [scanner.FObjVal (rev (stringMembers kvs)) "image";
                 scanner.FObjVal [] "profile"] _ (or_intror eq_refl))).
  rewrite app_nil_r. cbn [append scanner.readFrom].
  change (scanner.scan
            (scanner.EndValue,
             [scanner.FObjNext (rev (stringMembers kvs'));
              scanner.FObjVal (rev (stringMembers kvs)) "image";
              scanner.FObjVal [] "profile"]) "}")
    with (scanner.Cont (scanner.EndValue,
            [scanner.FObjNext
               (("image", scanner.JObject (rev (rev (stringMembers kvs'))))
                :: rev (stringMembers kvs));
             scanner.FObjVal [] "profile"])).
  cbv beta iota.
  change (scanner.scan
            (scanner.EndValue,
             [scanner.FObjNext
                (("image", scanner.JObject (rev (rev (stringMembers kvs'))))
                 :: rev (stringMembers kvs));
              scanner.FObjVal [] "profile"]) "}")
    with (scanner.Cont (scanner.EndValue,
            [scanner.FObjNext
               [("profile",
                 scanner.JObject
                   (rev (("image", scanner.JObject (rev (rev (stringMembers kvs'))))
                         :: rev (stringMembers kvs))))]])).
  cbv beta iota.
  change (scanner.scan
            (scanner.EndValue,
             [scanner.FObjNext
                [("profile",
                  scanner.JObject
                    (rev (("image", scanner.JObject (rev (rev (stringMembers kvs'))))
                          :: rev (stringMembers kvs))))]]) "}")
    with (scanner.EndAt
            (scanner.JObject
               (rev [("profile",
                      scanner.JObject
                        (rev (("image",
                               scanner.JObject (rev (rev (stringMembers kvs'))))
                              :: rev (stringMembers kvs))))]))).
  cbv beta iota.
  cbn [rev app]. rewrite !rev_involutive. reflexivity.
Qed.

(** X19: the profile that the endpoint sends is the profile that the user
    gets, for all values: when the body of the response starts with the
    object that has [nickname], [location] and [guid] and the [imageURL]
    of [image] under [profile], each a well-formed UTF-8 string in JSON,
    [FetchUser] returns no error and a user with the nickname as Name and
    NickName, the guid as UserID, the location as Location and the image
    URL as AvatarURL, with an empty Email and the tokens of the session. *)
Theorem FetchUser_profile_fields (client : http.Client) (p : yahoo.Provider)
  (s : yahoo.Session.t) (resp : http.Response)
  (nickname location guid imageURL rest : string) :
  utf8.ValidString nickname = true ->
  utf8.ValidString location = true ->
  utf8.ValidString guid = true ->
  utf8.ValidString imageURL = true ->
  client (profileRequest s) = http.DoOk resp ->
  http.Body resp = profileBody nickname location guid imageURL ++ rest ->
  yahoo.FetchUser client p (yahoo.Own (Some s))
  = Return ({| goth.Provider := "yahoo";
               goth.Email := "";
               goth.Name := nickname;
               goth.NickName := nickname;
               goth.UserID := guid;
               goth.AvatarURL := imageURL;
               goth.Location := location;
               goth.AccessToken := yahoo.Session.AccessToken s;
               goth.RefreshToken := yahoo.Session.RefreshToken s;
               goth.ExpiresAt := yahoo.Session.ExpiresAt s |},
            None).
Proof.
  intros Hn Hl Hg Hi Hc Hb. rewrite FetchUser_own, Hc, Hb.
  unfold yahoo.userFromReader, decode.Decode.
  rewrite profileBody_text, read_profile.
  - unfold decode.unmarshal, yahoo.payloadDecoder, decode.struct.
    cbn [stringMembers map fst snd app].
    rewrite (members_field_struct yahoo.payloadFields "profile" "profile"
               yahoo.Profile (fun x _ => yahoo.mkPayload x) "struct"
               yahoo.profileFields _
               (yahoo.mkProfile nickname location guid (yahoo.mkImage imageURL))
               [] yahoo.zeroPayload None None eq_refl eq_refl).
    + reflexivity.
    + rewrite (members_field_string yahoo.profileFields "nickname" "nickname"
                 _ _ _ _ _ _ _ eq_refl eq_refl (unquote_escapeString _ Hn)).
      rewrite (members_field_string yahoo.profileFields "location" "location"
                 _ _ _ _ _ _ _ eq_refl eq_refl (unquote_escapeString _ Hl)).
      rewrite (members_field_string yahoo.profileFields "guid" "guid"
                 _ _ _ _ _ _ _ eq_refl eq_refl (unquote_escapeString _ Hg)).
      rewrite (members_field_struct yahoo.profileFields "image" "image"
                 yahoo.Image _ "struct" yahoo.imageFields _
                 (yahoo.mkImage imageURL) [] _ None None eq_refl eq_refl).
      * reflexivity.
      * rewrite (members_field_string yahoo.imageFields "imageURL" "imageURL"
                   _ _ _ _ _ _ _ eq_refl eq_refl (unquote_escapeString _ Hi)).
        reflexivity.
  - discriminate.
  - discriminate.
  - repeat constructor; cbn [fst snd];
      try (apply literal_plain; repeat constructor; fail);
      apply literal_escape; assumption.
  - repeat constructor; cbn [fst snd];
      try (apply literal_plain; repeat constructor; fail);
      apply literal_escape; assumption.
Qed.

Lemma FetchUser_profile_fields_witness :
  yahoo.FetchUser
    (fun _ => http.DoOk (http.mkResponse 200
       (profileBody "J <D>" "Zurich" "G/1" "http://x/i.png?a=1&b=2" ++ " ")))
    (yahoo.New "key" "secret" "http://localhost/callback" [])
    (yahoo.Own (Some (yahoo.Session.mk "" "token" "refresh" time.zero)))
  = Return ({| goth.Provider := "yahoo";
               goth.Email := "";
               goth.Name := "J <D>";
               goth.NickName := "J <D>";
               goth.UserID := "G/1";
               goth.AvatarURL := "http://x/i.png?a=1&b=2";
               goth.Location := "Zurich";
               goth.AccessToken := "token";
               goth.RefreshToken := "refresh";
               goth.ExpiresAt := time.zero |},
            None).
Proof.
  apply (FetchUser_profile_fields
           (fun _ => http.DoOk (http.mkResponse 200
              (profileBody "J <D>" "Zurich" "G/1" "http://x/i.png?a=1&b=2" ++ " ")))
           (yahoo.New "key" "secret" "http://localhost/callback" [])
           (yahoo.Session.mk "" "token" "refresh" time.zero)
           (http.mkResponse 200
              (profileBody "J <D>" "Zurich" "G/1" "http://x/i.png?a=1&b=2" ++ " "))
           "J <D>" "Zurich" "G/1" "http://x/i.png?a=1&b=2" " ");
    reflexivity.
Defined.

(** ** The authorization URL and the session of [BeginAuth] *)

Lemma urlByte_query (c : ascii) : queryByte c = true -> urlByte c = true.
Proof. unfold urlByte. intros ->. reflexivity. Qed.

Lemma urlByte_ascii (c : ascii) : urlByte c = true -> (b2n c < 0x80)%N.
Proof. each_byte c; vm_compute; auto; discriminate. Qed.

Lemma item_urlBytes (kv : string * string) :
  Forall (fun c => urlByte c = true) (list_ascii_of_string (item kv)).
Proof.
  unfold item. rewrite !list_ascii_app. simpl.
  apply Forall_app. split; [|constructor; [reflexivity|]];
    (eapply Forall_impl; [|apply QueryEscape_bytes]);
    intros c Hc; apply urlByte_query; exact Hc.
Qed.

Lemma Join_urlBytes (ps : list (string * string)) :
  Forall (fun c => urlByte c = true)
    (list_ascii_of_string (strings.Join (map item ps) "&")).
Proof.
  induction ps as [|kv ps IH]; [constructor|].
  destruct ps as [|kv' ps]; [apply item_urlBytes|].
  change (strings.Join (map item (kv :: kv' :: ps)) "&")
    with (item kv ++ "&" ++ strings.Join (map item (kv' :: ps)) "&").
  rewrite !list_ascii_app. apply Forall_app. split; [apply item_urlBytes|].
  simpl. constructor; [reflexivity|exact IH].
Qed.

Lemma ascii_valid (s : string) :
  Forall (fun c => (b2n c < 0x80)%N) (list_ascii_of_string s) ->
  utf8.ValidString s = true.
Proof.
  induction s as [|c s IH]; intros H; [reflexivity|].
  inversion H; subst. cbn [utf8.ValidString].
  replace (utf8.first c) with utf8.LeadASCII
    by (symmetry; apply first_ascii; assumption).
  apply IH. assumption.
Qed.

Lemma AuthCodeURL_bytes (clientKey secret callbackURL : string)
  (scopes : list string) (state : string) :
  Forall (fun c => urlByte c = true)
    (list_ascii_of_string
       (oauth2.AuthCodeURL
          (oauth2.mkConfig clientKey secret
             (oauth2.mkEndpoint yahoo.authURL yahoo.tokenURL) callbackURL scopes)
          state)).
Proof.
  rewrite AuthCodeURL_eq, !list_ascii_app.
  apply Forall_app. split; [repeat constructor|].
  apply Forall_app. split; [repeat constructor|].
  apply Join_urlBytes.
Qed.

(** X20: whatever bytes the client key, the callback URL, the scopes and
    the state have, the authorization URL of the session that [BeginAuth]
    returns is plain ASCII: letters, digits, [-_.~], [%] and [+] from the
    escaping, and the delimiters [:/?=&] of the URL. It has no space, no
    quote, no control byte and nothing outside ASCII, and is well-formed
    UTF-8. *)
Theorem BeginAuth_URL_is_escaped (clientKey secret callbackURL : string)
  (scopes : list string) (state : string) :
  exists URL,
    yahoo.BeginAuth (yahoo.New clientKey secret callbackURL scopes) state
    = Return (yahoo.Own (Some (yahoo.Session.mk URL "" "" time.zero)), None)
    /\ Forall (fun c => urlByte c = true) (list_ascii_of_string URL)
    /\ Forall (fun c => (32 < b2n c < 127)%N /\ c <> dquote)
         (list_ascii_of_string URL)
    /\ utf8.ValidString URL = true.
Proof.
  eexists. split; [|split; [|split]].
  - unfold yahoo.BeginAuth, yahoo.New. cbn [yahoo.config].
    cbn [yahoo.ClientKey yahoo.Secret yahoo.CallbackURL].
    rewrite newConfig_eq. reflexivity.
  - apply AuthCodeURL_bytes.
  - eapply Forall_impl; [|apply AuthCodeURL_bytes].
    intros c. each_byte c; vm_compute; intros H; try discriminate H;
      (split; [split; reflexivity | discriminate]).
  - apply ascii_valid. eapply Forall_impl; [|apply AuthCodeURL_bytes].
    intros c. apply urlByte_ascii.
Qed.

Lemma URL_session_round_trip (parse : time.Parse) (p : yahoo.Provider)
  (URL : string) :
  utf8.ValidString URL = true ->
  yahoo.UnmarshalSession parse p
    (yahoo.Marshal (yahoo.Session.mk URL "" "" time.zero))
  = (yahoo.Own (Some (yahoo.Session.mk URL "" "" time.zero)), None).
Proof.
  intros Hv. unfold yahoo.UnmarshalSession, decode.Decode.
  rewrite Marshal_text;
    [|vm_compute; split; discriminate|vm_compute; split; reflexivity].
  cbn [yahoo.Session.AuthURL yahoo.Session.AccessToken
       yahoo.Session.RefreshToken yahoo.Session.ExpiresAt].
  rewrite read_object.
  - unfold decode.unmarshal, yahoo.sessionDecoder, decode.struct.
    cbn [stringMembers map fst snd].
    rewrite (members_string parse "AuthURL" "AuthURL" _ _ _ _ _ _ _
               eq_refl eq_refl (unquote_escapeString _ Hv)).
    rewrite (members_string parse "AccessToken" "AccessToken" _ _ _ _ _ _ _
               eq_refl eq_refl (unquote_escapeString "" eq_refl)).
    rewrite (members_string parse "RefreshToken" "RefreshToken" _ _ _ _ _ _ _
               eq_refl eq_refl (unquote_escapeString "" eq_refl)).
    assert (Ht : time.parseRFC3339 (time.appendFormatRFC3339 time.zero)
                 = Some time.zero) by (vm_compute; reflexivity).
    rewrite (members_time parse "ExpiresAt" "ExpiresAt" _ _ _ _ _ _ _
               eq_refl eq_refl Ht).
    reflexivity.
  - discriminate.
  - repeat constructor; cbn [fst snd];
      try (apply literal_plain; repeat constructor; fail);
      try (apply literal_escape; first [exact Hv | reflexivity]).
Qed.

(** X21: the session that [BeginAuth] returns survives its string form,
    whatever the client key, the callback URL, the scopes and the state
    are: [UnmarshalSession] on the string that [Marshal] gives for it
    returns the same session and no error. *)
Theorem BeginAuth_session_round_trip (parse : time.Parse)
  (clientKey secret callbackURL : string) (scopes : list string)
  (state : string) (p : yahoo.Provider) :
  exists s,
    yahoo.BeginAuth (yahoo.New clientKey secret callbackURL scopes) state
    = Return (yahoo.Own (Some s), None)
    /\ yahoo.UnmarshalSession parse p (yahoo.Marshal s)
       = (yahoo.Own (Some s), None).
Proof.
  eexists. split.
  - unfold yahoo.BeginAuth, yahoo.New. cbn [yahoo.config].
    cbn [yahoo.ClientKey yahoo.Secret yahoo.CallbackURL].
    rewrite newConfig_eq. reflexivity.
  - apply URL_session_round_trip.
    apply ascii_valid. eapply Forall_impl; [|apply AuthCodeURL_bytes].
    intros c. apply urlByte_ascii.
Qed.

(** X22: [FetchUser] does not look whether the session has an access
    token. On the session that [BeginAuth] returns, which has none, it
    sends the profile request all the same, with the header
    [Authorization: Bearer ] and nothing after it, and returns what it
    returns for any session: the error of the client or the decoded body
    of the response. *)
Theorem FetchUser_after_BeginAuth (client : http.Client)
  (clientKey secret callbackURL : string) (scopes : list string)
  (state : string) (p : yahoo.Provider) :
  exists session,
    yahoo.BeginAuth (yahoo.New clientKey secret callbackURL scopes) state
    = Return (session, None)
    /\ yahoo.FetchUser client p session
       = match client (http.mkRequest "GET"
                         "https://social.yahooapis.com/v1/user/GUID/profile?format=json"
                         [("Authorization", "Bearer ")]) with
         | http.DoErr _ err =>
           Return (goth.mkUser "yahoo" "" "" "" "" "" "" "" "" time.zero,
                   Some (url_Error err))
         | http.DoOk resp =>
           Return (yahoo.userFromReader (http.Body resp)
                     (goth.mkUser "yahoo" "" "" "" "" "" "" "" "" time.zero))
         end.
Proof.
  eexists. split.
  - unfold yahoo.BeginAuth, yahoo.New. cbn [yahoo.config]. reflexivity.
  - rewrite FetchUser_own. reflexivity.
Qed.
